(** * The interval timer engine of Study-Buddy

    A shallow embedding of the [Timer] component of
    [src/components/Navigation.tsx]: its React state, its refs, the handlers
    and the effects, each as a function on an explicit world.

    - Numbers are integers ([Z]): epochs in milliseconds, durations in
      seconds and minutes.  [Math.floor (x / 1000)] is [x / 1000].
    - A render closes over the props and the state of that render
      ([Render]); every handler and effect takes the closure it was created
      in as its first argument, and reads the refs, the storage and the
      queued state from the world it runs in.
    - [setX v] replaces the queued value, [setX f] applies [f] to it; the
      next render sees the queued state.
    - After a render the effects whose dependencies changed run in the order
      the component declares them, cleanups first; on mount all of them run.
    - [localStorage] is a map from keys to snapshots; a write that throws
      and a snapshot that does not parse are not modelled.
    - The remote client is what it answers to each call of one event
      ([Env]), together with the clock.

    Beside the timer the file embeds the helper [formatSeconds] of the same
    file, the list of upcoming sessions of [Dashboard], and the user scoping
    of [src/utils/storage.ts] that the navigation's sign-out clears. *)

From Stdlib Require Import ZArith Bool List String Lia.
From Stdlib Require DecimalString DecimalZ DecimalPos.
Import ListNotations.
Open Scope string_scope.
Open Scope Z_scope.

(** ** JavaScript primitives used by the component *)

(** [Math.max(min, Math.min(max, value))] *)
Definition clamp (value min max : Z) : Z := Z.max min (Z.min max value).

(** Truthiness of a number: [0] is falsy. *)
Definition truthy (n : Z) : bool := negb (n =? 0).

(** [n || d] on numbers. *)
Definition orNum (n d : Z) : Z := if truthy n then n else d.

(** [s || d] on strings: the empty string is falsy. *)
Definition orStr (s d : string) : string := if String.eqb s EmptyString then d else s.

(** Truthiness of a [number | null]: [null] and [0] are falsy. *)
Definition present (o : option Z) : bool :=
  match o with Some n => truthy n | None => false end.

(** [Math.round(a / b)] for integers [a] and [b > 0]: [floor (a/b + 1/2)]. *)
Definition roundDiv (a b : Z) : Z := (2 * a + b) / (2 * b).

(** ** Types of the component *)

Inductive Phase := focus | shortBreak | longBreak.

Inductive SessionKind := study | review | practice.

Inductive StudyMethod := pomodoro | custom.

Definition Phase_eqb (a b : Phase) : bool :=
  match a, b with
  | focus, focus | shortBreak, shortBreak | longBreak, longBreak => true
  | _, _ => false
  end.

Definition SessionKind_eqb (a b : SessionKind) : bool :=
  match a, b with
  | study, study | review, review | practice, practice => true
  | _, _ => false
  end.

Module PomodoroSettings.
Record t := mk {
  focusTime : Z;
  shortBreak : Z;
  longBreak : Z;
  sessionsUntilLongBreak : Z }.
End PomodoroSettings.

(** [UserPreferences], with the fields the timer reads; a subject is its id. *)
Record UserPreferences := mkPreferences {
  subjects : list string;
  studyMethod : StudyMethod;
  pomodoroSettings : PomodoroSettings.t }.

(** The [useState] cells of the component. *)
Record TimerState := mkState {
  userId : option string;
  selectedSubjectId : string;
  sessionTitle : string;
  sessionType : SessionKind;
  phase : Phase;
  completedFocusCount : Z;
  isRunning : bool;
  customMinutes : Z;
  remainingSeconds : Z }.

(** What a render closes over: the props and the state of that render. *)
Record Render := mkRender {
  preferences : UserPreferences;
  st : TimerState }.

Module TimerPersistedState.
Record t := mk {
  phase : Phase;
  isRunning : bool;
  customMinutes : Z;
  selectedSubjectId : string;
  sessionTitle : string;
  sessionType : SessionKind;
  completedFocusCount : Z;
  phaseDurationSeconds : Z;
  remainingSeconds : Z;
  phaseStartEpochMs : option Z;
  isPomodoro : bool }.

(** The overrides the component passes to [persistState], as updates of
    single keys ([{...state, key: v}]). *)
Definition with_phase (v : Phase) (s : t) : t :=
  mk v (isRunning s) (customMinutes s) (selectedSubjectId s) (sessionTitle s)
     (sessionType s) (completedFocusCount s) (phaseDurationSeconds s)
     (remainingSeconds s) (phaseStartEpochMs s) (isPomodoro s).
Definition with_isRunning (v : bool) (s : t) : t :=
  mk (phase s) v (customMinutes s) (selectedSubjectId s) (sessionTitle s)
     (sessionType s) (completedFocusCount s) (phaseDurationSeconds s)
     (remainingSeconds s) (phaseStartEpochMs s) (isPomodoro s).
Definition with_phaseDurationSeconds (v : Z) (s : t) : t :=
  mk (phase s) (isRunning s) (customMinutes s) (selectedSubjectId s) (sessionTitle s)
     (sessionType s) (completedFocusCount s) v
     (remainingSeconds s) (phaseStartEpochMs s) (isPomodoro s).
Definition with_remainingSeconds (v : Z) (s : t) : t :=
  mk (phase s) (isRunning s) (customMinutes s) (selectedSubjectId s) (sessionTitle s)
     (sessionType s) (completedFocusCount s) (phaseDurationSeconds s)
     v (phaseStartEpochMs s) (isPomodoro s).
Definition with_phaseStartEpochMs (v : option Z) (s : t) : t :=
  mk (phase s) (isRunning s) (customMinutes s) (selectedSubjectId s) (sessionTitle s)
     (sessionType s) (completedFocusCount s) (phaseDurationSeconds s)
     (remainingSeconds s) v (isPomodoro s).
End TimerPersistedState.

Definition Persisted : Type := TimerPersistedState.t.

(** ** The remote collaborator *)

(** A row of the [rewards] table. *)
Record RewardsRow := mkRewards {
  current : option Z;
  longest : option Z;
  last_study_date : option string }.

(** The writes the component sends to the remote tables.  The session row
    carries the start and the end of the session as epochs; its title and
    its formatted date and clock strings are left out. *)
Inductive RemoteCall :=
| InsertSession (user_id subject_id : string) (duration : Z)
                (start_time end_time : Z) (kind : SessionKind)
| UpdateRewards (user_id : string) (newCurrent newLongest : Z) (today : string)
| InsertRewards (user_id : string) (today : string).

(** An awaited promise either resolves or rejects. *)
Inductive Reply (A : Type) := Resolved (a : A) | Rejected.
Arguments Resolved {A} a.
Arguments Rejected {A}.

(** What the outside world answers during one event: the clock, the two
    dates the streak update compares, and the replies of the remote client. *)
Record Env := mkEnv {
  now : Z;
  todayIso : string;
  yesterdayIso : string;
  getUser : Reply (option string);
  insertSession : Reply unit;
  selectRewards : Reply (option RewardsRow);
  updateRewards : Reply unit;
  insertRewards : Reply unit }.

(** An asynchronous computation: it adds to the calls sent so far and either
    yields a value or throws ([None]). *)
Definition Async (A : Type) : Type := list RemoteCall -> option A * list RemoteCall.

Definition ret {A} (a : A) : Async A := fun sent => (Some a, sent).

Definition bind {A B} (m : Async A) (k : A -> Async B) : Async B :=
  fun sent =>
    match m sent with
    | (Some a, sent') => k a sent'
    | (None, sent') => (None, sent')
    end.

(** [await] of a call that sends nothing by itself. *)
Definition await {A} (r : Reply A) : Async A :=
  fun sent => match r with Resolved a => (Some a, sent) | Rejected => (None, sent) end.

(** [await] of a write: the call is sent, then resolves or rejects. *)
Definition send (c : RemoteCall) (r : Reply unit) : Async unit :=
  fun sent => match r with
              | Resolved a => (Some a, (sent ++ [c])%list)
              | Rejected => (None, (sent ++ [c])%list)
              end.

(** [try { body } catch (e) { /* no-op */ }] *)
Definition tryCatch (body : Async unit) : Async unit :=
  fun sent =>
    match body sent with
    | (Some a, sent') => (Some a, sent')
    | (None, sent') => (Some tt, sent')
    end.

Declare Scope async_scope.
Delimit Scope async_scope with async.
Notation "x <- m ;; k" := (bind m (fun x => k))
  (at level 61, m at next level, right associativity) : async_scope.
Notation "m ;; k" := (bind m (fun _ => k))
  (at level 61, right associativity) : async_scope.

(** ** The world a handler runs in *)

Record World := mkWorld {
  props : UserPreferences;                     (* the latest props *)
  next : TimerState;                           (* state, queued updates applied *)
  focusStartTimeRef : option Z;
  phaseStartEpochMsRef : option Z;
  tickIntervalRef : option Render;             (* the live interval: the closure its callback captured *)
  onVisibility : Render;                       (* the closure of the registered listener *)
  localStorage : string -> option Persisted;
  sent : list RemoteCall }.

Definition render (w : World) : Render := mkRender (props w) (next w).

(** Statements are world transformers, run left to right. *)
Definition Stmt : Type := World -> World.

Definition seq (a b : Stmt) : Stmt := fun w => b (a w).
Definition skip : Stmt := fun w => w.
Definition when (b : bool) (s : Stmt) : Stmt := if b then s else skip.

Declare Scope stmt_scope.
Delimit Scope stmt_scope with stmt.
Notation "a ;; b" := (seq a b) (at level 61, right associativity) : stmt_scope.

Definition setProps (p : UserPreferences) : Stmt := fun w =>
  mkWorld p (next w) (focusStartTimeRef w) (phaseStartEpochMsRef w)
          (tickIntervalRef w) (onVisibility w) (localStorage w) (sent w).

Definition setState (f : TimerState -> TimerState) : Stmt := fun w =>
  mkWorld (props w) (f (next w)) (focusStartTimeRef w) (phaseStartEpochMsRef w)
          (tickIntervalRef w) (onVisibility w) (localStorage w) (sent w).

Definition setFocusStartTimeRef (v : option Z) : Stmt := fun w =>
  mkWorld (props w) (next w) v (phaseStartEpochMsRef w)
          (tickIntervalRef w) (onVisibility w) (localStorage w) (sent w).

Definition setPhaseStartEpochMsRef (v : option Z) : Stmt := fun w =>
  mkWorld (props w) (next w) (focusStartTimeRef w) v
          (tickIntervalRef w) (onVisibility w) (localStorage w) (sent w).

Definition setTickIntervalRef (v : option Render) : Stmt := fun w =>
  mkWorld (props w) (next w) (focusStartTimeRef w) (phaseStartEpochMsRef w)
          v (onVisibility w) (localStorage w) (sent w).

Definition setOnVisibility (v : Render) : Stmt := fun w =>
  mkWorld (props w) (next w) (focusStartTimeRef w) (phaseStartEpochMsRef w)
          (tickIntervalRef w) v (localStorage w) (sent w).

Definition setItem (key : string) (v : Persisted) : Stmt := fun w =>
  mkWorld (props w) (next w) (focusStartTimeRef w) (phaseStartEpochMsRef w)
          (tickIntervalRef w) (onVisibility w)
          (fun k => if String.eqb k key then Some v else localStorage w k) (sent w).

Definition setSent (l : list RemoteCall) : Stmt := fun w =>
  mkWorld (props w) (next w) (focusStartTimeRef w) (phaseStartEpochMsRef w)
          (tickIntervalRef w) (onVisibility w) (localStorage w) l.

(** The state setters of [useState]. *)
Definition setUserId (v : option string) : Stmt := setState (fun s =>
  mkState v (selectedSubjectId s) (sessionTitle s) (sessionType s) (phase s)
          (completedFocusCount s) (isRunning s) (customMinutes s) (remainingSeconds s)).
Definition setSelectedSubjectId (v : string) : Stmt := setState (fun s =>
  mkState (userId s) v (sessionTitle s) (sessionType s) (phase s)
          (completedFocusCount s) (isRunning s) (customMinutes s) (remainingSeconds s)).
Definition setSessionTitle (v : string) : Stmt := setState (fun s =>
  mkState (userId s) (selectedSubjectId s) v (sessionType s) (phase s)
          (completedFocusCount s) (isRunning s) (customMinutes s) (remainingSeconds s)).
Definition setSessionType (v : SessionKind) : Stmt := setState (fun s =>
  mkState (userId s) (selectedSubjectId s) (sessionTitle s) v (phase s)
          (completedFocusCount s) (isRunning s) (customMinutes s) (remainingSeconds s)).
Definition setPhase (v : Phase) : Stmt := setState (fun s =>
  mkState (userId s) (selectedSubjectId s) (sessionTitle s) (sessionType s) v
          (completedFocusCount s) (isRunning s) (customMinutes s) (remainingSeconds s)).
(** [setCompletedFocusCount] also takes an updater, applied to the queued value. *)
Definition setCompletedFocusCount (f : Z -> Z) : Stmt := setState (fun s =>
  mkState (userId s) (selectedSubjectId s) (sessionTitle s) (sessionType s) (phase s)
          (f (completedFocusCount s)) (isRunning s) (customMinutes s) (remainingSeconds s)).
Definition setIsRunning (v : bool) : Stmt := setState (fun s =>
  mkState (userId s) (selectedSubjectId s) (sessionTitle s) (sessionType s) (phase s)
          (completedFocusCount s) v (customMinutes s) (remainingSeconds s)).
Definition setCustomMinutes (v : Z) : Stmt := setState (fun s =>
  mkState (userId s) (selectedSubjectId s) (sessionTitle s) (sessionType s) (phase s)
          (completedFocusCount s) (isRunning s) v (remainingSeconds s)).
Definition setRemainingSeconds (v : Z) : Stmt := setState (fun s =>
  mkState (userId s) (selectedSubjectId s) (sessionTitle s) (sessionType s) (phase s)
          (completedFocusCount s) (isRunning s) (customMinutes s) v).

(** A statement that reads the world it runs in (a ref, the storage). *)
Definition reading (f : World -> Stmt) : Stmt := fun w => f w w.

(** A call of an [async] function that is not awaited: what it sends is
    sent, its outcome is dropped. *)
Definition fireAndForget (a : Async unit) : Stmt := fun w =>
  setSent (snd (a (sent w))) w.

Local Open Scope stmt_scope.

(** ** Values derived in a render *)

Definition hasSubjects (c : Render) : bool :=
  match subjects (preferences c) with [] => false | _ :: _ => true end.

Definition defaultSubjectId (c : Render) : string :=
  match subjects (preferences c) with [] => EmptyString | s :: _ => s end.

Definition stateKey (c : Render) : string :=
  match userId (st c) with
  | Some u => if String.eqb u EmptyString then "guest:timer-state" else u ++ ":timer-state"
  | None => "guest:timer-state"
  end.

Definition isPomodoro (c : Render) : bool :=
  match studyMethod (preferences c) with pomodoro => true | custom => false end.

Definition focusMinutes (c : Render) : Z :=
  clamp (orNum (PomodoroSettings.focusTime (pomodoroSettings (preferences c))) 25) 1 180.

Definition shortBreakMinutes (c : Render) : Z :=
  clamp (orNum (PomodoroSettings.shortBreak (pomodoroSettings (preferences c))) 5) 1 60.

Definition longBreakMinutes (c : Render) : Z :=
  clamp (orNum (PomodoroSettings.longBreak (pomodoroSettings (preferences c))) 15) 1 120.

Definition sessionsUntilLongBreak (c : Render) : Z :=
  clamp (orNum (PomodoroSettings.sessionsUntilLongBreak (pomodoroSettings (preferences c))) 4) 1 12.

Definition phaseDurationSeconds (c : Render) : Z :=
  if negb (isPomodoro c) then customMinutes (st c) * 60
  else match phase (st c) with
       | focus => focusMinutes c * 60
       | shortBreak => shortBreakMinutes c * 60
       | longBreak => longBreakMinutes c * 60
       end.

(** ** The handlers and effects of [Timer] *)

Definition persistState (c : Render) (override : Persisted -> Persisted) : Stmt :=
  reading (fun w =>
    setItem (stateKey c)
      (override
         (TimerPersistedState.mk
            (phase (st c)) (isRunning (st c)) (customMinutes (st c))
            (selectedSubjectId (st c)) (sessionTitle (st c)) (sessionType (st c))
            (completedFocusCount (st c)) (phaseDurationSeconds c)
            (remainingSeconds (st c)) (phaseStartEpochMsRef w) (isPomodoro c)))).

(** [persistState()] without an override. *)
Definition noOverride : Persisted -> Persisted := fun s => s.

Definition logCompletedFocusSession (c : Render) (env : Env)
    (focusStartTime : option Z) (actualFocusMinutes : Z) : Async unit :=
  if negb (hasSubjects c) then ret tt
  else
    let endTime := now env in
    let startTime := match focusStartTime with
                     | Some t => t
                     | None => endTime - actualFocusMinutes * 60 * 1000
                     end in
    tryCatch
      (auth <- await (getUser env) ;;
       match auth with
       | None => ret tt
       | Some uid =>
         if String.eqb uid EmptyString then ret tt
         else
           send (InsertSession uid (selectedSubjectId (st c)) actualFocusMinutes
                               startTime endTime (sessionType (st c)))
                (insertSession env) ;;
           streakRows <- await (selectRewards env) ;;
           match streakRows with
           | Some row =>
             let newCurrent :=
               match last_study_date row with
               | Some lastDate =>
                 if String.eqb lastDate (yesterdayIso env)
                 then match current row with Some n => n | None => 0 end + 1
                 else 1
               | None => 1
               end in
             let newLongest :=
               Z.max (match longest row with Some n => n | None => 0 end) newCurrent in
             send (UpdateRewards uid newCurrent newLongest (todayIso env)) (updateRewards env)
           | None =>
             send (InsertRewards uid (todayIso env)) (insertRewards env)
           end
       end)%async.

Definition handlePhaseComplete (c : Render) (env : Env) : Stmt :=
  let secondsUsed := phaseDurationSeconds c in
  match phase (st c) with
  | focus =>
    let usedMinutes := roundDiv secondsUsed 60 in
    let shouldLongBreak :=
      Z.rem (completedFocusCount (st c) + 1) (sessionsUntilLongBreak c) =? 0 in
    let nextPhase := if shouldLongBreak then longBreak else shortBreak in
    reading (fun w =>
      fireAndForget (logCompletedFocusSession c env (focusStartTimeRef w) usedMinutes)) ;;
    setCompletedFocusCount (fun n => n + 1) ;;
    setFocusStartTimeRef None ;;
    setPhase nextPhase ;;
    setIsRunning false ;;
    setPhaseStartEpochMsRef None ;;
    persistState c (fun s =>
      TimerPersistedState.with_remainingSeconds
        ((if shouldLongBreak then longBreakMinutes c else shortBreakMinutes c) * 60)
        (TimerPersistedState.with_phaseStartEpochMs None
           (TimerPersistedState.with_isRunning false
              (TimerPersistedState.with_phase nextPhase s))))
  | _ =>
    setPhase focus ;;
    setIsRunning false ;;
    setPhaseStartEpochMsRef None ;;
    persistState c (fun s =>
      TimerPersistedState.with_remainingSeconds (focusMinutes c * 60)
        (TimerPersistedState.with_phaseStartEpochMs None
           (TimerPersistedState.with_isRunning false
              (TimerPersistedState.with_phase focus s))))
  end.

Definition recomputeRemaining (c : Render) (env : Env) : Stmt :=
  reading (fun w =>
    match phaseStartEpochMsRef w with
    | Some anchor =>
      when (isRunning (st c) && truthy anchor)
        (let elapsedSec := (now env - anchor) / 1000 in
         let newRemaining := Z.max 0 (phaseDurationSeconds c - elapsedSec) in
         setRemainingSeconds newRemaining ;;
         when (newRemaining <=? 0) (handlePhaseComplete c env))
    | None => skip
    end).

(** The restore effect, [useEffect(..., [stateKey])]. *)
Definition restoreEffect (c : Render) (env : Env) : Stmt :=
  reading (fun w =>
    match localStorage w (stateKey c) with
    | None => skip
    | Some saved =>
      setPhase (TimerPersistedState.phase saved) ;;
      setIsRunning (TimerPersistedState.isRunning saved) ;;
      setCustomMinutes (TimerPersistedState.customMinutes saved) ;;
      setSelectedSubjectId
        (orStr (TimerPersistedState.selectedSubjectId saved) (defaultSubjectId c)) ;;
      setSessionTitle (orStr (TimerPersistedState.sessionTitle saved) "Focus Session") ;;
      setSessionType (TimerPersistedState.sessionType saved) ;;
      setCompletedFocusCount
        (fun _ => orNum (TimerPersistedState.completedFocusCount saved) 0) ;;
      setPhaseStartEpochMsRef (TimerPersistedState.phaseStartEpochMs saved) ;;
      when (TimerPersistedState.isRunning saved
            && Phase_eqb (TimerPersistedState.phase saved) focus
            && present (TimerPersistedState.phaseStartEpochMs saved))
        (setFocusStartTimeRef (TimerPersistedState.phaseStartEpochMs saved)) ;;
      match TimerPersistedState.phaseStartEpochMs saved with
      | Some anchor =>
        if TimerPersistedState.isRunning saved && truthy anchor then
          let elapsed := (now env - anchor) / 1000 in
          let dur := orNum (TimerPersistedState.phaseDurationSeconds saved)
                           (phaseDurationSeconds c) in
          let rem := Z.max 0 (dur - elapsed) in
          setRemainingSeconds rem ;;
          when (rem <=? 0) (handlePhaseComplete c env)
        else setRemainingSeconds (TimerPersistedState.remainingSeconds saved)
      | None => setRemainingSeconds (TimerPersistedState.remainingSeconds saved)
      end
    end).

(** The effect on [phaseDurationSeconds, isRunning]. *)
Definition durationResetEffect (c : Render) : Stmt :=
  when (negb (isRunning (st c)))
    (setRemainingSeconds (phaseDurationSeconds c) ;;
     persistState c (fun s =>
       TimerPersistedState.with_remainingSeconds (phaseDurationSeconds c)
         (TimerPersistedState.with_phaseDurationSeconds (phaseDurationSeconds c) s))).

(** The block both [handleStartPause] and the interval effect run when no
    anchor is set: align the start so that the remaining time matches. *)
Definition alignStart (c : Render) (env : Env) : Stmt :=
  reading (fun w =>
    when (negb (present (phaseStartEpochMsRef w)))
      (let assumedStart :=
         now env - (phaseDurationSeconds c - remainingSeconds (st c)) * 1000 in
       setPhaseStartEpochMsRef (Some assumedStart) ;;
       reading (fun w' =>
         when (Phase_eqb (phase (st c)) focus
               && match focusStartTimeRef w' with None => true | Some _ => false end)
           (setFocusStartTimeRef (Some assumedStart))))).

(** The callback of the one-second interval, in the closure of the render
    that installed it. *)
Definition tick (c : Render) (env : Env) : Stmt :=
  reading (fun w =>
    let anchor := match phaseStartEpochMsRef w with
                  | Some a => orNum a (now env)
                  | None => now env
                  end in
    let elapsedSec := (now env - anchor) / 1000 in
    let newRemaining := Z.max 0 (phaseDurationSeconds c - elapsedSec) in
    if newRemaining <=? 0 then
      setTickIntervalRef None ;;
      handlePhaseComplete c env ;;
      persistState c (TimerPersistedState.with_remainingSeconds 0) ;;
      setRemainingSeconds 0
    else
      persistState c (TimerPersistedState.with_remainingSeconds newRemaining) ;;
      setRemainingSeconds newRemaining).

(** The interval effect on [isRunning, phase, phaseDurationSeconds]. *)
Definition intervalEffect (c : Render) (env : Env) : Stmt :=
  if negb (isRunning (st c)) then
    setTickIntervalRef None ;;
    persistState c noOverride
  else
    alignStart c env ;;
    setTickIntervalRef (Some c).

(** Its cleanup. *)
Definition intervalCleanup : Stmt := setTickIntervalRef None.

Definition handleStartPause (c : Render) (env : Env) : Stmt :=
  reading (fun w =>
    let prev := isRunning (next w) in
    let next := negb prev in
    when next (alignStart c env) ;;
    persistState c (TimerPersistedState.with_isRunning next) ;;
    setIsRunning next).

Definition handleReset (c : Render) : Stmt :=
  setIsRunning false ;;
  setRemainingSeconds (phaseDurationSeconds c) ;;
  setPhaseStartEpochMsRef None ;;
  when (Phase_eqb (phase (st c)) focus) (setFocusStartTimeRef None) ;;
  persistState c (fun s =>
    TimerPersistedState.with_phaseStartEpochMs None
      (TimerPersistedState.with_remainingSeconds (phaseDurationSeconds c)
         (TimerPersistedState.with_isRunning false s))).

(** ** Renders, effects and events *)

(** Dependency arrays, compared between the previous render and this one. *)
Definition restoreDeps (old new : Render) : bool :=
  negb (String.eqb (stateKey old) (stateKey new)).

Definition durationDeps (old new : Render) : bool :=
  negb (phaseDurationSeconds old =? phaseDurationSeconds new)
  || negb (Bool.eqb (isRunning (st old)) (isRunning (st new))).

Definition intervalDeps (old new : Render) : bool :=
  negb (Bool.eqb (isRunning (st old)) (isRunning (st new)))
  || negb (Phase_eqb (phase (st old)) (phase (st new)))
  || negb (phaseDurationSeconds old =? phaseDurationSeconds new).

Definition visibilityDeps (old new : Render) : bool :=
  negb (Bool.eqb (isRunning (st old)) (isRunning (st new)))
  || negb (phaseDurationSeconds old =? phaseDurationSeconds new).

Definition persistDeps (old new : Render) : bool :=
  negb (Phase_eqb (phase (st old)) (phase (st new)))
  || negb (Bool.eqb (isRunning (st old)) (isRunning (st new)))
  || negb (customMinutes (st old) =? customMinutes (st new))
  || negb (String.eqb (selectedSubjectId (st old)) (selectedSubjectId (st new)))
  || negb (String.eqb (sessionTitle (st old)) (sessionTitle (st new)))
  || negb (SessionKind_eqb (sessionType (st old)) (sessionType (st new)))
  || negb (completedFocusCount (st old) =? completedFocusCount (st new)).

(** The effects of one commit, in the order the component declares them,
    each in the closure [new] of the render being committed; the cleanup of
    the interval effect runs first.  On mount every effect runs. *)
Definition runEffects (mounting : bool) (old new : Render) (env : Env) : Stmt :=
  when (negb mounting && intervalDeps old new) intervalCleanup ;;
  when (mounting || restoreDeps old new) (restoreEffect new env) ;;
  when (mounting || durationDeps old new) (durationResetEffect new) ;;
  when (mounting || intervalDeps old new) (intervalEffect new env) ;;
  when (mounting || visibilityDeps old new) (setOnVisibility new) ;;
  when (mounting || persistDeps old new) (persistState new noOverride).

(** Render and commit until the effects queue no further update: [n]
    rounds, each comparing with the render before it. *)
Fixpoint commit (n : nat) (old : Render) (env : Env) (w : World) : World :=
  match n with
  | O => w
  | S k => let new := render w in commit k new env (runEffects false old new env w)
  end.

Inductive Event :=
| StartPause                                 (* the start/pause button *)
| Reset                                      (* the reset button *)
| Tick                                       (* the interval fires *)
| Visible                                    (* visibilitychange or focus, tab visible *)
| CustomMinutes (value : Z)                  (* the custom-minutes input *)
| SelectSubject (id : string)
| SessionTitle (title : string)
| SessionType (kind : SessionKind)
| Preferences (p : UserPreferences)          (* new props *)
| AuthResolved (uid : option string).        (* getUser() of the mount effect resolved *)

Definition handle (ev : Event) (c : Render) (env : Env) : Stmt :=
  match ev with
  | StartPause => handleStartPause c env
  | Reset => handleReset c
  | Tick => reading (fun w =>
              match tickIntervalRef w with
              | Some captured => tick captured env
              | None => skip
              end)
  | Visible => reading (fun w => recomputeRemaining (onVisibility w) env)
  | CustomMinutes value => setCustomMinutes (clamp value 5 180)
  | SelectSubject id => setSelectedSubjectId id
  | SessionTitle title => setSessionTitle title
  | SessionType kind => setSessionType kind
  | Preferences p => setProps p
  | AuthResolved uid => setUserId uid
  end.

(** One event: its handler runs in the closure of the current render, then
    the component re-renders and commits.  Two rounds settle: the effects
    of the second round queue nothing that a third would see. *)
Definition step (env : Env) (ev : Event) (w : World) : World :=
  let c := render w in
  commit 2 c env (handle ev c env w).

Definition initialState (p : UserPreferences) : TimerState :=
  let s0 := mkState None
                    (match subjects p with [] => EmptyString | s :: _ => s end)
                    "Focus Session" study focus 0 false 25 0 in
  mkState None (selectedSubjectId s0) (sessionTitle s0) (sessionType s0) focus 0 false 25
          (phaseDurationSeconds (mkRender p s0)).

(** The world of the first render: default state, empty refs. *)
Definition initialWorld (p : UserPreferences)
    (storage : string -> option Persisted) : World :=
  mkWorld p (initialState p) None None None (mkRender p (initialState p)) storage [].

(** Mounting the component over a given storage. *)
Definition mount (env : Env) (p : UserPreferences)
    (storage : string -> option Persisted) : World :=
  let c := mkRender p (initialState p) in
  commit 2 c env (runEffects true c c env (initialWorld p storage)).

(** ** Observations *)

(** Everything of the state but [remainingSeconds]. *)
Definition core (s : TimerState) :=
  (userId s, selectedSubjectId s, sessionTitle s, sessionType s,
   phase s, completedFocusCount s, isRunning s, customMinutes s).

(** The session rows among the calls sent. *)
Fixpoint sessionsLogged (l : list RemoteCall) : nat :=
  match l with
  | [] => O
  | InsertSession _ _ _ _ _ _ :: rest => S (sessionsLogged rest)
  | _ :: rest => sessionsLogged rest
  end.

(** The streak writes among the calls sent. *)
Fixpoint streakWrites (l : list RemoteCall) : nat :=
  match l with
  | [] => O
  | InsertSession _ _ _ _ _ _ :: rest => streakWrites rest
  | _ :: rest => S (streakWrites rest)
  end.

(** What the countdown shows at the clock of [env], from an anchor and the
    duration of [c]. *)
Definition remainingAt (c : Render) (env : Env) (anchor : Z) : Z :=
  Z.max 0 (phaseDurationSeconds c - (now env - anchor) / 1000).

(** The phase a completion in closure [c] moves to. *)
Definition nextPhaseOf (c : Render) : Phase :=
  match phase (st c) with
  | focus =>
    if Z.rem (completedFocusCount (st c) + 1) (sessionsUntilLongBreak c) =? 0
    then longBreak else shortBreak
  | _ => focus
  end.

(** An authenticated user id is available to the logging call. *)
Definition userAvailable (env : Env) : bool :=
  match getUser env with
  | Resolved (Some uid) => negb (String.eqb uid EmptyString)
  | _ => false
  end.

(** The events that change the configuration: the custom minutes and the props. *)
Definition isConfigChange (ev : Event) : Prop :=
  match ev with
  | CustomMinutes _ | Preferences _ => True
  | _ => False
  end.

(** The writes of the restore effect that do not look at the clock. *)
Definition restoreFields (c : Render) (saved : Persisted) : Stmt :=
  setPhase (TimerPersistedState.phase saved) ;;
  setIsRunning (TimerPersistedState.isRunning saved) ;;
  setCustomMinutes (TimerPersistedState.customMinutes saved) ;;
  setSelectedSubjectId
    (orStr (TimerPersistedState.selectedSubjectId saved) (defaultSubjectId c)) ;;
  setSessionTitle (orStr (TimerPersistedState.sessionTitle saved) "Focus Session") ;;
  setSessionType (TimerPersistedState.sessionType saved) ;;
  setCompletedFocusCount
    (fun _ => orNum (TimerPersistedState.completedFocusCount saved) 0) ;;
  setPhaseStartEpochMsRef (TimerPersistedState.phaseStartEpochMs saved) ;;
  when (TimerPersistedState.isRunning saved
        && Phase_eqb (TimerPersistedState.phase saved) focus
        && present (TimerPersistedState.phaseStartEpochMs saved))
    (setFocusStartTimeRef (TimerPersistedState.phaseStartEpochMs saved)).

(** A statement keeps an observation when running it never changes it. *)
Definition keeps {A : Type} (obs : World -> A) (s : Stmt) : Prop :=
  forall w, obs (s w) = obs w.

(** ** Sample inputs *)

Definition examplePreferences : UserPreferences :=
  mkPreferences ["math"] pomodoro (PomodoroSettings.mk 25 5 15 4).

Definition customPreferences : UserPreferences :=
  mkPreferences ["math"] custom (PomodoroSettings.mk 25 5 15 4).

Definition noSubjects : UserPreferences :=
  mkPreferences [] pomodoro (PomodoroSettings.mk 25 5 15 4).

(** The world at clock [t]: a signed-in user, a remote client that answers. *)
Definition answers (t : Z) : Env :=
  mkEnv t "2026-01-02" "2026-01-01"
        (Resolved (Some "u1")) (Resolved tt) (Resolved None) (Resolved tt) (Resolved tt).

(** The same clock with a remote client that rejects every call. *)
Definition rejects (t : Z) : Env :=
  mkEnv t "2026-01-02" "2026-01-01" Rejected Rejected Rejected Rejected Rejected.

Definition emptyStorage : string -> option Persisted := fun _ => None.

Definition t0 : Z := 1700000000000.

(** A focus phase of 25 minutes started at [t0]. *)
Definition startedAt_t0 : World :=
  step (answers t0) StartPause (mount (answers t0) examplePreferences emptyStorage).

(** A snapshot of a focus phase that was running from [t0] on. *)
Definition runningSnapshot : Persisted :=
  TimerPersistedState.mk focus true 25 "math" "Focus Session" study 0 1500 1500
                         (Some t0) true.

Definition guestStorage (s : Persisted) : string -> option Persisted :=
  fun k => if String.eqb k "guest:timer-state" then Some s else None.

(** The storage of the signed-in user [u1]. *)
Definition userStorage (s : Persisted) : string -> option Persisted :=
  fun k => if String.eqb k "u1:timer-state" then Some s else None.

(** The fourth focus phase of a cycle of four, running from [t0] on. *)
Definition fourthFocusSnapshot : Persisted :=
  TimerPersistedState.mk focus true 25 "math" "Focus Session" study 3 1500 1500
                         (Some t0) true.

(** A focus phase in custom mode, 25 minutes, running from [t0] on. *)
Definition customSnapshot : Persisted :=
  TimerPersistedState.mk focus true 25 "math" "Focus Session" study 0 1500 1500
                         (Some t0) false.

(** A short break after the first focus phase, running from [t0] on. *)
Definition breakSnapshot : Persisted :=
  TimerPersistedState.mk shortBreak true 25 "math" "Focus Session" study 1 300 300
                         (Some t0) true.

(** A focus phase paused with 600 s of 1500 remaining. *)
Definition pausedSnapshot : Persisted :=
  TimerPersistedState.mk focus false 25 "math" "Focus Session" study 0 1500 600
                         None true.

(** A focus phase started at [t] and completed by the tick at its end, then
    its break started and completed: the world after, and the break taken. *)
Definition focusThenBreak (t : Z) (w : World) : World * Phase :=
  let w1 := step (answers t) StartPause w in
  let w2 := step (answers (t + 1500000)) Tick w1 in
  let w3 := step (answers (t + 1500000)) StartPause w2 in
  let w4 := step (answers (t + 1500000 + 900000)) Tick w3 in
  (w4, phase (next w2)).

(** ** What the display derives *)

(** The position shown beside a focus phase, [#i of n]. *)
Definition cycleIndicator (c : Render) : Z :=
  Z.rem (completedFocusCount (st c)) (sessionsUntilLongBreak c) + 1.


(** ** The clock text *)

(** [n.toString()] of an integer (below [1e21], where JavaScript still
    prints every digit). *)
Definition toString (n : Z) : string :=
  DecimalString.NilZero.string_of_int (Z.to_int n).

(** [n] times the character [0]. *)
Fixpoint zeros (n : nat) : string :=
  match n with
  | O => EmptyString
  | S k => "0" ++ zeros k
  end.

(** [s.padStart(targetLength, '0')] *)
Definition padStart (s : string) (targetLength : nat) : string :=
  zeros (targetLength - String.length s) ++ s.

Definition formatSeconds (totalSeconds : Z) : string :=
  let minutes := totalSeconds / 60 in
  let seconds := Z.rem totalSeconds 60 in
  padStart (toString minutes) 2 ++ ":" ++ padStart (toString seconds) 2.

(** Reading a run of digits back. *)
Definition readDigits (s : string) : option Z :=
  option_map Z.of_uint (DecimalString.NilEmpty.uint_of_string s).

(** ** The worlds a session can reach *)

(** Between renders the interval is installed exactly while the timer runs,
    in a closure that agrees with the state on the phase and the duration. *)
Definition intervalCoherent (w : World) : Prop :=
  match tickIntervalRef w with
  | Some c =>
    isRunning (next w) = true /\ isRunning (st c) = true
    /\ phase (st c) = phase (next w)
    /\ phaseDurationSeconds c = phaseDurationSeconds (render w)
  | None => isRunning (next w) = false
  end.

(** The visibility listener agrees with the state on the running flag and
    the duration. *)
Definition listenerCoherent (w : World) : Prop :=
  isRunning (st (onVisibility w)) = isRunning (next w)
  /\ phaseDurationSeconds (onVisibility w) = phaseDurationSeconds (render w).

Definition coherent (w : World) : Prop := intervalCoherent w /\ listenerCoherent w.

(** The worlds a session can be in: after the mount, and after each event. *)
Inductive reachable : World -> Prop :=
| reachable_mount env p storage : reachable (mount env p storage)
| reachable_step env ev w : reachable w -> reachable (step env ev w).

(** The anchor the interval callback counts from. *)
Definition tickAnchor (env : Env) (w : World) : Z :=
  match phaseStartEpochMsRef w with
  | Some a => orNum a (now env)
  | None => now env
  end.

(** ** The dashboard: today's sessions *)

Module StudySession.
Record t := mk {
  id : string;
  subjectId : string;
  title : string;
  duration : Z;
  completed : bool;
  scheduledDate : string;
  startTime : string;
  endTime : string;
  type : SessionKind }.
End StudySession.

(** [sessions.filter(s => s.scheduledDate === today)] *)
Definition todaysSessions (sessions : list StudySession.t) (today : string)
    : list StudySession.t :=
  filter (fun s => String.eqb (StudySession.scheduledDate s) today) sessions.

(** [todaysSessions.filter(s => !s.completed).slice(0, 3)] *)
Definition upcomingSessions (sessions : list StudySession.t) (today : string)
    : list StudySession.t :=
  firstn 3 (filter (fun s => negb (StudySession.completed s))
              (todaysSessions sessions today)).

(** The count in [n of m sessions completed]. *)
Definition completedToday (sessions : list StudySession.t) (today : string) : nat :=
  List.length (filter (fun s => StudySession.completed s) (todaysSessions sessions today)).

(** ** The scoped storage *)

Module storage.

(** The browser's [localStorage]: strings under string keys. *)
Definition LocalStorage : Type := string -> option string.

Definition getItem (key : string) (ls : LocalStorage) : option string := ls key.

Definition setItem (key value : string) (ls : LocalStorage) : LocalStorage :=
  fun k => if String.eqb k key then Some value else ls k.

Definition removeItem (key : string) (ls : LocalStorage) : LocalStorage :=
  fun k => if String.eqb k key then None else ls k.

Definition ONBOARDING_COMPLETE : string := "study-buddy-onboarding".
Definition CURRENT_USER_ID : string := "study-buddy-current-user-id".

Definition getScopedKey (baseKey : string) (ls : LocalStorage) : string :=
  match getItem CURRENT_USER_ID ls with
  | Some userId =>
    if String.eqb userId EmptyString then "guest:" ++ baseKey
    else userId ++ ":" ++ baseKey
  | None => "guest:" ++ baseKey
  end.

Definition setCurrentUserId (userId : string) (ls : LocalStorage) : LocalStorage :=
  setItem CURRENT_USER_ID userId ls.

Definition getCurrentUserId (ls : LocalStorage) : option string :=
  getItem CURRENT_USER_ID ls.

Definition clearCurrentUserId (ls : LocalStorage) : LocalStorage :=
  removeItem CURRENT_USER_ID ls.

Definition isOnboardingComplete (ls : LocalStorage) : bool :=
  match getItem (getScopedKey ONBOARDING_COMPLETE ls) ls with
  | Some v => String.eqb v "true"
  | None => false
  end.

Definition setOnboardingComplete (ls : LocalStorage) : LocalStorage :=
  setItem (getScopedKey ONBOARDING_COMPLETE ls) "true" ls.

End storage.

(** The last character of a string. *)
Fixpoint lastChar (s : string) : option Ascii.ascii :=
  match s with
  | EmptyString => None
  | String a EmptyString => Some a
  | String _ rest => lastChar rest
  end.

(** * Properties *)

(** ** Frames: what a statement leaves alone *)

Section Frames.
Context {A : Type} (obs : World -> A).

Lemma keeps_skip : keeps obs skip.
Proof. intro w. reflexivity. Qed.

Lemma keeps_seq (a b : Stmt) : keeps obs a -> keeps obs b -> keeps obs (a ;; b).
Proof. intros Ha Hb w. unfold seq. rewrite Hb. apply Ha. Qed.

Lemma keeps_when (c : bool) (s : Stmt) : keeps obs s -> keeps obs (when c s).
Proof. intros Hs. destruct c; [exact Hs | apply keeps_skip]. Qed.

Lemma keeps_if (c : bool) (a b : Stmt) :
  keeps obs a -> keeps obs b -> keeps obs (if c then a else b).
Proof. destruct c; auto. Qed.

Lemma keeps_reading (f : World -> Stmt) :
  (forall w0, keeps obs (f w0)) -> keeps obs (reading f).
Proof. intros Hf w. unfold reading. apply Hf. Qed.
End Frames.

(** Splits a frame goal along the structure of the statement. *)
Ltac frame_step :=
  match goal with
  | |- keeps _ skip => apply keeps_skip
  | |- keeps _ (seq _ _) => apply keeps_seq
  | |- keeps _ (when false _) => apply keeps_skip
  | |- keeps _ (when _ _) => apply keeps_when
  | |- keeps _ (reading _) => apply keeps_reading; intro
  | |- keeps _ (if _ then _ else _) => apply keeps_if
  | |- keeps _ (match ?o with Some _ => _ | None => _ end) => destruct o
  | |- keeps _ (match ?p with focus => _ | shortBreak => _ | longBreak => _ end) =>
    destruct p
  | |- keeps _ (let _ := _ in _) => cbv zeta
  end.

Ltac frame := repeat frame_step; try (intro; reflexivity).

Lemma persistState_next c o : keeps next (persistState c o).
Proof. unfold persistState. frame. Qed.

Lemma persistState_props c o : keeps props (persistState c o).
Proof. unfold persistState. frame. Qed.

Lemma persistState_sent c o : keeps sent (persistState c o).
Proof. unfold persistState. frame. Qed.

Lemma persistState_anchor c o : keeps phaseStartEpochMsRef (persistState c o).
Proof. unfold persistState. frame. Qed.

Lemma persistState_focusStart c o : keeps focusStartTimeRef (persistState c o).
Proof. unfold persistState. frame. Qed.

Lemma persistState_interval c o : keeps tickIntervalRef (persistState c o).
Proof. unfold persistState. frame. Qed.

Lemma persistState_listener c o : keeps onVisibility (persistState c o).
Proof. unfold persistState. frame. Qed.

Lemma alignStart_next c env : keeps next (alignStart c env).
Proof. unfold alignStart. frame. Qed.



Lemma alignStart_interval c env : keeps tickIntervalRef (alignStart c env).
Proof. unfold alignStart. frame. Qed.

(** With an anchor in place, [alignStart] does nothing. *)
Lemma alignStart_present c env w :
  present (phaseStartEpochMsRef w) = true -> alignStart c env w = w.
Proof. intros H. unfold alignStart, reading. rewrite H. reflexivity. Qed.

Lemma durationResetEffect_core c : keeps (fun w => core (next w)) (durationResetEffect c).
Proof. unfold durationResetEffect, persistState. frame. Qed.

Lemma durationResetEffect_props c : keeps props (durationResetEffect c).
Proof. unfold durationResetEffect, persistState. frame. Qed.

Lemma durationResetEffect_sent c : keeps sent (durationResetEffect c).
Proof. unfold durationResetEffect, persistState. frame. Qed.

Lemma durationResetEffect_anchor c : keeps phaseStartEpochMsRef (durationResetEffect c).
Proof. unfold durationResetEffect, persistState. frame. Qed.

Lemma durationResetEffect_interval c : keeps tickIntervalRef (durationResetEffect c).
Proof. unfold durationResetEffect, persistState. frame. Qed.

Lemma intervalEffect_next c env : keeps next (intervalEffect c env).
Proof. unfold intervalEffect, alignStart, persistState. frame. Qed.

Lemma intervalEffect_props c env : keeps props (intervalEffect c env).
Proof. unfold intervalEffect, alignStart, persistState. frame. Qed.

Lemma intervalEffect_sent c env : keeps sent (intervalEffect c env).
Proof. unfold intervalEffect, alignStart, persistState. frame. Qed.

(** ** Renders that agree on everything but the remaining time *)

(** The duration of a phase reads the props, the phase and the custom
    minutes, and nothing else. *)
Lemma phaseDurationSeconds_ext c c' :
  preferences c = preferences c' -> phase (st c) = phase (st c') ->
  customMinutes (st c) = customMinutes (st c') ->
  phaseDurationSeconds c = phaseDurationSeconds c'.
Proof.
  intros Hp Hph Hm.
  unfold phaseDurationSeconds, isPomodoro, focusMinutes, shortBreakMinutes, longBreakMinutes.
  rewrite Hp, Hph, Hm. reflexivity.
Qed.

Lemma phaseDurationSeconds_core c c' :
  preferences c = preferences c' -> core (st c) = core (st c') ->
  phaseDurationSeconds c = phaseDurationSeconds c'.
Proof.
  intros Hp Hc. unfold core in Hc. injection Hc as Hu Hs Ht Hk Hph Hn Hr Hm.
  now apply phaseDurationSeconds_ext.
Qed.

Lemma Phase_eqb_refl p : Phase_eqb p p = true.
Proof. destruct p; reflexivity. Qed.

Lemma Phase_eqb_eq p q : Phase_eqb p q = true <-> p = q.
Proof. destruct p, q; simpl; split; congruence. Qed.

Lemma SessionKind_eqb_refl k : SessionKind_eqb k k = true.
Proof. destruct k; reflexivity. Qed.

Lemma deps_settled old new :
  preferences old = preferences new -> core (st old) = core (st new) ->
  restoreDeps old new = false /\ durationDeps old new = false
  /\ intervalDeps old new = false /\ visibilityDeps old new = false
  /\ persistDeps old new = false.
Proof.
  intros Hp Hc. pose proof (phaseDurationSeconds_core _ _ Hp Hc) as Hd.
  unfold core in Hc. injection Hc as Hu Hs Ht Hk Hph Hn Hr Hm.
  unfold restoreDeps, durationDeps, intervalDeps, visibilityDeps, persistDeps, stateKey.
  rewrite Hu, Hs, Ht, Hk, Hph, Hn, Hr, Hm, Hd.
  rewrite !Z.eqb_refl, !Bool.eqb_reflx, !Phase_eqb_refl, !String.eqb_refl,
    !SessionKind_eqb_refl.
  repeat split; reflexivity.
Qed.

(** A render with nothing new in its dependencies runs no effect. *)
Lemma runEffects_settled old new env w :
  preferences old = preferences new -> core (st old) = core (st new) ->
  runEffects false old new env w = w.
Proof.
  intros Hp Hc.
  destruct (deps_settled old new Hp Hc) as (H1 & H2 & H3 & H4 & H5).
  unfold runEffects. rewrite H1, H2, H3, H4, H5. reflexivity.
Qed.

Lemma runEffects_core old new env :
  restoreDeps old new = false ->
  keeps (fun w => core (next w)) (runEffects false old new env).
Proof.
  intros H. unfold runEffects. rewrite H. cbn [negb orb andb].
  repeat frame_step;
    first [ apply durationResetEffect_core
          | intro w; now rewrite intervalEffect_next
          | intro w; now rewrite persistState_next
          | intro; reflexivity ].
Qed.

Lemma runEffects_props old new env :
  restoreDeps old new = false -> keeps props (runEffects false old new env).
Proof.
  intros H. unfold runEffects. rewrite H. cbn [negb orb andb].
  repeat frame_step;
    first [ apply durationResetEffect_props | apply intervalEffect_props
          | apply persistState_props | intro; reflexivity ].
Qed.

Lemma runEffects_sent old new env :
  restoreDeps old new = false -> keeps sent (runEffects false old new env).
Proof.
  intros H. unfold runEffects. rewrite H. cbn [negb orb andb].
  repeat frame_step;
    first [ apply durationResetEffect_sent | apply intervalEffect_sent
          | apply persistState_sent | intro; reflexivity ].
Qed.

(** After the effects of one commit the next render has nothing new: the
    second round of [commit] is idle, and so is every further one. *)
Lemma commit_settles n old env w :
  restoreDeps old (render w) = false ->
  commit (S n) old env w = runEffects false old (render w) env w.
Proof.
  revert old w. induction n as [|n IH]; intros old w H; [reflexivity|].
  change (commit (S (S n)) old env w)
    with (commit (S n) (render w) env (runEffects false old (render w) env w)).
  assert (Hp : preferences (render w)
               = preferences (render (runEffects false old (render w) env w))).
  { unfold render; cbn [preferences]. symmetry. now apply runEffects_props. }
  assert (Hc : core (st (render w))
               = core (st (render (runEffects false old (render w) env w)))).
  { unfold render; cbn [st]. symmetry.
    exact (runEffects_core old (render w) env H w). }
  rewrite IH by (apply (deps_settled _ _ Hp Hc)).
  now apply runEffects_settled.
Qed.

(** What the commit after a handler leaves in the state: the remaining time
    is set to the full duration when the timer is not running and the
    duration or the running flag changed; nothing else is touched. *)
Lemma runEffects_next old new env w :
  restoreDeps old new = false ->
  next (runEffects false old new env w)
  = if durationDeps old new && negb (isRunning (st new))
    then next (setRemainingSeconds (phaseDurationSeconds new) w)
    else next w.
Proof.
  intros H. unfold runEffects. rewrite H. cbn [negb orb andb]. unfold seq.
  rewrite (keeps_when next _ _ (persistState_next _ _)).
  rewrite (keeps_when next (visibilityDeps old new) (setOnVisibility new))
    by (intro; reflexivity).
  rewrite (keeps_when next _ _ (intervalEffect_next _ _)).
  unfold durationResetEffect, when, skip, seq.
  destruct (durationDeps old new), (isRunning (st new)), (intervalDeps old new);
    cbn [negb andb]; rewrite ?persistState_next; reflexivity.
Qed.

Lemma intervalEffect_anchor c env w :
  phaseStartEpochMsRef (intervalEffect c env w)
  = if isRunning (st c) && negb (present (phaseStartEpochMsRef w))
    then Some (now env - (phaseDurationSeconds c - remainingSeconds (st c)) * 1000)
    else phaseStartEpochMsRef w.
Proof.
  unfold intervalEffect. destruct (isRunning (st c)); cbn [negb andb].
  - unfold seq, alignStart, reading.
    destruct (present (phaseStartEpochMsRef w)); cbn [negb when]; [reflexivity|].
    unfold seq, reading, when.
    destruct (Phase_eqb (phase (st c)) focus && _); reflexivity.
  - unfold seq. now rewrite persistState_anchor.
Qed.

(** The anchor after a commit: set by the interval effect when it runs for a
    running render and finds none, left alone otherwise. *)
Lemma runEffects_anchor old new env w :
  restoreDeps old new = false ->
  phaseStartEpochMsRef (runEffects false old new env w)
  = if intervalDeps old new && isRunning (st new) && negb (present (phaseStartEpochMsRef w))
    then Some (now env - (phaseDurationSeconds new - remainingSeconds (st new)) * 1000)
    else phaseStartEpochMsRef w.
Proof.
  intros H. unfold runEffects. rewrite H. cbn [negb orb andb]. unfold seq.
  rewrite (keeps_when phaseStartEpochMsRef _ _ (persistState_anchor _ _)).
  rewrite (keeps_when phaseStartEpochMsRef (visibilityDeps old new) (setOnVisibility new))
    by (intro; reflexivity).
  destruct (intervalDeps old new); cbn [when andb].
  - rewrite intervalEffect_anchor.
    rewrite !(keeps_when phaseStartEpochMsRef _ _ (durationResetEffect_anchor _)).
    reflexivity.
  - unfold skip.
    rewrite !(keeps_when phaseStartEpochMsRef _ _ (durationResetEffect_anchor _)).
    reflexivity.
Qed.

(** The interval after a commit: reinstalled in the new closure when its
    dependencies changed and the timer runs, cleared when they changed and it
    does not, left alone otherwise. *)
Lemma runEffects_interval old new env w :
  restoreDeps old new = false ->
  tickIntervalRef (runEffects false old new env w)
  = if intervalDeps old new
    then (if isRunning (st new) then Some new else None)
    else tickIntervalRef w.
Proof.
  intros H. unfold runEffects. rewrite H. cbn [negb orb andb]. unfold seq.
  rewrite (keeps_when tickIntervalRef _ _ (persistState_interval _ _)).
  rewrite (keeps_when tickIntervalRef (visibilityDeps old new) (setOnVisibility new))
    by (intro; reflexivity).
  destruct (intervalDeps old new); cbn [when].
  - unfold intervalEffect. destruct (isRunning (st new)); cbn [negb].
    + reflexivity.
    + unfold seq at 1. rewrite persistState_interval. reflexivity.
  - unfold skip at 1. unfold skip at 2.
    rewrite (keeps_when tickIntervalRef _ _ (durationResetEffect_interval _)).
    reflexivity.
Qed.

(** ** Handlers: what they leave alone *)

Lemma handlePhaseComplete_props c env : keeps props (handlePhaseComplete c env).
Proof. unfold handlePhaseComplete, persistState. frame. Qed.

Lemma handlePhaseComplete_userId c env :
  keeps (fun w => userId (next w)) (handlePhaseComplete c env).
Proof. unfold handlePhaseComplete, persistState. frame. Qed.

Lemma handlePhaseComplete_customMinutes c env :
  keeps (fun w => customMinutes (next w)) (handlePhaseComplete c env).
Proof. unfold handlePhaseComplete, persistState. frame. Qed.

Lemma handlePhaseComplete_remaining c env :
  keeps (fun w => remainingSeconds (next w)) (handlePhaseComplete c env).
Proof. unfold handlePhaseComplete, persistState. frame. Qed.

Lemma handle_props ev c env :
  (forall p, ev <> Preferences p) -> keeps props (handle ev c env).
Proof.
  intros Hev. destruct ev; cbn [handle];
    try (exfalso; eapply Hev; reflexivity);
    unfold handleStartPause, handleReset, tick, recomputeRemaining, alignStart,
      persistState.
  all: frame.
  all: try apply handlePhaseComplete_props.
Qed.

Lemma handle_userId ev c env :
  (forall uid, ev <> AuthResolved uid) ->
  keeps (fun w => userId (next w)) (handle ev c env).
Proof.
  intros Hev. destruct ev; cbn [handle];
    try (exfalso; eapply Hev; reflexivity);
    unfold handleStartPause, handleReset, tick, recomputeRemaining, alignStart,
      persistState.
  all: frame.
  all: try apply handlePhaseComplete_userId.
Qed.

Lemma st_render w : st (render w) = next w.
Proof. reflexivity. Qed.

Lemma preferences_render w : preferences (render w) = props w.
Proof. reflexivity. Qed.

Lemma stateKey_userId c c' :
  userId (st c) = userId (st c') -> stateKey c = stateKey c'.
Proof. intros H. unfold stateKey. now rewrite H. Qed.

(** An event that does not change the user runs its handler and one round
    of effects; no restore takes place. *)
Lemma step_commit env ev w :
  (forall uid, ev <> AuthResolved uid) ->
  step env ev w
  = runEffects false (render w) (render (handle ev (render w) env w)) env
      (handle ev (render w) env w).
Proof.
  intros Hev. unfold step. apply commit_settles.
  unfold restoreDeps.
  rewrite (stateKey_userId (render w) (render (handle ev (render w) env w))).
  - now rewrite String.eqb_refl.
  - unfold render; cbn [st]. symmetry. exact (handle_userId ev _ env Hev w).
Qed.

Lemma step_restoreDeps env ev w :
  (forall uid, ev <> AuthResolved uid) ->
  restoreDeps (render w) (render (handle ev (render w) env w)) = false.
Proof.
  intros Hev. unfold restoreDeps.
  rewrite (stateKey_userId (render w) (render (handle ev (render w) env w))).
  - now rewrite String.eqb_refl.
  - unfold render; cbn [st]. symmetry. exact (handle_userId ev _ env Hev w).
Qed.

Lemma handleReset_next c w :
  next (handleReset c w)
  = next (setRemainingSeconds (phaseDurationSeconds c) (setIsRunning false w)).
Proof.
  unfold handleReset, seq, when. rewrite persistState_next.
  destruct (Phase_eqb (phase (st c)) focus); reflexivity.
Qed.

Lemma handleReset_anchor c w : phaseStartEpochMsRef (handleReset c w) = None.
Proof.
  unfold handleReset, seq, when. rewrite persistState_anchor.
  destruct (Phase_eqb (phase (st c)) focus); reflexivity.
Qed.

Lemma handleReset_props c : keeps props (handleReset c).
Proof. unfold handleReset, persistState. frame. Qed.

(** C8. From any state and under any preferences, after the reset button
    the timer is not running, the anchor is cleared, the remaining time is
    the full duration of the current phase, which is what it was, and the
    phase and [completedFocusCount] are unchanged. *)
Theorem reset_restores_full_duration (env : Env) (w : World) :
  let w' := step env Reset w in
  isRunning (next w') = false
  /\ phaseStartEpochMsRef w' = None
  /\ remainingSeconds (next w') = phaseDurationSeconds (render w')
  /\ phaseDurationSeconds (render w') = phaseDurationSeconds (render w)
  /\ phase (next w') = phase (next w)
  /\ completedFocusCount (next w') = completedFocusCount (next w).
Proof.
  assert (Hev : forall uid, Reset <> AuthResolved uid) by discriminate.
  cbv zeta. rewrite (step_commit env Reset w Hev).
  pose proof (step_restoreDeps env Reset w Hev) as Hr.
  cbn [handle] in *.
  set (c := render w) in *. set (w1 := handleReset c w) in *.
  assert (Hn1 : next w1 = next (setRemainingSeconds (phaseDurationSeconds c) (setIsRunning false w)))
    by apply handleReset_next.
  assert (Hd : phaseDurationSeconds (render w1) = phaseDurationSeconds c).
  { apply phaseDurationSeconds_ext; unfold render; cbn [preferences st].
    - apply handleReset_props.
    - rewrite Hn1. reflexivity.
    - rewrite Hn1. reflexivity. }
  assert (Hnext : next (runEffects false c (render w1) env w1) = next w1).
  { rewrite (runEffects_next _ _ _ _ Hr).
    destruct (durationDeps c (render w1) && negb (isRunning (st (render w1)))); [|reflexivity].
    rewrite Hd. cbn [next setRemainingSeconds setState]. rewrite Hn1. reflexivity. }
  assert (Hp : props (runEffects false c (render w1) env w1) = props w1)
    by apply (runEffects_props _ _ _ Hr).
  assert (Hd' : phaseDurationSeconds (render (runEffects false c (render w1) env w1))
                = phaseDurationSeconds c).
  { rewrite <- Hd. apply phaseDurationSeconds_core.
    - rewrite !preferences_render. exact Hp.
    - rewrite !st_render. now rewrite Hnext. }
  rewrite Hd', Hnext, Hn1. cbn.
  repeat split.
  rewrite (runEffects_anchor _ _ _ _ Hr).
  replace (isRunning (st (render w1))) with false
    by (rewrite st_render; now rewrite Hn1).
  rewrite andb_false_r. apply handleReset_anchor.
Qed.

(** ** Phase completion *)

Lemma handlePhaseComplete_next c env w :
  next (handlePhaseComplete c env w)
  = match phase (st c) with
    | focus => next (setIsRunning false (setPhase (nextPhaseOf c)
                       (setCompletedFocusCount (fun n => n + 1) w)))
    | _ => next (setIsRunning false (setPhase focus w))
    end.
Proof.
  unfold handlePhaseComplete, nextPhaseOf.
  destruct (phase (st c)); cbv zeta; unfold seq; rewrite persistState_next; reflexivity.
Qed.

Lemma handlePhaseComplete_anchor c env w :
  phaseStartEpochMsRef (handlePhaseComplete c env w) = None.
Proof.
  unfold handlePhaseComplete.
  destruct (phase (st c)); cbv zeta; unfold seq; rewrite persistState_anchor; reflexivity.
Qed.

Lemma handlePhaseComplete_interval c env : keeps tickIntervalRef (handlePhaseComplete c env).
Proof. unfold handlePhaseComplete, persistState. frame. Qed.

Lemma handlePhaseComplete_sent c env w :
  sent (handlePhaseComplete c env w)
  = match phase (st c) with
    | focus => snd (logCompletedFocusSession c env (focusStartTimeRef w)
                      (roundDiv (phaseDurationSeconds c) 60) (sent w))
    | _ => sent w
    end.
Proof.
  unfold handlePhaseComplete.
  destruct (phase (st c)); cbv zeta; unfold seq; rewrite persistState_sent; reflexivity.
Qed.

Lemma clamp_range value lo hi : lo <= hi -> lo <= clamp value lo hi <= hi.
Proof. unfold clamp. lia. Qed.

Lemma sessionsUntilLongBreak_range c : 1 <= sessionsUntilLongBreak c <= 12.
Proof. unfold sessionsUntilLongBreak. apply clamp_range. lia. Qed.

(** The remainder of the source ([%]) and the modulus agree on being zero. *)
Lemma rem_zero_mod a b : b <> 0 -> (Z.rem a b =? 0) = (a mod b =? 0).
Proof.
  intros Hb. apply Bool.eq_true_iff_eq. rewrite !Z.eqb_eq.
  rewrite (Z.rem_divide a b Hb), (Z.mod_divide a b Hb). reflexivity.
Qed.

(** In the closure it runs in, a completed focus phase is followed by the
    long break exactly when
    [(completedFocusCount + 1) mod sessionsUntilLongBreak = 0] and by the
    short break otherwise; a completed break, short or long, is followed by
    focus. *)
Theorem completion_chooses_next_phase (c : Render) (env : Env) (w : World) :
  phase (next (handlePhaseComplete c env w))
  = match phase (st c) with
    | focus =>
      if (completedFocusCount (st c) + 1) mod sessionsUntilLongBreak c =? 0
      then longBreak else shortBreak
    | shortBreak => focus
    | longBreak => focus
    end.
Proof.
  rewrite handlePhaseComplete_next. unfold nextPhaseOf.
  pose proof (sessionsUntilLongBreak_range c) as Hr.
  destruct (phase (st c)); cbn; try reflexivity.
  rewrite rem_zero_mod by lia. reflexivity.
Qed.

(** ** The logging call *)

Lemma sessionsLogged_app l l' :
  sessionsLogged (l ++ l') = (sessionsLogged l + sessionsLogged l')%nat.
Proof.
  induction l as [|x l IH]; [reflexivity|].
  destruct x; cbn [app sessionsLogged]; rewrite IH; reflexivity.
Qed.

Lemma streakWrites_app l l' :
  streakWrites (l ++ l') = (streakWrites l + streakWrites l')%nat.
Proof.
  induction l as [|x l IH]; [reflexivity|].
  destruct x; cbn [app streakWrites]; rewrite IH; reflexivity.
Qed.

(** The call never throws: whatever the remote client answers, the promise
    of [logCompletedFocusSession] resolves. *)
Lemma logCompletedFocusSession_resolves c env fs mins l :
  fst (logCompletedFocusSession c env fs mins l) = Some tt.
Proof.
  unfold logCompletedFocusSession.
  destruct (hasSubjects c); cbn [negb]; [|reflexivity].
  cbv zeta. unfold tryCatch.
  match goal with |- fst (match ?b with _ => _ end) = _ => destruct b as [[[]|] ?] end;
    reflexivity.
Qed.

(** Without subjects, or without a user, nothing is sent. *)
Lemma logCompletedFocusSession_silent c env fs mins l :
  hasSubjects c && userAvailable env = false ->
  snd (logCompletedFocusSession c env fs mins l) = l.
Proof.
  unfold logCompletedFocusSession, userAvailable.
  destruct (hasSubjects c); cbn [negb andb]; [|reflexivity].
  intros Hu. cbv zeta. unfold tryCatch, bind, await.
  destruct (getUser env) as [[uid|]|]; try reflexivity.
  destruct (String.eqb uid EmptyString); [reflexivity | discriminate].
Qed.

(** How many session rows one call sends: one when there are subjects and a
    user, none otherwise; and never more than one streak write. *)
Lemma logCompletedFocusSession_count c env fs mins l :
  sessionsLogged (snd (logCompletedFocusSession c env fs mins l))
  = (sessionsLogged l + if hasSubjects c && userAvailable env then 1 else 0)%nat
  /\ (streakWrites (snd (logCompletedFocusSession c env fs mins l))
      <= streakWrites l + 1)%nat.
Proof.
  unfold logCompletedFocusSession, userAvailable.
  destruct (hasSubjects c); cbn [negb andb]; [|cbn; lia].
  cbv zeta. unfold tryCatch, bind, await, send, ret.
  destruct (getUser env) as [[uid|]|]; cbn [fst snd]; try (cbn; lia).
  destruct (String.eqb uid EmptyString); cbn [negb]; [cbn; lia|].
  destruct (insertSession env) as [[]|]; cbn [fst snd];
    [|rewrite sessionsLogged_app, streakWrites_app; cbn; lia].
  destruct (selectRewards env) as [[row|]|]; cbn [fst snd];
    try (destruct (updateRewards env) as [[]|]);
    try (destruct (insertRewards env) as [[]|]);
    cbn [fst snd]; rewrite ?sessionsLogged_app, ?streakWrites_app; cbn; lia.
Qed.

(** The interval callback under two sets of answers at the same clock: the
    state and the refs it leaves are the same. *)
Lemma tick_answers c env env' w :
  now env = now env' ->
  next (tick c env w) = next (tick c env' w)
  /\ props (tick c env w) = props (tick c env' w)
  /\ phaseStartEpochMsRef (tick c env w) = phaseStartEpochMsRef (tick c env' w)
  /\ tickIntervalRef (tick c env w) = tickIntervalRef (tick c env' w).
Proof.
  intros Hnow. unfold tick, reading. rewrite Hnow. cbv zeta.
  match goal with |- context [if ?b then _ else _] => destruct b end; unfold seq.
  - cbn [next props phaseStartEpochMsRef tickIntervalRef setRemainingSeconds setState].
    rewrite !persistState_next, !persistState_props, !persistState_anchor,
      !persistState_interval, !handlePhaseComplete_next, !handlePhaseComplete_props,
      !handlePhaseComplete_anchor, !handlePhaseComplete_interval.
    repeat split.
  - repeat split.
Qed.

(** One tick step under two sets of answers at the same clock. *)
Lemma step_tick_answers env env' w :
  now env = now env' ->
  next (step env Tick w) = next (step env' Tick w)
  /\ phaseStartEpochMsRef (step env Tick w) = phaseStartEpochMsRef (step env' Tick w)
  /\ tickIntervalRef (step env Tick w) = tickIntervalRef (step env' Tick w).
Proof.
  intros Hnow.
  assert (Hev : forall uid, Tick <> AuthResolved uid) by discriminate.
  rewrite !(step_commit _ Tick w Hev).
  pose proof (step_restoreDeps env Tick w Hev) as Hr.
  pose proof (step_restoreDeps env' Tick w Hev) as Hr'.
  cbn [handle] in *. unfold reading in *.
  destruct (tickIntervalRef w) as [c|].
  - destruct (tick_answers c env env' w Hnow) as (Hn & Hp & Ha & Hi).
    assert (Hrender : render (tick c env w) = render (tick c env' w))
      by (unfold render; now rewrite Hn, Hp).
    rewrite (runEffects_next _ _ _ _ Hr), (runEffects_next _ _ _ _ Hr'),
      (runEffects_anchor _ _ _ _ Hr), (runEffects_anchor _ _ _ _ Hr'),
      (runEffects_interval _ _ _ _ Hr), (runEffects_interval _ _ _ _ Hr').
    rewrite Hrender, Ha, Hi, Hnow.
    cbn [next setRemainingSeconds setState]. rewrite Hn. repeat split.
  - unfold skip in *.
    rewrite (runEffects_next _ _ _ _ Hr), (runEffects_next _ _ _ _ Hr'),
      (runEffects_anchor _ _ _ _ Hr), (runEffects_anchor _ _ _ _ Hr'),
      (runEffects_interval _ _ _ _ Hr), (runEffects_interval _ _ _ _ Hr').
    rewrite Hnow. repeat split.
Qed.

(** C9. When a focus phase completes, a failure of the session insert or of
    the streak write is swallowed: the logging call resolves whatever the
    remote client answers, sends the session row at most once and at most one
    streak write, and the transition does not depend on those answers: the
    state, the refs and the storage after the completion are the same under
    any two sets of answers, the phase is a break and the timer is stopped;
    and a whole tick step, commit included, leaves the same state and refs
    under any two sets of answers at the same clock. *)
Theorem emission_failure_does_not_block_transition
    (c : Render) (env env' : Env) (w : World)
    (Hfocus : phase (st c) = focus)
    (Hnow : now env = now env') :
  (forall fs mins l, fst (logCompletedFocusSession c env fs mins l) = Some tt)
  /\ (sessionsLogged (sent (handlePhaseComplete c env w)) <= sessionsLogged (sent w) + 1)%nat
  /\ (streakWrites (sent (handlePhaseComplete c env w)) <= streakWrites (sent w) + 1)%nat
  /\ next (handlePhaseComplete c env w) = next (handlePhaseComplete c env' w)
  /\ phaseStartEpochMsRef (handlePhaseComplete c env w)
     = phaseStartEpochMsRef (handlePhaseComplete c env' w)
  /\ focusStartTimeRef (handlePhaseComplete c env w)
     = focusStartTimeRef (handlePhaseComplete c env' w)
  /\ tickIntervalRef (handlePhaseComplete c env w)
     = tickIntervalRef (handlePhaseComplete c env' w)
  /\ localStorage (handlePhaseComplete c env w)
     = localStorage (handlePhaseComplete c env' w)
  /\ phase (next (handlePhaseComplete c env w)) <> focus
  /\ isRunning (next (handlePhaseComplete c env w)) = false
  /\ next (step env Tick w) = next (step env' Tick w)
  /\ phaseStartEpochMsRef (step env Tick w) = phaseStartEpochMsRef (step env' Tick w)
  /\ tickIntervalRef (step env Tick w) = tickIntervalRef (step env' Tick w).
Proof.
  split; [intros; apply logCompletedFocusSession_resolves|].
  destruct (step_tick_answers env env' w Hnow) as (Hs1 & Hs2 & Hs3).
  rewrite Hs1, Hs2, Hs3.
  rewrite !handlePhaseComplete_sent, !handlePhaseComplete_next,
    !handlePhaseComplete_anchor, !handlePhaseComplete_interval, Hfocus.
  destruct (logCompletedFocusSession_count c env (focusStartTimeRef w)
              (roundDiv (phaseDurationSeconds c) 60) (sent w)) as [Hs Hk].
  split; [rewrite Hs; destruct (hasSubjects c && userAvailable env); lia|].
  split; [exact Hk|].
  unfold handlePhaseComplete, nextPhaseOf. rewrite Hfocus. cbv zeta.
  repeat split.
  cbn. destruct (_ =? 0); discriminate.
Qed.

Lemma tick_sent c env w :
  sent (tick c env w) = sent w
  \/ sent (tick c env w) = sent (handlePhaseComplete c env (setTickIntervalRef None w)).
Proof.
  unfold tick, reading. cbv zeta.
  match goal with |- context [if ?b then _ else _] => destruct b end; unfold seq.
  - right. cbn [sent setRemainingSeconds setState]. now rewrite persistState_sent.
  - left. cbn [sent setRemainingSeconds setState]. now rewrite persistState_sent.
Qed.

Lemma step_tick_sent env w c :
  tickIntervalRef w = Some c ->
  sent (step env Tick w) = sent w
  \/ sent (step env Tick w) = sent (handlePhaseComplete c env (setTickIntervalRef None w)).
Proof.
  intros Hint.
  assert (Hev : forall uid, Tick <> AuthResolved uid) by discriminate.
  rewrite (step_commit env Tick w Hev).
  rewrite (runEffects_sent _ _ env (step_restoreDeps env Tick w Hev)).
  cbn [handle]. unfold reading. rewrite Hint. apply tick_sent.
Qed.

(** C10. With an empty subject list, or with no authenticated user when the
    logging call runs, a completed focus phase sends nothing, the call
    resolves, and the transition is made as usual: a break phase, the timer
    stopped, the anchor cleared, [completedFocusCount] one higher; and a
    tick step of an interval installed in that closure sends nothing. *)
Theorem completion_without_subject_or_user_emits_nothing
    (c : Render) (env : Env) (w : World)
    (Hfocus : phase (st c) = focus)
    (Hnone : hasSubjects c = false \/ getUser env = Resolved None) :
  sent (handlePhaseComplete c env w) = sent w
  /\ (forall fs mins l, logCompletedFocusSession c env fs mins l = (Some tt, l))
  /\ phase (next (handlePhaseComplete c env w)) = nextPhaseOf c
  /\ nextPhaseOf c <> focus
  /\ isRunning (next (handlePhaseComplete c env w)) = false
  /\ phaseStartEpochMsRef (handlePhaseComplete c env w) = None
  /\ completedFocusCount (next (handlePhaseComplete c env w))
     = completedFocusCount (next w) + 1
  /\ (tickIntervalRef w = Some c -> sent (step env Tick w) = sent w).
Proof.
  assert (Hq : hasSubjects c && userAvailable env = false).
  { destruct Hnone as [H|H]; [now rewrite H|].
    unfold userAvailable. rewrite H. apply andb_false_r. }
  assert (Hlog : forall fs mins l, logCompletedFocusSession c env fs mins l = (Some tt, l)).
  { intros fs mins l.
    pose proof (logCompletedFocusSession_resolves c env fs mins l) as H1.
    pose proof (logCompletedFocusSession_silent c env fs mins l Hq) as H2.
    destruct (logCompletedFocusSession c env fs mins l); cbn in *; congruence. }
  assert (Hsilent : forall w0, sent (handlePhaseComplete c env w0) = sent w0).
  { intros w0. rewrite handlePhaseComplete_sent, Hfocus, Hlog. reflexivity. }
  rewrite Hsilent, handlePhaseComplete_next, handlePhaseComplete_anchor, Hfocus.
  repeat split; try exact Hlog.
  - unfold nextPhaseOf. rewrite Hfocus. destruct (_ =? 0); discriminate.
  - intros Hint. destruct (step_tick_sent env w c Hint) as [H|H]; [exact H|].
    rewrite H, Hsilent. reflexivity.
Qed.

(** ** Recomputing the remaining time *)

Lemma truthy_nonzero n : n <> 0 -> truthy n = true.
Proof. intros H. unfold truthy. apply negb_true_iff. now apply Z.eqb_neq. Qed.

Lemma remainingAt_nonneg c env a : 0 <= remainingAt c env a.
Proof. unfold remainingAt. lia. Qed.

Lemma recomputeRemaining_running c env w a :
  isRunning (st c) = true -> phaseStartEpochMsRef w = Some a -> a <> 0 ->
  recomputeRemaining c env w
  = if remainingAt c env a =? 0
    then handlePhaseComplete c env (setRemainingSeconds 0 w)
    else setRemainingSeconds (remainingAt c env a) w.
Proof.
  intros Hrun Ha Hnz. unfold recomputeRemaining, reading.
  rewrite Ha, Hrun, (truthy_nonzero a Hnz). cbn [andb when]. cbv zeta.
  fold (remainingAt c env a). pose proof (remainingAt_nonneg c env a) as Hr.
  unfold seq. destruct (remainingAt c env a =? 0) eqn:E.
  - apply Z.eqb_eq in E. rewrite E. reflexivity.
  - apply Z.eqb_neq in E.
    replace (remainingAt c env a <=? 0) with false by (symmetry; apply Z.leb_gt; lia).
    reflexivity.
Qed.

Lemma tick_running c env w a :
  phaseStartEpochMsRef w = Some a -> a <> 0 ->
  tick c env w
  = if remainingAt c env a =? 0
    then setRemainingSeconds 0
           (persistState c (TimerPersistedState.with_remainingSeconds 0)
              (handlePhaseComplete c env (setTickIntervalRef None w)))
    else setRemainingSeconds (remainingAt c env a)
           (persistState c
              (TimerPersistedState.with_remainingSeconds (remainingAt c env a)) w).
Proof.
  intros Ha Hnz. unfold tick, reading.
  rewrite Ha. unfold orNum. rewrite (truthy_nonzero a Hnz). cbv zeta.
  fold (remainingAt c env a). pose proof (remainingAt_nonneg c env a) as Hr.
  unfold seq. destruct (remainingAt c env a =? 0) eqn:E.
  - apply Z.eqb_eq in E. rewrite E. reflexivity.
  - apply Z.eqb_neq in E.
    replace (remainingAt c env a <=? 0) with false by (symmetry; apply Z.leb_gt; lia).
    reflexivity.
Qed.

(** C4, as the code has it.  For a running closure and an anchor that is
    set and not zero, recomputing sets the remaining time to
    [max 0 (phaseDurationSeconds - floor ((now - anchor) / 1000))]; doing it
    again at the same [now] gives the same value; and when that value is [0]
    the same call runs the phase completion: the timer is stopped and the
    anchor cleared when it returns.  The interval callback computes the same
    value and completes in the same way. *)
Theorem recompute_remaining_from_anchor
    (c : Render) (env : Env) (w : World) (a : Z)
    (Hrun : isRunning (st c) = true)
    (Ha : phaseStartEpochMsRef w = Some a)
    (Hnz : a <> 0) :
  let r := Z.max 0 (phaseDurationSeconds c - (now env - a) / 1000) in
  remainingSeconds (next (recomputeRemaining c env w)) = r
  /\ remainingSeconds (next (recomputeRemaining c env (recomputeRemaining c env w))) = r
  /\ remainingSeconds (next (tick c env w)) = r
  /\ (if r =? 0
      then recomputeRemaining c env w = handlePhaseComplete c env (setRemainingSeconds 0 w)
           /\ isRunning (next (recomputeRemaining c env w)) = false
           /\ phaseStartEpochMsRef (recomputeRemaining c env w) = None
           /\ isRunning (next (tick c env w)) = false
           /\ phaseStartEpochMsRef (tick c env w) = None
           /\ tickIntervalRef (tick c env w) = None
      else recomputeRemaining c env w = setRemainingSeconds r w
           /\ phaseStartEpochMsRef (tick c env w) = Some a).
Proof.
  cbv zeta. fold (remainingAt c env a).
  rewrite (tick_running c env w a Ha Hnz).
  rewrite (recomputeRemaining_running c env w a Hrun Ha Hnz).
  destruct (remainingAt c env a =? 0) eqn:E.
  - apply Z.eqb_eq in E. rewrite E.
    assert (Hnone : phaseStartEpochMsRef (handlePhaseComplete c env (setRemainingSeconds 0 w))
                    = None) by apply handlePhaseComplete_anchor.
    assert (Hrem : remainingSeconds (next (handlePhaseComplete c env (setRemainingSeconds 0 w)))
                   = 0).
    { rewrite handlePhaseComplete_next. destruct (phase (st c)); reflexivity. }
    assert (Hstop : forall w0, isRunning (next (handlePhaseComplete c env w0)) = false).
    { intros w0. rewrite handlePhaseComplete_next. destruct (phase (st c)); reflexivity. }
    repeat split; auto.
    + unfold recomputeRemaining, reading. rewrite Hnone. exact Hrem.
    + cbn [next setRemainingSeconds setState phaseStartEpochMsRef].
      rewrite persistState_next. apply Hstop.
    + cbn [next setRemainingSeconds setState phaseStartEpochMsRef].
      rewrite persistState_anchor. apply handlePhaseComplete_anchor.
    + cbn [tickIntervalRef setRemainingSeconds setState].
      rewrite persistState_interval, handlePhaseComplete_interval. reflexivity.
  - repeat split; try reflexivity.
    + rewrite (recomputeRemaining_running c env (setRemainingSeconds _ w) a Hrun Ha Hnz), E.
      reflexivity.
    + cbn [phaseStartEpochMsRef setRemainingSeconds setState].
      now rewrite persistState_anchor.
Qed.

(** ** Natural completion, seen across the commit *)

Lemma core_fields s s' :
  core s = core s' ->
  userId s = userId s' /\ phase s = phase s'
  /\ completedFocusCount s = completedFocusCount s'
  /\ isRunning s = isRunning s' /\ customMinutes s = customMinutes s'.
Proof. unfold core. intros H. injection H as -> _ _ _ -> -> -> ->. auto. Qed.

Lemma handlePhaseComplete_count c env w :
  completedFocusCount (next (handlePhaseComplete c env w))
  = completedFocusCount (next w) + match phase (st c) with focus => 1 | _ => 0 end.
Proof.
  rewrite handlePhaseComplete_next.
  destruct (phase (st c)); cbn; lia.
Qed.

Lemma handlePhaseComplete_stops c env w :
  isRunning (next (handlePhaseComplete c env w)) = false.
Proof. rewrite handlePhaseComplete_next. destruct (phase (st c)); reflexivity. Qed.

(** The count moves by at most one in a tick or a recompute, and only up. *)
Lemma tick_count c env w :
  completedFocusCount (next w) <= completedFocusCount (next (tick c env w))
  <= completedFocusCount (next w) + 1.
Proof.
  unfold tick, reading. cbv zeta.
  match goal with |- context [if ?b then _ else _] => destruct b end; unfold seq.
  - cbn [next setRemainingSeconds setState completedFocusCount].
    rewrite persistState_next, handlePhaseComplete_count.
    cbn [next setTickIntervalRef]. destruct (phase (st c)); lia.
  - cbn [next setRemainingSeconds setState completedFocusCount].
    rewrite persistState_next. lia.
Qed.

Lemma recomputeRemaining_count c env w :
  completedFocusCount (next w) <= completedFocusCount (next (recomputeRemaining c env w))
  <= completedFocusCount (next w) + 1.
Proof.
  unfold recomputeRemaining, reading.
  destruct (phaseStartEpochMsRef w) as [a|]; [|unfold skip; lia].
  destruct (isRunning (st c) && truthy a); cbn [when]; [|unfold skip; lia].
  cbv zeta. unfold seq.
  match goal with |- context [when ?b _] => destruct b end; cbn [when].
  - rewrite handlePhaseComplete_count.
    cbn [next setRemainingSeconds setState completedFocusCount].
    destruct (phase (st c)); lia.
  - unfold skip. cbn. lia.
Qed.

(** No operation but a completion moves the count: per event, what one step
    does to [completedFocusCount].  Signing a user in restores the count of
    that user's snapshot and is left out. *)
Lemma step_count env ev w :
  match ev with
  | AuthResolved _ => True
  | Tick | Visible =>
    completedFocusCount (next w) <= completedFocusCount (next (step env ev w))
    <= completedFocusCount (next w) + 1
  | _ => completedFocusCount (next (step env ev w)) = completedFocusCount (next w)
  end.
Proof.
  destruct ev; try exact I.
  all: match goal with |- context [step _ ?e _] =>
         assert (Hev : forall uid, e <> AuthResolved uid) by discriminate;
         rewrite (step_commit env e w Hev);
         pose proof (runEffects_core _ _ env (step_restoreDeps env e w Hev)
                       (handle e (render w) env w)) as Hc;
         cbv beta in Hc; apply core_fields in Hc;
         destruct Hc as (_ & _ & -> & _ & _)
       end.
  all: cbn [handle].
  - unfold handleStartPause, reading, seq.
    cbn [next setIsRunning setState completedFocusCount].
    rewrite persistState_next.
    unfold when. destruct (negb _); [now rewrite alignStart_next | reflexivity].
  - now rewrite handleReset_next.
  - unfold reading. destruct (tickIntervalRef w); [apply tick_count | unfold skip; lia].
  - unfold reading. apply recomputeRemaining_count.
  - reflexivity.
  - reflexivity.
  - reflexivity.
  - reflexivity.
  - reflexivity.
Qed.

(** X20. When the interval callback of a running timer finds the phase
    elapsed, after that step the timer is stopped, the anchor is cleared,
    the remaining time is the full duration of the phase now current, and
    [completedFocusCount] has grown by one if the completed phase was focus
    and is unchanged if it was a break.  From the same state, start/pause,
    reset and the configuration events leave the count alone, and a tick or
    a recompute moves it by nought or one. *)
Theorem natural_completion_resets_and_counts
    (w : World) (env : Env) (c : Render) (a : Z)
    (Hrun : isRunning (next w) = true)
    (Hint : tickIntervalRef w = Some c)
    (Ha : phaseStartEpochMsRef w = Some a)
    (Hnz : a <> 0)
    (Hexp : phaseDurationSeconds c <= (now env - a) / 1000) :
  let w' := step env Tick w in
  isRunning (next w') = false
  /\ phaseStartEpochMsRef w' = None
  /\ remainingSeconds (next w') = phaseDurationSeconds (render w')
  /\ phase (next w') = nextPhaseOf c
  /\ completedFocusCount (next w')
     = completedFocusCount (next w) + match phase (st c) with focus => 1 | _ => 0 end
  /\ (forall env' ev,
        match ev with
        | AuthResolved _ => True
        | Tick | Visible =>
          completedFocusCount (next w) <= completedFocusCount (next (step env' ev w))
          <= completedFocusCount (next w) + 1
        | _ => completedFocusCount (next (step env' ev w)) = completedFocusCount (next w)
        end).
Proof.
  cbv zeta.
  assert (Hev : forall uid, Tick <> AuthResolved uid) by discriminate.
  rewrite (step_commit env Tick w Hev).
  pose proof (step_restoreDeps env Tick w Hev) as Hr.
  cbn [handle] in *. unfold reading in *. rewrite Hint in *.
  assert (Hzero : (remainingAt c env a =? 0) = true).
  { apply Z.eqb_eq. unfold remainingAt. lia. }
  rewrite (tick_running c env w a Ha Hnz), Hzero in *.
  set (w1 := setRemainingSeconds 0 _) in *.
  assert (Hn1 : next w1 = next (setRemainingSeconds 0
                                  (handlePhaseComplete c env (setTickIntervalRef None w)))).
  { subst w1. cbn [next setRemainingSeconds setState]. now rewrite persistState_next. }
  assert (Hstop : isRunning (next w1) = false).
  { rewrite Hn1. cbn [next setRemainingSeconds setState isRunning].
    apply handlePhaseComplete_stops. }
  assert (Hdeps : durationDeps (render w) (render w1) = true).
  { unfold durationDeps. rewrite !st_render, Hrun, Hstop. apply orb_true_r. }
  pose proof (runEffects_core _ _ env Hr w1) as Hc. cbv beta in Hc.
  pose proof (runEffects_props _ _ env Hr w1) as Hp.
  pose proof (runEffects_next _ _ env w1 Hr) as Hn.
  rewrite Hdeps, st_render, Hstop in Hn. cbn [andb negb] in Hn.
  destruct (core_fields _ _ Hc) as (_ & Hph & Hcnt & Hir & _).
  split; [now rewrite Hir|].
  split.
  { rewrite (runEffects_anchor _ _ _ _ Hr), st_render, Hstop, andb_false_r.
    subst w1. cbn [phaseStartEpochMsRef setRemainingSeconds setState].
    rewrite persistState_anchor. apply handlePhaseComplete_anchor. }
  split.
  { rewrite Hn. cbn [next setRemainingSeconds setState remainingSeconds].
    apply phaseDurationSeconds_core.
    - rewrite !preferences_render. now rewrite Hp.
    - rewrite !st_render. rewrite Hn. reflexivity. }
  split.
  { rewrite Hph, Hn1. cbn [next setRemainingSeconds setState phase].
    rewrite handlePhaseComplete_next. unfold nextPhaseOf.
    destruct (phase (st c)); reflexivity. }
  split.
  { rewrite Hcnt, Hn1. cbn [next setRemainingSeconds setState completedFocusCount].
    rewrite handlePhaseComplete_count. reflexivity. }
  intros env' ev. apply step_count.
Qed.

(** ** Configuration changes *)

Lemma handle_config_next ev c env w :
  isConfigChange ev ->
  isRunning (next (handle ev c env w)) = isRunning (next w)
  /\ remainingSeconds (next (handle ev c env w)) = remainingSeconds (next w)
  /\ phaseStartEpochMsRef (handle ev c env w) = phaseStartEpochMsRef w
  /\ tickIntervalRef (handle ev c env w) = tickIntervalRef w.
Proof. destruct ev; cbn [isConfigChange]; intros []; repeat split. Qed.

(** C7, as the code has it.  A change of the custom minutes or of the props
    never touches the running flag.  While the timer is not running, the
    remaining time becomes the new full duration as soon as the duration of
    the current phase changes (and stays as it is when that duration does
    not change).  While it is running, the remaining time and the anchor are
    left as they are, but the countdown is not shielded: when the duration
    changes, the interval is installed again in the new closure, and its
    next tick computes [max 0 (new duration - elapsed)]. *)
Theorem config_change_effect
    (w : World) (env : Env) (ev : Event)
    (Hev : isConfigChange ev) :
  let w' := step env ev w in
  let dur := phaseDurationSeconds (render w) in
  let dur' := phaseDurationSeconds (render w') in
  isRunning (next w') = isRunning (next w)
  /\ if isRunning (next w)
     then remainingSeconds (next w') = remainingSeconds (next w)
          /\ match phaseStartEpochMsRef w with
             | Some a =>
               a <> 0 ->
               phaseStartEpochMsRef w' = Some a
               /\ (dur' <> dur ->
                   tickIntervalRef w' = Some (render w')
                   /\ forall env2,
                        remainingSeconds (next (tick (render w') env2 w'))
                        = Z.max 0 (dur' - (now env2 - a) / 1000))
             | None => True
             end
     else remainingSeconds (next w')
          = if dur' =? dur then remainingSeconds (next w) else dur'.
Proof.
  cbv zeta.
  assert (Hne : forall uid, ev <> AuthResolved uid)
    by (intros uid ->; exact Hev).
  rewrite (step_commit env ev w Hne).
  pose proof (step_restoreDeps env ev w Hne) as Hr.
  destruct (handle_config_next ev (render w) env w Hev) as (Hrun & Hrem & Hanc & Hint).
  set (w1 := handle ev (render w) env w) in *.
  pose proof (runEffects_core _ _ env Hr w1) as Hc. cbv beta in Hc.
  pose proof (runEffects_props _ _ env Hr w1) as Hp.
  pose proof (runEffects_next _ _ env w1 Hr) as Hn.
  set (w' := runEffects false (render w) (render w1) env w1) in *.
  assert (Hd : phaseDurationSeconds (render w') = phaseDurationSeconds (render w1)).
  { apply phaseDurationSeconds_core; [now rewrite !preferences_render | now rewrite !st_render]. }
  assert (Hdeps : durationDeps (render w) (render w1)
                  = negb (phaseDurationSeconds (render w') =? phaseDurationSeconds (render w))).
  { unfold durationDeps. rewrite !st_render, Hrun, Bool.eqb_reflx, orb_false_r, Hd.
    now rewrite Z.eqb_sym. }
  destruct (core_fields _ _ Hc) as (_ & _ & _ & Hir & _).
  split; [now rewrite Hir, Hrun|].
  rewrite st_render, Hrun in Hn.
  destruct (isRunning (next w)) eqn:Erun.
  - rewrite andb_false_r in Hn.
    assert (Hw' : render w' = render w1).
    { unfold render. now rewrite Hn, Hp. }
    split; [now rewrite Hn|].
    destruct (phaseStartEpochMsRef w) as [a|] eqn:Ea; [|exact I].
    intros Hnz.
    assert (Ha' : phaseStartEpochMsRef w' = Some a).
    { unfold w'. rewrite (runEffects_anchor _ _ _ _ Hr), Hanc. cbn [present].
      rewrite (truthy_nonzero a Hnz), andb_false_r. reflexivity. }
    split; [exact Ha'|].
    intros Hneq. split.
    + rewrite Hw'. unfold w'. rewrite (runEffects_interval _ _ _ _ Hr).
      replace (intervalDeps (render w) (render w1)) with true.
      * now rewrite st_render, Hrun.
      * symmetry. unfold intervalDeps. rewrite <- Hd.
        apply orb_true_iff. right. apply negb_true_iff, Z.eqb_neq. congruence.
    + intros env2. rewrite (tick_running _ env2 w' a Ha' Hnz).
      fold (remainingAt (render w') env2 a).
      destruct (remainingAt (render w') env2 a =? 0) eqn:E; [|reflexivity].
      apply Z.eqb_eq in E. rewrite E. reflexivity.
  - rewrite Hdeps in Hn. cbn [negb] in Hn. rewrite andb_true_r in Hn. rewrite Hn.
    destruct (phaseDurationSeconds (render w') =? phaseDurationSeconds (render w));
      cbn [negb]; [exact Hrem|].
    cbn [next setRemainingSeconds setState remainingSeconds]. now rewrite Hd.
Qed.

(** ** Restoring a snapshot *)

Lemma orNum_zero n : orNum n 0 = n.
Proof.
  unfold orNum, truthy. destruct (n =? 0) eqn:E; cbn [negb]; [|reflexivity].
  apply Z.eqb_eq in E. now subst.
Qed.

Lemma restoreEffect_absent c env w :
  localStorage w (stateKey c) = None -> restoreEffect c env w = w.
Proof. intros H. unfold restoreEffect, reading. now rewrite H. Qed.

(** A running snapshot whose phase has elapsed: the restore writes the
    fields, shows [0], and runs the phase completion, once. *)
Lemma restoreEffect_elapsed c env w saved a :
  localStorage w (stateKey c) = Some saved ->
  TimerPersistedState.isRunning saved = true ->
  TimerPersistedState.phaseStartEpochMs saved = Some a -> a <> 0 ->
  orNum (TimerPersistedState.phaseDurationSeconds saved) (phaseDurationSeconds c)
    <= (now env - a) / 1000 ->
  restoreEffect c env w
  = handlePhaseComplete c env (setRemainingSeconds 0 (restoreFields c saved w)).
Proof.
  intros Hs Hrun Ha Hnz Hexp. unfold restoreEffect, restoreFields, reading.
  rewrite Hs, Ha, Hrun, (truthy_nonzero a Hnz). cbn [andb]. cbv zeta.
  replace (Z.max 0 _) with 0 by lia.
  reflexivity.
Qed.

(** A snapshot that is not running: the remaining time is written as saved. *)
Lemma restoreEffect_paused c env w saved :
  localStorage w (stateKey c) = Some saved ->
  TimerPersistedState.isRunning saved = false ->
  next (restoreEffect c env w)
  = next (setRemainingSeconds (TimerPersistedState.remainingSeconds saved)
            (restoreFields c saved w)).
Proof.
  intros Hs Hrun. unfold restoreEffect, restoreFields, reading.
  rewrite Hs, Hrun. cbn [andb].
  destruct (TimerPersistedState.phaseStartEpochMs saved); reflexivity.
Qed.

Lemma restoreFields_sent c saved : keeps sent (restoreFields c saved).
Proof. unfold restoreFields. frame. Qed.


Lemma restoreFields_userId c saved :
  keeps (fun w => userId (next w)) (restoreFields c saved).
Proof. unfold restoreFields. frame. Qed.

Lemma restoreFields_count c saved w :
  completedFocusCount (next (restoreFields c saved w))
  = TimerPersistedState.completedFocusCount saved.
Proof.
  unfold restoreFields, seq, when.
  destruct (_ && _); cbn; apply orNum_zero.
Qed.

(** The effects of the mount, for the first render, which is not running. *)
Lemma mount_effects env p storage :
  let c := mkRender p (initialState p) in
  let w1 := restoreEffect c env (initialWorld p storage) in
  let w5 := runEffects true c c env (initialWorld p storage) in
  next w5 = next (setRemainingSeconds (phaseDurationSeconds c) w1)
  /\ props w5 = props w1
  /\ sent w5 = sent w1
  /\ phaseStartEpochMsRef w5 = phaseStartEpochMsRef w1
  /\ focusStartTimeRef w5 = focusStartTimeRef w1
  /\ tickIntervalRef w5 = None.
Proof.
  cbv zeta. unfold runEffects. cbn [negb andb orb when]. unfold seq, skip.
  unfold intervalEffect, durationResetEffect. cbn [initialState isRunning st negb when].
  unfold seq.
  rewrite !persistState_next, !persistState_props, !persistState_sent,
    !persistState_anchor, !persistState_focusStart, !persistState_interval.
  cbn [next props sent phaseStartEpochMsRef focusStartTimeRef tickIntervalRef
       setOnVisibility setTickIntervalRef].
  rewrite !persistState_next, !persistState_props, !persistState_sent,
    !persistState_anchor, !persistState_focusStart.
  cbn [next props sent phaseStartEpochMsRef focusStartTimeRef tickIntervalRef
       setOnVisibility setTickIntervalRef].
  rewrite !persistState_next, !persistState_props, !persistState_sent,
    !persistState_anchor, !persistState_focusStart.
  repeat split.
Qed.

(** On mount with no snapshot under the key, the state is the default one. *)
Lemma mount_fresh env p storage :
  storage "guest:timer-state" = None ->
  let w' := mount env p storage in
  next w' = initialState p
  /\ phaseStartEpochMsRef w' = None
  /\ focusStartTimeRef w' = None
  /\ tickIntervalRef w' = None
  /\ sent w' = [].
Proof.
  intros Hs. cbv zeta. unfold mount.
  set (c := mkRender p (initialState p)).
  destruct (mount_effects env p storage) as (Hn & Hp & Hse & Ha & Hf & Hi).
  fold c in Hn, Hp, Hse, Ha, Hf, Hi.
  rewrite (restoreEffect_absent c env (initialWorld p storage) Hs) in *.
  set (w5 := runEffects true c c env (initialWorld p storage)) in *.
  assert (Hn' : next w5 = initialState p) by (rewrite Hn; reflexivity).
  assert (Hr : render w5 = c) by (unfold render; rewrite Hn', Hp; reflexivity).
  rewrite commit_settles
    by (rewrite Hr; unfold restoreDeps; now rewrite String.eqb_refl).
  rewrite Hr, runEffects_settled by reflexivity.
  repeat split; assumption.
Qed.

(** On mount with a running focus snapshot whose phase has elapsed. *)
Lemma mount_restore_elapsed env p storage saved a :
  storage "guest:timer-state" = Some saved ->
  TimerPersistedState.isRunning saved = true ->
  TimerPersistedState.phase saved = focus ->
  TimerPersistedState.phaseStartEpochMs saved = Some a ->
  a <> 0 ->
  orNum (TimerPersistedState.phaseDurationSeconds saved)
        (phaseDurationSeconds (mkRender p (initialState p)))
    <= (now env - a) / 1000 ->
  let w' := mount env p storage in
  isRunning (next w') = false
  /\ phaseStartEpochMsRef w' = None
  /\ (phase (next w') = shortBreak \/ phase (next w') = longBreak)
  /\ remainingSeconds (next w') = phaseDurationSeconds (render w')
  /\ completedFocusCount (next w')
     = TimerPersistedState.completedFocusCount saved + 1
  /\ sessionsLogged (sent w')
     = if hasSubjects (mkRender p (initialState p)) && userAvailable env
       then 1%nat else 0%nat.
Proof.
  intros Hs Hrun Hph Ha Hnz Hexp. cbv zeta. unfold mount.
  set (c := mkRender p (initialState p)) in *.
  destruct (mount_effects env p storage) as (Hn & Hp & Hse & Hanc & _ & _).
  fold c in Hn, Hp, Hse, Hanc.
  rewrite (restoreEffect_elapsed c env (initialWorld p storage) saved a Hs Hrun Ha Hnz Hexp)
    in *.
  set (w0 := setRemainingSeconds 0 (restoreFields c saved (initialWorld p storage))) in *.
  set (w5 := runEffects true c c env (initialWorld p storage)) in *.
  assert (Hcf : phase (st c) = focus) by reflexivity.
  assert (Hir5 : isRunning (next w5) = false).
  { rewrite Hn. cbn [next setRemainingSeconds setState isRunning].
    apply handlePhaseComplete_stops. }
  assert (Hu5 : userId (next w5) = None).
  { rewrite Hn. cbn [next setRemainingSeconds setState userId].
    rewrite (handlePhaseComplete_userId c env w0). unfold w0.
    cbn [next setRemainingSeconds setState userId].
    now rewrite (restoreFields_userId c saved (initialWorld p storage)). }
  assert (Hr : restoreDeps c (render w5) = false).
  { unfold restoreDeps, stateKey. rewrite st_render, Hu5. reflexivity. }
  rewrite (commit_settles 1 c env w5 Hr).
  pose proof (runEffects_core _ _ env Hr w5) as Hc. cbv beta in Hc.
  pose proof (runEffects_props _ _ env Hr w5) as Hp'.
  pose proof (runEffects_next _ _ env w5 Hr) as Hn'.
  pose proof (runEffects_sent _ _ env Hr w5) as Hs'.
  set (w' := runEffects false c (render w5) env w5) in *.
  destruct (core_fields _ _ Hc) as (_ & Hph' & Hcnt' & Hir' & _).
  assert (Hd : phaseDurationSeconds (render w') = phaseDurationSeconds (render w5)).
  { apply phaseDurationSeconds_core;
      [now rewrite !preferences_render | now rewrite !st_render]. }
  split; [now rewrite Hir'|].
  split.
  { unfold w'. rewrite (runEffects_anchor _ _ _ _ Hr), st_render, Hir5, andb_false_r.
    rewrite Hanc. apply handlePhaseComplete_anchor. }
  split.
  { rewrite Hph', Hn. cbn [next setRemainingSeconds setState phase].
    rewrite handlePhaseComplete_next, Hcf.
    cbn [next setIsRunning setPhase setState phase].
    unfold nextPhaseOf. rewrite Hcf.
    destruct (_ =? 0); auto. }
  split.
  { rewrite Hd, Hn', st_render, Hir5. cbn [negb]. rewrite andb_true_r.
    unfold durationDeps. rewrite st_render, Hir5.
    cbn [initialState isRunning st c Bool.eqb negb]. rewrite orb_false_r.
    destruct (phaseDurationSeconds c =? phaseDurationSeconds (render w5)) eqn:E;
      cbn [negb]; [|reflexivity].
    apply Z.eqb_eq in E. rewrite Hn. cbn [next setRemainingSeconds setState remainingSeconds].
    exact E. }
  split.
  { rewrite Hcnt', Hn. cbn [next setRemainingSeconds setState completedFocusCount].
    rewrite handlePhaseComplete_count, Hcf. unfold w0.
    cbn [next setRemainingSeconds setState completedFocusCount].
    now rewrite restoreFields_count. }
  rewrite Hs', Hse, handlePhaseComplete_sent, Hcf.
  destruct (logCompletedFocusSession_count c env (focusStartTimeRef w0)
              (roundDiv (phaseDurationSeconds c) 60) (sent w0)) as [Hk _].
  rewrite Hk. unfold w0. cbn [sent setRemainingSeconds setState].
  rewrite (restoreFields_sent c saved (initialWorld p storage)). reflexivity.
Qed.

Lemma restoreEffect_userId c env : keeps (fun w => userId (next w)) (restoreEffect c env).
Proof.
  unfold restoreEffect. frame. all: apply handlePhaseComplete_userId.
Qed.

Lemma runEffects_userId mounting old new env :
  keeps (fun w => userId (next w)) (runEffects mounting old new env).
Proof.
  unfold runEffects, intervalCleanup.
  repeat frame_step;
    first [ apply restoreEffect_userId
          | intro w; now rewrite intervalEffect_next
          | intro w; now rewrite persistState_next
          | intro w; exact (f_equal (fun t => match t with (u, _, _, _, _, _, _, _) => u end)
                              (durationResetEffect_core new w))
          | intro; reflexivity ].
Qed.

(** Two rounds of commit settle, whatever the first one runs: every further
    round is idle. *)
Lemma commit_two_rounds n old env w :
  commit (2 + n) old env w = commit 2 old env w.
Proof.
  change (commit (2 + n) old env w)
    with (commit (S n) (render w) env (runEffects false old (render w) env w)).
  change (commit 2 old env w)
    with (commit 1 (render w) env (runEffects false old (render w) env w)).
  assert (Hr : restoreDeps (render w)
                 (render (runEffects false old (render w) env w)) = false).
  { unfold restoreDeps.
    rewrite (stateKey_userId (render w) (render (runEffects false old (render w) env w))).
    - now rewrite String.eqb_refl.
    - rewrite !st_render. symmetry.
      exact (runEffects_userId false old (render w) env w). }
  now rewrite !(commit_settles _ _ _ _ Hr).
Qed.

(** Signing in under a new key: the handler stores the user, the first
    commit runs the restore effect alone, in the closure of its render, and
    the second commit runs the effects whose dependencies the restore
    changed. *)
Lemma step_auth env uid w :
  stateKey (render (setUserId uid w)) <> stateKey (render w) ->
  step env (AuthResolved uid) w
  = runEffects false (render (setUserId uid w))
      (render (restoreEffect (render (setUserId uid w)) env (setUserId uid w))) env
      (restoreEffect (render (setUserId uid w)) env (setUserId uid w)).
Proof.
  intros Hkey. unfold step. cbn [handle].
  set (w1 := setUserId uid w).
  change (commit 2 (render w) env w1)
    with (commit 1 (render w1) env (runEffects false (render w) (render w1) env w1)).
  assert (H1 : runEffects false (render w) (render w1) env w1
               = restoreEffect (render w1) env w1).
  { unfold runEffects.
    assert (Hr : restoreDeps (render w) (render w1) = true).
    { unfold restoreDeps. apply negb_true_iff, String.eqb_neq.
      intros E. apply Hkey. symmetry. exact E. }
    rewrite Hr.
    replace (durationDeps (render w) (render w1)) with false.
    replace (intervalDeps (render w) (render w1)) with false.
    replace (visibilityDeps (render w) (render w1)) with false.
    replace (persistDeps (render w) (render w1)) with false.
    - reflexivity.
    - unfold persistDeps, w1. cbn.
      now rewrite Phase_eqb_refl, Bool.eqb_reflx, Z.eqb_refl, !String.eqb_refl,
        SessionKind_eqb_refl, Z.eqb_refl.
    - unfold visibilityDeps, w1. cbn [st render next setUserId setState isRunning].
      rewrite Bool.eqb_reflx.
      rewrite (phaseDurationSeconds_ext (render w) (render (setUserId uid w)))
        by reflexivity.
      now rewrite Z.eqb_refl.
    - unfold intervalDeps, w1. cbn [st render next setUserId setState isRunning phase].
      rewrite Bool.eqb_reflx, Phase_eqb_refl.
      rewrite (phaseDurationSeconds_ext (render w) (render (setUserId uid w)))
        by reflexivity.
      now rewrite Z.eqb_refl.
    - unfold durationDeps, w1. cbn [st render next setUserId setState isRunning].
      rewrite Bool.eqb_reflx.
      rewrite (phaseDurationSeconds_ext (render w) (render (setUserId uid w)))
        by reflexivity.
      now rewrite Z.eqb_refl. }
  rewrite H1. reflexivity.
Qed.

(** Signing in over a running focus snapshot whose phase has elapsed, from a
    state whose phase is focus. *)
Lemma sign_in_restore_elapsed env uid w saved a :
  stateKey (render (setUserId uid w)) <> stateKey (render w) ->
  localStorage w (stateKey (render (setUserId uid w))) = Some saved ->
  phase (next w) = focus ->
  TimerPersistedState.isRunning saved = true ->
  TimerPersistedState.phase saved = focus ->
  TimerPersistedState.phaseStartEpochMs saved = Some a ->
  a <> 0 ->
  orNum (TimerPersistedState.phaseDurationSeconds saved) (phaseDurationSeconds (render w))
    <= (now env - a) / 1000 ->
  let w' := step env (AuthResolved uid) w in
  isRunning (next w') = false
  /\ phaseStartEpochMsRef w' = None
  /\ (phase (next w') = shortBreak \/ phase (next w') = longBreak)
  /\ completedFocusCount (next w')
     = TimerPersistedState.completedFocusCount saved + 1
  /\ sessionsLogged (sent w')
     = (sessionsLogged (sent w)
        + if hasSubjects (render w) && userAvailable env then 1 else 0)%nat.
Proof.
  intros Hkey Hs Hfocus Hrun Hph Ha Hnz Hexp. cbv zeta.
  rewrite (step_auth env uid w Hkey).
  set (w1 := setUserId uid w) in *. set (c := render w1) in *.
  assert (Hcf : phase (st c) = focus) by exact Hfocus.
  assert (Hd1 : phaseDurationSeconds c = phaseDurationSeconds (render w))
    by (apply phaseDurationSeconds_ext; reflexivity).
  assert (Hs1 : localStorage w1 (stateKey c) = Some saved) by exact Hs.
  rewrite <- Hd1 in Hexp.
  rewrite (restoreEffect_elapsed c env w1 saved a Hs1 Hrun Ha Hnz Hexp).
  set (w0 := setRemainingSeconds 0 (restoreFields c saved w1)).
  set (w2 := handlePhaseComplete c env w0).
  assert (Hir2 : isRunning (next w2) = false) by apply handlePhaseComplete_stops.
  assert (Hu2 : userId (next w2) = userId (next w1)).
  { unfold w2. rewrite (handlePhaseComplete_userId c env w0). unfold w0.
    cbn [next setRemainingSeconds setState userId].
    now rewrite (restoreFields_userId c saved w1). }
  assert (Hr : restoreDeps c (render w2) = false).
  { unfold restoreDeps. rewrite (stateKey_userId c (render w2)).
    - now rewrite String.eqb_refl.
    - rewrite st_render. now rewrite Hu2. }
  pose proof (runEffects_core _ _ env Hr w2) as Hc. cbv beta in Hc.
  pose proof (runEffects_sent _ _ env Hr w2) as Hs'.
  destruct (core_fields _ _ Hc) as (_ & Hph' & Hcnt' & Hir' & _).
  split; [now rewrite Hir'|].
  split.
  { rewrite (runEffects_anchor _ _ _ _ Hr), st_render, Hir2, andb_false_r.
    apply handlePhaseComplete_anchor. }
  split.
  { rewrite Hph'. unfold w2. rewrite handlePhaseComplete_next, Hcf.
    cbn [next setIsRunning setPhase setState phase].
    unfold nextPhaseOf. rewrite Hcf.
    destruct (_ =? 0); auto. }
  split.
  { rewrite Hcnt'. unfold w2. rewrite handlePhaseComplete_count, Hcf. unfold w0.
    cbn [next setRemainingSeconds setState completedFocusCount].
    now rewrite restoreFields_count. }
  rewrite Hs'. unfold w2. rewrite handlePhaseComplete_sent, Hcf.
  destruct (logCompletedFocusSession_count c env (focusStartTimeRef w0)
              (roundDiv (phaseDurationSeconds c) 60) (sent w0)) as [Hk _].
  rewrite Hk. unfold w0. cbn [sent setRemainingSeconds setState].
  rewrite (restoreFields_sent c saved w1). reflexivity.
Qed.

(** C3, as the code has it.  (a) On mount with no snapshot under the key,
    the state is the default one, the refs are empty and nothing is sent.
    (b) With a snapshot of a running focus phase whose anchor is set, not
    zero, and at least a full duration in the past, restored on mount or
    when the user is signed in, the phase completion runs once: the timer
    ends stopped in a break phase, the anchor is cleared,
    [completedFocusCount] is the snapshot's plus one, and one session row is
    sent when there are subjects and an authenticated user, none otherwise.
    (c) For a snapshot that is not running, the restore effect writes the
    snapshot's [remainingSeconds] as the remaining time. *)
Theorem cold_start_restore :
  (forall env p storage,
      storage "guest:timer-state" = None ->
      let w' := mount env p storage in
      next w' = initialState p
      /\ phaseStartEpochMsRef w' = None
      /\ focusStartTimeRef w' = None
      /\ tickIntervalRef w' = None
      /\ sent w' = [])
  /\ (forall env p storage saved a,
         storage "guest:timer-state" = Some saved ->
         TimerPersistedState.isRunning saved = true ->
         TimerPersistedState.phase saved = focus ->
         TimerPersistedState.phaseStartEpochMs saved = Some a ->
         a <> 0 ->
         orNum (TimerPersistedState.phaseDurationSeconds saved)
               (phaseDurationSeconds (mkRender p (initialState p)))
           <= (now env - a) / 1000 ->
         let w' := mount env p storage in
         isRunning (next w') = false
         /\ phaseStartEpochMsRef w' = None
         /\ (phase (next w') = shortBreak \/ phase (next w') = longBreak)
         /\ completedFocusCount (next w')
            = TimerPersistedState.completedFocusCount saved + 1
         /\ sessionsLogged (sent w')
            = if hasSubjects (mkRender p (initialState p)) && userAvailable env
              then 1%nat else 0%nat)
  /\ (forall env uid w saved a,
         stateKey (render (setUserId uid w)) <> stateKey (render w) ->
         localStorage w (stateKey (render (setUserId uid w))) = Some saved ->
         phase (next w) = focus ->
         TimerPersistedState.isRunning saved = true ->
         TimerPersistedState.phase saved = focus ->
         TimerPersistedState.phaseStartEpochMs saved = Some a ->
         a <> 0 ->
         orNum (TimerPersistedState.phaseDurationSeconds saved)
               (phaseDurationSeconds (render w))
           <= (now env - a) / 1000 ->
         let w' := step env (AuthResolved uid) w in
         isRunning (next w') = false
         /\ phaseStartEpochMsRef w' = None
         /\ (phase (next w') = shortBreak \/ phase (next w') = longBreak)
         /\ completedFocusCount (next w')
            = TimerPersistedState.completedFocusCount saved + 1
         /\ sessionsLogged (sent w')
            = (sessionsLogged (sent w)
               + if hasSubjects (render w) && userAvailable env then 1 else 0)%nat)
  /\ (forall c env w saved,
         localStorage w (stateKey c) = Some saved ->
         TimerPersistedState.isRunning saved = false ->
         remainingSeconds (next (restoreEffect c env w))
         = TimerPersistedState.remainingSeconds saved).
Proof.
  split; [|split; [|split]].
  - exact mount_fresh.
  - intros env p storage saved a Hs Hrun Hph Ha Hnz Hexp.
    destruct (mount_restore_elapsed env p storage saved a Hs Hrun Hph Ha Hnz Hexp)
      as (H1 & H2 & H3 & _ & H5 & H6).
    cbv zeta. auto.
  - exact sign_in_restore_elapsed.
  - intros c env w saved Hs Hrun.
    rewrite (restoreEffect_paused c env w saved Hs Hrun). reflexivity.
Qed.

(** ** Runs of the component *)

(** C1. The scenario of the specification: a 1500 s phase started at [t0],
    paused when 600 s remain, resumed 300 s later.  In the code the pause
    keeps the anchor and the commit after it shows the full 1500 s again;
    the resume finds the anchor and does not move it, so the first tick
    after the resume shows 300 s, not the 600 s of the pause. *)
Theorem pause_resume_scenario :
  let w1 := step (answers (t0 + 900000)) Tick startedAt_t0 in
  let w2 := step (answers (t0 + 900000)) StartPause w1 in
  let w3 := step (answers (t0 + 1200000)) StartPause w2 in
  let w4 := step (answers (t0 + 1200000)) Tick w3 in
  (isRunning (next w1) = true /\ remainingSeconds (next w1) = 600)
  /\ (isRunning (next w2) = false
      /\ phaseStartEpochMsRef w2 = Some t0
      /\ remainingSeconds (next w2) = 1500)
  /\ (isRunning (next w3) = true /\ phaseStartEpochMsRef w3 = Some t0)
  /\ remainingSeconds (next w4) = 300.
Proof. vm_compute. repeat split. Qed.

(** C2. After a pause the timer is not running and the anchor is still set. *)
Theorem paused_with_anchor :
  let w := step (answers (t0 + 60000)) StartPause startedAt_t0 in
  isRunning (next w) = false /\ phaseStartEpochMsRef w = Some t0.
Proof. vm_compute. split; reflexivity. Qed.

(** C5. A user with three focus phases done leaves during the fourth and
    comes back after its end; [sessionsUntilLongBreak] is 4.  The restore
    that follows the sign-in runs the completion in the closure of the render
    before it, whose count is still 0: the break taken is the short one,
    although [(3 + 1) mod 4 = 0], and the count becomes 4. *)
Theorem restore_completion_reads_stale_count :
  let env := answers (t0 + 2000000) in
  let w0 := mount env examplePreferences (userStorage fourthFocusSnapshot) in
  let w1 := step env (AuthResolved (Some "u1")) w0 in
  sessionsUntilLongBreak (render w0) = 4
  /\ TimerPersistedState.completedFocusCount fourthFocusSnapshot = 3
  /\ (3 + 1) mod 4 = 0
  /\ completedFocusCount (next w0) = 0
  /\ phase (next w1) = shortBreak
  /\ completedFocusCount (next w1) = 4.
Proof. vm_compute. repeat split. Qed.

(** C6. Two restores after a sign-in.  In custom mode, a focus phase that
    elapsed while the user was away completes into the short break with the
    timer stopped and [0] seconds remaining, where the duration of the phase
    is 1500: no effect resets the remaining time, since neither the duration
    nor the running flag changed.  And a short break that elapsed while the
    user was away is completed in a closure whose phase is focus: the count
    goes from 1 to 2 and a session row is sent. *)
Theorem restore_completion_misses_reset_and_counts_break :
  let env := answers (t0 + 2000000) in
  let w1 := step env (AuthResolved (Some "u1"))
                 (mount env customPreferences (userStorage customSnapshot)) in
  let w2 := step env (AuthResolved (Some "u1"))
                 (mount env examplePreferences (userStorage breakSnapshot)) in
  (phase (next w1) = shortBreak
   /\ isRunning (next w1) = false
   /\ remainingSeconds (next w1) = 0
   /\ phaseDurationSeconds (render w1) = 1500)
  /\ (TimerPersistedState.phase breakSnapshot = shortBreak
      /\ TimerPersistedState.completedFocusCount breakSnapshot = 1
      /\ completedFocusCount (next w2) = 2
      /\ sessionsLogged (sent w2) = 1%nat).
Proof. vm_compute. repeat split. Qed.

(** A pause never clears the anchor, whatever the state. *)
Lemma pause_keeps_anchor env w :
  isRunning (next w) = true ->
  isRunning (next (step env StartPause w)) = false
  /\ phaseStartEpochMsRef (step env StartPause w) = phaseStartEpochMsRef w.
Proof.
  intros Hrun.
  assert (Hev : forall uid, StartPause <> AuthResolved uid) by discriminate.
  rewrite (step_commit env StartPause w Hev).
  pose proof (step_restoreDeps env StartPause w Hev) as Hr.
  cbn [handle] in *.
  assert (Hh : handleStartPause (render w) env w
               = setIsRunning false
                   (persistState (render w) (TimerPersistedState.with_isRunning false) w)).
  { unfold handleStartPause, reading. rewrite Hrun. reflexivity. }
  rewrite Hh in *.
  set (w1 := setIsRunning false _) in *.
  pose proof (runEffects_core _ _ env Hr w1) as Hc. cbv beta in Hc.
  destruct (core_fields _ _ Hc) as (_ & _ & _ & Hir & _).
  split.
  - rewrite Hir. reflexivity.
  - rewrite (runEffects_anchor _ _ _ _ Hr).
    replace (isRunning (st (render w1))) with false by reflexivity.
    rewrite andb_false_r. unfold w1.
    cbn [phaseStartEpochMsRef setIsRunning setState]. now rewrite persistState_anchor.
Qed.

(** ** Counterexamples and instances *)

(** C3, against the claim as stated: a running focus snapshot, elapsed long
    ago, restored on mount with an empty subject list.  The phase completes
    (short break, count one, stopped) and no session row is sent. *)
Lemma cold_start_without_subjects_logs_nothing :
  let env := answers (t0 + 100000000) in
  let w' := mount env noSubjects (guestStorage runningSnapshot) in
  TimerPersistedState.isRunning runningSnapshot = true
  /\ TimerPersistedState.phaseDurationSeconds runningSnapshot
     <= (now env - t0) / 1000
  /\ phase (next w') = shortBreak
  /\ completedFocusCount (next w') = 1
  /\ isRunning (next w') = false
  /\ sessionsLogged (sent w') = 0%nat.
Proof. vm_compute. repeat split; discriminate. Qed.

(** C4, against the claim as stated: with the clock at [0] when the timer is
    started, the anchor is [0]: set, not null, and falsy.  The timer runs,
    and 2000 s later neither the recompute nor the tick shows
    [max 0 (1500 - 2000)]: the recompute is skipped and the tick takes the
    anchor to be now. *)
Lemma zero_anchor_is_not_recomputed :
  let w := step (answers 0) StartPause (mount (answers 0) examplePreferences emptyStorage) in
  let env := answers 2000000 in
  isRunning (next w) = true
  /\ phaseStartEpochMsRef w = Some 0
  /\ Z.max 0 (phaseDurationSeconds (render w) - (now env - 0) / 1000) = 0
  /\ remainingSeconds (next (recomputeRemaining (render w) env w)) = 1500
  /\ remainingSeconds (next (step env Visible w)) = 1500
  /\ remainingSeconds (next (step env Tick w)) = 1500
  /\ isRunning (next (step env Tick w)) = true.
Proof. vm_compute. repeat split. Qed.

(** C7, against the claim as stated: in custom mode, 25 minutes started at
    [t0]; after 600 s the custom minutes are set to 50 while the timer runs.
    The tick one second later shows 2399 s: the new duration less the
    elapsed time, and not the 899 s of the duration the phase started with. *)
Lemma config_change_while_running_moves_countdown :
  let w0 := step (answers t0) StartPause (mount (answers t0) customPreferences emptyStorage) in
  let w1 := step (answers (t0 + 600000)) Tick w0 in
  let w2 := step (answers (t0 + 600000)) (CustomMinutes 50) w1 in
  let w3 := step (answers (t0 + 601000)) Tick w2 in
  isRunning (next w1) = true
  /\ remainingSeconds (next w1) = 900
  /\ isRunning (next w2) = true
  /\ phaseStartEpochMsRef w2 = Some t0
  /\ remainingSeconds (next w3) = 2399
  /\ Z.max 0 (phaseDurationSeconds (render w1) - (t0 + 601000 - t0) / 1000) = 899.
Proof. vm_compute. repeat split. Qed.

(** Four focus phases in a row with [sessionsUntilLongBreak = 4]: each is
    started, completed by the tick at its end, and followed by its break,
    which is started and completed too.  The breaks are short, short, short,
    long. *)
Lemma four_focus_sessions :
  let w0 := mount (answers t0) examplePreferences emptyStorage in
  let '(w1, b1) := focusThenBreak t0 w0 in
  let '(w2, b2) := focusThenBreak (t0 + 3000000) w1 in
  let '(w3, b3) := focusThenBreak (t0 + 6000000) w2 in
  let '(w4, b4) := focusThenBreak (t0 + 9000000) w3 in
  [b1; b2; b3; b4] = [shortBreak; shortBreak; shortBreak; longBreak]
  /\ completedFocusCount (next w4) = 4
  /\ phase (next w4) = focus
  /\ sessionsLogged (sent w4) = 4%nat.
Proof. vm_compute. repeat split. Qed.

(** A snapshot that is not running, 600 s of 1500 remaining.  Restored when
    the user is signed in, the remaining time is the snapshot's; restored on
    mount, the effect on the duration runs in the same commit and shows the
    full duration. *)
Lemma paused_snapshot_restored :
  let env := answers (t0 + 2000000) in
  let w1 := step env (AuthResolved (Some "u1"))
                 (mount env examplePreferences (userStorage pausedSnapshot)) in
  let w2 := mount env examplePreferences (guestStorage pausedSnapshot) in
  remainingSeconds (next w1) = 600
  /\ remainingSeconds (next w2) = 1500.
Proof. vm_compute. split; reflexivity. Qed.

(** The scenario of the specification: 25 minutes started at [t0]; the tick
    at [t0 + 1500 s] completes the phase and one session of 25 minutes has
    been sent. *)
Lemma focus_of_25_minutes :
  let w := step (answers (t0 + 1500000)) Tick startedAt_t0 in
  phase (next w) = shortBreak
  /\ isRunning (next w) = false
  /\ sent w = [InsertSession "u1" "math" 25 t0 (t0 + 1500000) study;
               InsertRewards "u1" "2026-01-02"].
Proof. vm_compute. repeat split. Qed.

(** An elapsed focus snapshot restored on mount, with a subject and a user:
    one completion, one session row. *)
Lemma cold_start_restore_witness :
  let env := answers (t0 + 100000000) in
  let w' := mount env examplePreferences (guestStorage runningSnapshot) in
  guestStorage runningSnapshot "guest:timer-state" = Some runningSnapshot
  /\ TimerPersistedState.isRunning runningSnapshot = true
  /\ completedFocusCount (next w') = 1
  /\ sessionsLogged (sent w') = 1%nat.
Proof.
  cbv zeta.
  destruct (proj1 (proj2 cold_start_restore) (answers (t0 + 100000000))
              examplePreferences (guestStorage runningSnapshot) runningSnapshot t0)
    as (_ & _ & _ & Hcount & Hsent).
  - reflexivity.
  - reflexivity.
  - reflexivity.
  - reflexivity.
  - discriminate.
  - vm_compute. discriminate.
  - split; [reflexivity|]. split; [reflexivity|]. split; [exact Hcount | exact Hsent].
Defined.

(** The recompute 900 s into the phase started at [t0]. *)
Lemma recompute_remaining_from_anchor_witness :
  isRunning (st (render startedAt_t0)) = true
  /\ phaseStartEpochMsRef startedAt_t0 = Some t0
  /\ t0 <> 0
  /\ remainingSeconds
       (next (recomputeRemaining (render startedAt_t0) (answers (t0 + 900000)) startedAt_t0))
     = 600.
Proof.
  assert (H1 : isRunning (st (render startedAt_t0)) = true) by reflexivity.
  assert (H2 : phaseStartEpochMsRef startedAt_t0 = Some t0) by reflexivity.
  assert (H3 : t0 <> 0) by discriminate.
  split; [exact H1|]. split; [exact H2|]. split; [exact H3|].
  rewrite (proj1 (recompute_remaining_from_anchor (render startedAt_t0)
                    (answers (t0 + 900000)) startedAt_t0 t0 H1 H2 H3)).
  reflexivity.
Defined.

(** The tick at the end of the phase started at [t0]. *)
Lemma natural_completion_instance :
  isRunning (next startedAt_t0) = true
  /\ tickIntervalRef startedAt_t0 = Some (render startedAt_t0)
  /\ phaseDurationSeconds (render startedAt_t0) <= (now (answers (t0 + 1500000)) - t0) / 1000
  /\ completedFocusCount (next (step (answers (t0 + 1500000)) Tick startedAt_t0)) = 1
  /\ remainingSeconds (next (step (answers (t0 + 1500000)) Tick startedAt_t0)) = 300.
Proof.
  assert (H1 : isRunning (next startedAt_t0) = true) by reflexivity.
  assert (H2 : tickIntervalRef startedAt_t0 = Some (render startedAt_t0)) by reflexivity.
  assert (H3 : phaseStartEpochMsRef startedAt_t0 = Some t0) by reflexivity.
  assert (H4 : t0 <> 0) by discriminate.
  assert (H5 : phaseDurationSeconds (render startedAt_t0)
               <= (now (answers (t0 + 1500000)) - t0) / 1000)
    by (vm_compute; discriminate).
  destruct (natural_completion_resets_and_counts startedAt_t0 (answers (t0 + 1500000))
              (render startedAt_t0) t0 H1 H2 H3 H4 H5)
    as (_ & _ & Hrem & _ & Hcount & _).
  split; [exact H1|]. split; [exact H2|]. split; [exact H5|]. split.
  - rewrite Hcount. reflexivity.
  - rewrite Hrem. reflexivity.
Defined.

(** The custom minutes set to 50 before the timer is started. *)
Lemma config_change_effect_witness :
  let w := mount (answers t0) customPreferences emptyStorage in
  isConfigChange (CustomMinutes 50)
  /\ isRunning (next w) = false
  /\ remainingSeconds (next (step (answers t0) (CustomMinutes 50) w)) = 3000.
Proof.
  cbv zeta.
  assert (H1 : isConfigChange (CustomMinutes 50)) by exact I.
  split; [exact H1|]. split; [reflexivity|].
  destruct (config_change_effect (mount (answers t0) customPreferences emptyStorage)
              (answers t0) (CustomMinutes 50) H1) as (_ & H).
  change (isRunning (next (mount (answers t0) customPreferences emptyStorage)))
    with false in H.
  cbv iota in H. rewrite H. reflexivity.
Defined.

(** A focus phase completing while the remote client rejects every call. *)
Lemma emission_failure_does_not_block_transition_witness :
  phase (st (render startedAt_t0)) = focus
  /\ sent (handlePhaseComplete (render startedAt_t0) (rejects (t0 + 1500000)) startedAt_t0) = []
  /\ next (handlePhaseComplete (render startedAt_t0) (rejects (t0 + 1500000)) startedAt_t0)
     = next (handlePhaseComplete (render startedAt_t0) (answers (t0 + 1500000)) startedAt_t0).
Proof.
  assert (H1 : phase (st (render startedAt_t0)) = focus) by reflexivity.
  assert (H2 : now (rejects (t0 + 1500000)) = now (answers (t0 + 1500000)))
    by reflexivity.
  split; [exact H1|]. split; [reflexivity|].
  exact (proj1 (proj2 (proj2 (proj2
           (emission_failure_does_not_block_transition (render startedAt_t0)
              (rejects (t0 + 1500000)) (answers (t0 + 1500000)) startedAt_t0 H1 H2))))).
Defined.

(** A focus phase completing with an empty subject list. *)
Lemma completion_without_subject_or_user_emits_nothing_witness :
  let c := mkRender noSubjects (initialState noSubjects) in
  let w := initialWorld noSubjects emptyStorage in
  phase (st c) = focus
  /\ hasSubjects c = false
  /\ sent (handlePhaseComplete c (answers t0) w) = []
  /\ completedFocusCount (next (handlePhaseComplete c (answers t0) w)) = 1.
Proof.
  cbv zeta.
  assert (H1 : phase (st (mkRender noSubjects (initialState noSubjects))) = focus)
    by reflexivity.
  assert (H2 : hasSubjects (mkRender noSubjects (initialState noSubjects)) = false)
    by reflexivity.
  destruct (completion_without_subject_or_user_emits_nothing
              (mkRender noSubjects (initialState noSubjects)) (answers t0)
              (initialWorld noSubjects emptyStorage) H1 (or_introl H2))
    as (Hsent & _ & _ & _ & _ & _ & Hcount & _).
  split; [exact H1|]. split; [exact H2|]. split.
  - exact Hsent.
  - rewrite Hcount. reflexivity.
Defined.

(** * Further properties of the code *)

(** ** The interval and the listener follow the running flag *)

Lemma persistState_storage_other c o k w :
  k <> stateKey c -> localStorage (persistState c o w) k = localStorage w k.
Proof.
  intros Hk. unfold persistState, reading, setItem. cbn [localStorage].
  destruct (String.eqb k (stateKey c)) eqn:E; [|reflexivity].
  apply String.eqb_eq in E. contradiction.
Qed.

Lemma durationResetEffect_listener c : keeps onVisibility (durationResetEffect c).
Proof. unfold durationResetEffect, persistState. frame. Qed.

Lemma intervalEffect_listener c env : keeps onVisibility (intervalEffect c env).
Proof. unfold intervalEffect, alignStart, persistState. frame. Qed.

Lemma handlePhaseComplete_listener c env : keeps onVisibility (handlePhaseComplete c env).
Proof. unfold handlePhaseComplete, persistState. frame. Qed.

Lemma restoreEffect_interval c env : keeps tickIntervalRef (restoreEffect c env).
Proof. unfold restoreEffect. frame. all: apply handlePhaseComplete_interval. Qed.

Lemma restoreEffect_listener c env : keeps onVisibility (restoreEffect c env).
Proof. unfold restoreEffect. frame. all: apply handlePhaseComplete_listener. Qed.

Lemma restoreEffect_props c env : keeps props (restoreEffect c env).
Proof. unfold restoreEffect. frame. all: apply handlePhaseComplete_props. Qed.

Lemma handle_listener ev c env : keeps onVisibility (handle ev c env).
Proof.
  destruct ev; cbn [handle];
    unfold handleStartPause, handleReset, tick, recomputeRemaining, alignStart,
      persistState.
  all: frame.
  all: try apply handlePhaseComplete_listener.
Qed.

(** The listener after a commit. *)
Lemma runEffects_listener old new env w :
  restoreDeps old new = false ->
  onVisibility (runEffects false old new env w)
  = if visibilityDeps old new then new else onVisibility w.
Proof.
  intros H. unfold runEffects. rewrite H. cbn [negb orb andb]. unfold seq.
  rewrite (keeps_when onVisibility _ _ (persistState_listener _ _)).
  destruct (visibilityDeps old new); cbn [when]; [reflexivity|].
  unfold skip at 1.
  rewrite (keeps_when onVisibility _ _ (intervalEffect_listener _ _)).
  rewrite (keeps_when onVisibility _ _ (durationResetEffect_listener _)).
  unfold skip. unfold when, intervalCleanup.
  destruct (intervalDeps old new); reflexivity.
Qed.

(** A handler leaves the interval alone, or clears it and stops the timer. *)
Lemma handle_interval ev c env w :
  tickIntervalRef (handle ev c env w) = tickIntervalRef w
  \/ (tickIntervalRef (handle ev c env w) = None
      /\ isRunning (next (handle ev c env w)) = false).
Proof.
  destruct ev; cbn [handle]; try (left; reflexivity).
  - left. unfold handleStartPause, reading, seq.
    cbn [tickIntervalRef setIsRunning setState].
    rewrite persistState_interval.
    destruct (negb (isRunning (next w))); cbn [when];
      [apply alignStart_interval | reflexivity].
  - left. unfold handleReset, seq, when.
    rewrite persistState_interval.
    destruct (Phase_eqb (phase (st c)) focus); reflexivity.
  - unfold reading. destruct (tickIntervalRef w) as [cap|] eqn:E;
      [|left; unfold skip; now rewrite E].
    unfold tick, reading. cbv zeta.
    match goal with |- context [if ?b then _ else _] => destruct b end; unfold seq.
    + right. cbn [tickIntervalRef next setRemainingSeconds setState isRunning].
      rewrite persistState_interval, persistState_next, handlePhaseComplete_interval,
        handlePhaseComplete_stops.
      split; reflexivity.
    + left. cbn [tickIntervalRef setRemainingSeconds setState].
      now rewrite persistState_interval.
  - left. unfold reading, recomputeRemaining, reading.
    destruct (phaseStartEpochMsRef w); [|reflexivity].
    destruct (isRunning (st (onVisibility w)) && truthy z); cbn [when]; [|reflexivity].
    cbv zeta. unfold seq.
    match goal with |- context [when ?b _] => destruct b end; cbn [when].
    + now rewrite handlePhaseComplete_interval.
    + reflexivity.
Qed.

Lemma intervalDeps_false old new :
  intervalDeps old new = false ->
  isRunning (st old) = isRunning (st new) /\ phase (st old) = phase (st new)
  /\ phaseDurationSeconds old = phaseDurationSeconds new.
Proof.
  unfold intervalDeps. intros H.
  apply orb_false_iff in H. destruct H as [H H3].
  apply orb_false_iff in H. destruct H as [H1 H2].
  apply negb_false_iff in H1, H2, H3.
  apply Bool.eqb_prop in H1. apply Phase_eqb_eq in H2. apply Z.eqb_eq in H3. auto.
Qed.

Lemma visibilityDeps_false old new :
  visibilityDeps old new = false ->
  isRunning (st old) = isRunning (st new)
  /\ phaseDurationSeconds old = phaseDurationSeconds new.
Proof.
  unfold visibilityDeps. intros H.
  apply orb_false_iff in H. destruct H as [H1 H3].
  apply negb_false_iff in H1, H3.
  apply Bool.eqb_prop in H1. apply Z.eqb_eq in H3. auto.
Qed.

Lemma visibilityDeps_intervalDeps old new :
  intervalDeps old new = false -> visibilityDeps old new = false.
Proof.
  intros H. destruct (intervalDeps_false old new H) as (H1 & _ & H3).
  unfold visibilityDeps. rewrite H1, H3, Bool.eqb_reflx, Z.eqb_refl. reflexivity.
Qed.

(** One round of effects makes the world coherent, provided the parts whose
    effect does not run were coherent before. *)
Lemma runEffects_coherent old env w :
  restoreDeps old (render w) = false ->
  (intervalDeps old (render w) = false -> intervalCoherent w) ->
  (visibilityDeps old (render w) = false -> listenerCoherent w) ->
  coherent (runEffects false old (render w) env w).
Proof.
  intros Hr Hi Hl.
  pose proof (runEffects_core _ _ env Hr w) as Hc. cbv beta in Hc.
  pose proof (runEffects_props _ _ env Hr w) as Hp.
  destruct (core_fields _ _ Hc) as (_ & Hph & _ & Hir & _).
  assert (Hd : phaseDurationSeconds (render (runEffects false old (render w) env w))
               = phaseDurationSeconds (render w)).
  { apply phaseDurationSeconds_core;
      [now rewrite !preferences_render | now rewrite !st_render]. }
  split.
  - unfold intervalCoherent. rewrite (runEffects_interval _ _ _ _ Hr), Hd, Hir, Hph.
    destruct (intervalDeps old (render w)).
    + rewrite st_render. destruct (isRunning (next w)) eqn:E; [|reflexivity].
      rewrite st_render. repeat split; assumption.
    + exact (Hi eq_refl).
  - unfold listenerCoherent. rewrite (runEffects_listener _ _ _ _ Hr), Hd, Hir.
    destruct (visibilityDeps old (render w)).
    + rewrite st_render. split; reflexivity.
    + exact (Hl eq_refl).
Qed.

Lemma intervalCoherent_transfer w w1 :
  intervalCoherent w ->
  (tickIntervalRef w1 = tickIntervalRef w
   \/ (tickIntervalRef w1 = None /\ isRunning (next w1) = false)) ->
  isRunning (next w) = isRunning (next w1) ->
  phase (next w) = phase (next w1) ->
  phaseDurationSeconds (render w) = phaseDurationSeconds (render w1) ->
  intervalCoherent w1.
Proof.
  intros Hi [Hsame|[Hnone Hstop]] H1 H2 H3; unfold intervalCoherent in *.
  - rewrite Hsame, <- H1, <- H2, <- H3. exact Hi.
  - rewrite Hnone. exact Hstop.
Qed.

(** An event that triggers no restore keeps the world coherent. *)
Lemma step_coherent_plain env ev w :
  restoreDeps (render w) (render (handle ev (render w) env w)) = false ->
  coherent w -> coherent (step env ev w).
Proof.
  intros Hr [Hi Hl].
  unfold step. rewrite (commit_settles 1 _ _ _ Hr).
  apply runEffects_coherent; [exact Hr| |].
  - intros Hdeps. destruct (intervalDeps_false _ _ Hdeps) as (H1 & H2 & H3).
    rewrite !st_render in H1, H2.
    exact (intervalCoherent_transfer w _ Hi (handle_interval ev (render w) env w) H1 H2 H3).
  - intros Hdeps. destruct (visibilityDeps_false _ _ Hdeps) as (H1 & H3).
    rewrite !st_render in H1.
    unfold listenerCoherent in *. rewrite handle_listener, <- H1, <- H3. exact Hl.
Qed.

(** Every event keeps the world coherent. *)
Lemma step_coherent env ev w : coherent w -> coherent (step env ev w).
Proof.
  intros Hco.
  destruct (restoreDeps (render w) (render (handle ev (render w) env w))) eqn:Er;
    [|now apply step_coherent_plain].
  destruct ev;
    try (rewrite step_restoreDeps in Er by discriminate; discriminate).
  (* the key changed: the user was signed in *)
  cbn [handle] in Er. unfold restoreDeps in Er.
  apply negb_true_iff, String.eqb_neq in Er.
  assert (Ekey : stateKey (render (setUserId uid w)) <> stateKey (render w))
    by (intros E; apply Er; now rewrite E).
  destruct Hco as [Hi Hl].
  rewrite (step_auth env uid w Ekey).
  set (w1 := setUserId uid w) in *.
  set (w2 := restoreEffect (render w1) env w1).
  assert (Hr : restoreDeps (render w1) (render w2) = false).
  { unfold restoreDeps. rewrite (stateKey_userId (render w1) (render w2)).
    - now rewrite String.eqb_refl.
    - rewrite !st_render. symmetry. exact (restoreEffect_userId (render w1) env w1). }
  assert (Hd1 : phaseDurationSeconds (render w) = phaseDurationSeconds (render w1))
    by (apply phaseDurationSeconds_ext; reflexivity).
  apply runEffects_coherent; [exact Hr| |].
  - intros Hdeps. destruct (intervalDeps_false _ _ Hdeps) as (H1 & H2 & H3).
    rewrite !st_render in H1, H2.
    apply (intervalCoherent_transfer w w2 Hi).
    + left. unfold w2. now rewrite restoreEffect_interval.
    + exact H1.
    + exact H2.
    + now rewrite Hd1.
  - intros Hdeps. destruct (visibilityDeps_false _ _ Hdeps) as (H1 & H3).
    rewrite !st_render in H1.
    unfold listenerCoherent in *.
    replace (onVisibility w2) with (onVisibility w)
      by (unfold w2; now rewrite restoreEffect_listener).
    rewrite <- H1, <- H3, <- Hd1. exact Hl.
Qed.

Lemma mount_coherent env p storage : coherent (mount env p storage).
Proof.
  unfold mount.
  set (c := mkRender p (initialState p)).
  set (w5 := runEffects true c c env (initialWorld p storage)).
  assert (Hu : userId (next w5) = None)
    by exact (runEffects_userId true c c env (initialWorld p storage)).
  assert (Hr : restoreDeps c (render w5) = false).
  { unfold restoreDeps, stateKey. rewrite st_render, Hu. reflexivity. }
  rewrite (commit_settles 1 c env w5 Hr).
  apply runEffects_coherent; [exact Hr| |].
  - intros Hdeps. destruct (intervalDeps_false _ _ Hdeps) as (H1 & _ & _).
    rewrite st_render in H1. unfold intervalCoherent.
    destruct (mount_effects env p storage) as (_ & _ & _ & _ & _ & Hi).
    fold c w5 in Hi. rewrite Hi. now rewrite <- H1.
  - intros Hdeps. destruct (visibilityDeps_false _ _ Hdeps) as (H1 & H3).
    rewrite st_render in H1. unfold listenerCoherent.
    assert (Hl : onVisibility w5 = c).
    { unfold w5, runEffects. cbn [negb andb orb when]. unfold seq.
      rewrite persistState_listener. reflexivity. }
    rewrite Hl, <- H1, <- H3. split; reflexivity.
Qed.

Lemma interval_coherence_of_reachable w : reachable w -> coherent w.
Proof.
  intros Hreach. induction Hreach as [env p storage | env ev w _ IH].
  - apply mount_coherent.
  - now apply step_coherent.
Qed.

(** X1. In every world a session can reach, the one-second interval is
    installed exactly while the timer runs, its callback closes over the
    phase and the duration the state has, and the visibility listener closes
    over the running flag and the duration the state has. *)
Theorem interval_follows_running_flag (w : World) (Hreach : reachable w) :
  match tickIntervalRef w with
  | Some c =>
    isRunning (next w) = true /\ isRunning (st c) = true
    /\ phase (st c) = phase (next w)
    /\ phaseDurationSeconds c = phaseDurationSeconds (render w)
  | None => isRunning (next w) = false
  end
  /\ isRunning (st (onVisibility w)) = isRunning (next w)
  /\ phaseDurationSeconds (onVisibility w) = phaseDurationSeconds (render w).
Proof.
  change (coherent w).
  induction Hreach as [env p storage | env ev w _ IH].
  - apply mount_coherent.
  - apply step_coherent. exact IH.
Qed.

(** A handler that changes nothing is followed by an idle commit. *)
Lemma step_idle env ev w :
  handle ev (render w) env w = w -> step env ev w = w.
Proof.
  intros H. unfold step. rewrite H.
  assert (Hr : restoreDeps (render w) (render w) = false)
    by (unfold restoreDeps; now rewrite String.eqb_refl).
  rewrite (commit_settles 1 _ _ _ Hr).
  now apply runEffects_settled.
Qed.

Lemma coherent_stopped_idle w env :
  coherent w -> isRunning (next w) = false ->
  step env Tick w = w /\ step env Visible w = w.
Proof.
  intros [Hi [Hl _]] Hstopped.
  split; apply step_idle; cbn [handle]; unfold reading.
  - unfold intervalCoherent in Hi.
    destruct (tickIntervalRef w) as [c|]; [|reflexivity].
    destruct Hi as [Hi _]. congruence.
  - unfold recomputeRemaining, reading.
    rewrite Hl, Hstopped.
    destruct (phaseStartEpochMsRef w); reflexivity.
Qed.

(** X2. While the timer is not running, time does not pass for it: a tick
    and a visibility or focus event leave the whole world as it is. *)
Theorem stopped_timer_ignores_clock_events
    (w : World) (env : Env)
    (Hreach : reachable w)
    (Hstopped : isRunning (next w) = false) :
  step env Tick w = w /\ step env Visible w = w.
Proof.
  pose proof (interval_coherence_of_reachable w Hreach) as Hc.
  destruct (coherent_stopped_idle w env Hc Hstopped) as [Htick Hvisible].
  split; [exact Htick | exact Hvisible].
Qed.

(** ** Starting and counting down *)

Lemma render_eq w w' : props w = props w' -> next w = next w' -> render w = render w'.
Proof. intros Hp Hn. unfold render. now rewrite Hp, Hn. Qed.



(** A tick that does not complete the phase, and its commit. *)
Lemma step_tick_running env w c a :
  tickIntervalRef w = Some c ->
  phaseStartEpochMsRef w = Some a -> a <> 0 ->
  0 < remainingAt c env a ->
  step env Tick w
  = setRemainingSeconds (remainingAt c env a)
      (persistState c (TimerPersistedState.with_remainingSeconds (remainingAt c env a)) w).
Proof.
  intros Hint Ha Hnz Hpos.
  assert (Hev : forall uid, Tick <> AuthResolved uid) by discriminate.
  rewrite (step_commit env Tick w Hev).
  cbn [handle]. unfold reading. rewrite Hint.
  rewrite (tick_running c env w a Ha Hnz).
  replace (remainingAt c env a =? 0) with false by (symmetry; apply Z.eqb_neq; lia).
  apply runEffects_settled.
  - rewrite !preferences_render.
    cbn [props setRemainingSeconds setState]. now rewrite persistState_props.
  - rewrite !st_render. cbn [next setRemainingSeconds setState].
    rewrite persistState_next. reflexivity.
Qed.


Lemma handlePhaseComplete_focusStart c env w :
  focusStartTimeRef (handlePhaseComplete c env w)
  = match phase (st c) with focus => None | _ => focusStartTimeRef w end.
Proof.
  unfold handlePhaseComplete.
  destruct (phase (st c)); cbv zeta; unfold seq; rewrite persistState_focusStart;
    reflexivity.
Qed.

(** What a tick leaves does not depend on the time shown before it, nor on
    the storage. *)
Lemma tick_after_shown c env r o w :
  let w' := setRemainingSeconds r (persistState c o w) in
  next (tick c env w') = next (tick c env w)
  /\ props (tick c env w') = props (tick c env w)
  /\ phaseStartEpochMsRef (tick c env w') = phaseStartEpochMsRef (tick c env w)
  /\ focusStartTimeRef (tick c env w') = focusStartTimeRef (tick c env w)
  /\ tickIntervalRef (tick c env w') = tickIntervalRef (tick c env w)
  /\ sent (tick c env w') = sent (tick c env w).
Proof.
  cbv zeta. unfold tick, reading.
  cbn [phaseStartEpochMsRef setRemainingSeconds setState].
  rewrite persistState_anchor. cbv zeta.
  match goal with |- context [if ?b then _ else _] => destruct b end; unfold seq;
    cbn [next props phaseStartEpochMsRef focusStartTimeRef tickIntervalRef sent
         setRemainingSeconds setState];
    rewrite !persistState_next, !persistState_props, !persistState_anchor,
      !persistState_focusStart, !persistState_interval, !persistState_sent.
  - rewrite !handlePhaseComplete_next, !handlePhaseComplete_props,
      !handlePhaseComplete_anchor, !handlePhaseComplete_focusStart,
      !handlePhaseComplete_interval, !handlePhaseComplete_sent.
    cbn [next props phaseStartEpochMsRef focusStartTimeRef tickIntervalRef sent
         setTickIntervalRef setRemainingSeconds setState].
    rewrite !persistState_props, !persistState_focusStart, !persistState_sent.
    destruct (phase (st c));
      cbn [next setIsRunning setPhase setCompletedFocusCount setTickIntervalRef
           setRemainingSeconds setState userId selectedSubjectId sessionTitle
           sessionType phase completedFocusCount isRunning customMinutes
           remainingSeconds];
      rewrite !persistState_next; repeat split.
  - cbn [next props phaseStartEpochMsRef focusStartTimeRef tickIntervalRef sent
         setRemainingSeconds setState userId selectedSubjectId sessionTitle
         sessionType phase completedFocusCount isRunning customMinutes
         remainingSeconds].
    rewrite !persistState_next, !persistState_props, !persistState_anchor,
      !persistState_focusStart, !persistState_interval, !persistState_sent.
    repeat split.
Qed.

Lemma durationDeps_shown old old' new :
  preferences old = preferences old' -> core (st old) = core (st old') ->
  durationDeps old new = durationDeps old' new
  /\ intervalDeps old new = intervalDeps old' new.
Proof.
  intros Hp Hc. pose proof (phaseDurationSeconds_core _ _ Hp Hc) as Hd.
  destruct (core_fields _ _ Hc) as (_ & Hph & _ & Hir & _).
  unfold durationDeps, intervalDeps. now rewrite Hd, Hph, Hir.
Qed.

(** X4. Ticks that were missed do not matter: a tick gives the same state,
    anchor, interval and remote calls whether or not an earlier tick, one
    that did not complete the phase, came before it. *)
Theorem missed_ticks_do_not_matter
    (w : World) (env1 env2 : Env) (c : Render) (a : Z)
    (Hint : tickIntervalRef w = Some c)
    (Ha : phaseStartEpochMsRef w = Some a)
    (Hnz : a <> 0)
    (Hpos : 0 < Z.max 0 (phaseDurationSeconds c - (now env1 - a) / 1000)) :
  let wa := step env2 Tick (step env1 Tick w) in
  let wb := step env2 Tick w in
  next wa = next wb
  /\ phaseStartEpochMsRef wa = phaseStartEpochMsRef wb
  /\ tickIntervalRef wa = tickIntervalRef wb
  /\ sent wa = sent wb.
Proof.
  cbv zeta. fold (remainingAt c env1 a) in Hpos.
  rewrite (step_tick_running env1 w c a Hint Ha Hnz Hpos).
  set (r := remainingAt c env1 a).
  set (o := TimerPersistedState.with_remainingSeconds r).
  set (w' := setRemainingSeconds r (persistState c o w)).
  assert (Hev : forall uid, Tick <> AuthResolved uid) by discriminate.
  rewrite !(step_commit _ Tick _ Hev).
  pose proof (step_restoreDeps env2 Tick w Hev) as Hr.
  pose proof (step_restoreDeps env2 Tick w' Hev) as Hr'.
  cbn [handle] in *. unfold reading in *.
  assert (Hint' : tickIntervalRef w' = Some c).
  { unfold w'. cbn [tickIntervalRef setRemainingSeconds setState].
    now rewrite persistState_interval. }
  rewrite Hint, Hint' in *.
  destruct (tick_after_shown c env2 r o w) as (Hn & Hp & Hanc & _ & Hi & Hs).
  fold w' in Hn, Hp, Hanc, Hi, Hs.
  assert (Hrender : render (tick c env2 w') = render (tick c env2 w))
    by (apply render_eq; assumption).
  assert (Hold : preferences (render w') = preferences (render w)
                 /\ core (st (render w')) = core (st (render w))).
  { rewrite !preferences_render, !st_render. unfold w'.
    cbn [props next setRemainingSeconds setState].
    rewrite persistState_props, persistState_next. split; reflexivity. }
  destruct Hold as [Hop Hoc].
  destruct (durationDeps_shown (render w') (render w) (render (tick c env2 w)) Hop Hoc)
    as [Hdd Hid].
  rewrite (runEffects_next _ _ _ _ Hr'), (runEffects_next _ _ _ _ Hr),
    (runEffects_anchor _ _ _ _ Hr'), (runEffects_anchor _ _ _ _ Hr),
    (runEffects_interval _ _ _ _ Hr'), (runEffects_interval _ _ _ _ Hr),
    (runEffects_sent _ _ env2 Hr'), (runEffects_sent _ _ env2 Hr).
  rewrite Hrender, Hdd, Hid, Hanc, Hi, Hs.
  cbn [next setRemainingSeconds setState]. rewrite Hn.
  repeat split.
Qed.

(** ** Snapshots *)

Lemma persistState_storage_own c o w :
  localStorage (persistState c o w) (stateKey c)
  = Some (o (TimerPersistedState.mk
               (phase (st c)) (isRunning (st c)) (customMinutes (st c))
               (selectedSubjectId (st c)) (sessionTitle (st c)) (sessionType (st c))
               (completedFocusCount (st c)) (phaseDurationSeconds c)
               (remainingSeconds (st c)) (phaseStartEpochMsRef w) (isPomodoro c))).
Proof.
  unfold persistState, reading, setItem. cbn [localStorage].
  now rewrite String.eqb_refl.
Qed.

Lemma restoreFields_next c saved w :
  next (restoreFields c saved w)
  = mkState (userId (next w))
            (orStr (TimerPersistedState.selectedSubjectId saved) (defaultSubjectId c))
            (orStr (TimerPersistedState.sessionTitle saved) "Focus Session")
            (TimerPersistedState.sessionType saved)
            (TimerPersistedState.phase saved)
            (TimerPersistedState.completedFocusCount saved)
            (TimerPersistedState.isRunning saved)
            (TimerPersistedState.customMinutes saved)
            (remainingSeconds (next w)).
Proof.
  unfold restoreFields, seq, when.
  destruct (_ && _); cbn; now rewrite orNum_zero.
Qed.

Lemma restoreFields_anchor c saved w :
  phaseStartEpochMsRef (restoreFields c saved w) = TimerPersistedState.phaseStartEpochMs saved.
Proof. unfold restoreFields, seq, when. destruct (_ && _); reflexivity. Qed.

Lemma restoreEffect_stopped c env w saved :
  localStorage w (stateKey c) = Some saved ->
  TimerPersistedState.isRunning saved = false ->
  restoreEffect c env w
  = setRemainingSeconds (TimerPersistedState.remainingSeconds saved)
      (restoreFields c saved w).
Proof.
  intros Hs Hrun. unfold restoreEffect, restoreFields, reading.
  rewrite Hs, Hrun. cbn [andb].
  destruct (TimerPersistedState.phaseStartEpochMs saved); reflexivity.
Qed.

(** X5. What [persistState] writes for a timer that is not running,
    the restore effect reads back under the same key: the phase, the running
    flag, the custom minutes, the count, the remaining time, the session
    kind and the anchor come back as they were; an empty subject id comes
    back as the default subject and an empty title as the default title;
    nothing is sent. *)
Theorem snapshot_round_trip
    (c c' : Render) (env : Env) (w : World)
    (Hkey : stateKey c' = stateKey c)
    (Hstopped : isRunning (st c) = false) :
  let w' := restoreEffect c' env (persistState c noOverride w) in
  phase (next w') = phase (st c)
  /\ isRunning (next w') = false
  /\ customMinutes (next w') = customMinutes (st c)
  /\ completedFocusCount (next w') = completedFocusCount (st c)
  /\ remainingSeconds (next w') = remainingSeconds (st c)
  /\ sessionType (next w') = sessionType (st c)
  /\ selectedSubjectId (next w')
     = (if String.eqb (selectedSubjectId (st c)) EmptyString
        then defaultSubjectId c' else selectedSubjectId (st c))
  /\ sessionTitle (next w')
     = (if String.eqb (sessionTitle (st c)) EmptyString
        then "Focus Session"%string else sessionTitle (st c))
  /\ phaseStartEpochMsRef w' = phaseStartEpochMsRef w
  /\ sent w' = sent w.
Proof.
  cbv zeta.
  pose proof (persistState_storage_own c noOverride w) as Hs.
  rewrite <- Hkey in Hs.
  rewrite (restoreEffect_stopped c' env _ _ Hs) by exact Hstopped.
  cbn [next phaseStartEpochMsRef sent setRemainingSeconds setState
       phase isRunning customMinutes completedFocusCount remainingSeconds
       sessionType selectedSubjectId sessionTitle].
  rewrite restoreFields_next, restoreFields_anchor, restoreFields_sent,
    persistState_sent.
  cbn. rewrite Hstopped. repeat split.
Qed.

Lemma restoreEffect_running_left c env w saved a :
  localStorage w (stateKey c) = Some saved ->
  TimerPersistedState.isRunning saved = true ->
  TimerPersistedState.phaseStartEpochMs saved = Some a -> a <> 0 ->
  0 < Z.max 0 (orNum (TimerPersistedState.phaseDurationSeconds saved)
                     (phaseDurationSeconds c) - (now env - a) / 1000) ->
  restoreEffect c env w
  = setRemainingSeconds
      (Z.max 0 (orNum (TimerPersistedState.phaseDurationSeconds saved)
                      (phaseDurationSeconds c) - (now env - a) / 1000))
      (restoreFields c saved w).
Proof.
  intros Hs Hrun Ha Hnz Hleft. unfold restoreEffect, restoreFields, reading.
  rewrite Hs, Ha, Hrun, (truthy_nonzero a Hnz). cbn [andb]. cbv zeta.
  match goal with |- context [when (?x <=? 0) _] =>
    replace (x <=? 0) with false by (symmetry; apply Z.leb_gt; exact Hleft)
  end.
  reflexivity.
Qed.

(** X6. Signing in over the snapshot of a running phase that has not elapsed
    resumes it: the timer runs in the phase, with the count and the custom
    minutes of the snapshot, the anchor is the snapshot's, the time shown is
    the snapshot's duration less the seconds since the anchor, the interval
    is installed in the new closure, and nothing is sent. *)
Theorem sign_in_resumes_running_snapshot
    (w : World) (env : Env) (uid : option string) (saved : Persisted) (a : Z)
    (Hkey : stateKey (render (setUserId uid w)) <> stateKey (render w))
    (Hsaved : localStorage w (stateKey (render (setUserId uid w))) = Some saved)
    (Hstopped : isRunning (next w) = false)
    (Hrun : TimerPersistedState.isRunning saved = true)
    (Ha : TimerPersistedState.phaseStartEpochMs saved = Some a)
    (Hnz : a <> 0)
    (Hleft : 0 < Z.max 0 (orNum (TimerPersistedState.phaseDurationSeconds saved)
                                (phaseDurationSeconds (render w))
                          - (now env - a) / 1000)) :
  let w' := step env (AuthResolved uid) w in
  isRunning (next w') = true
  /\ phase (next w') = TimerPersistedState.phase saved
  /\ completedFocusCount (next w') = TimerPersistedState.completedFocusCount saved
  /\ customMinutes (next w') = TimerPersistedState.customMinutes saved
  /\ remainingSeconds (next w')
     = Z.max 0 (orNum (TimerPersistedState.phaseDurationSeconds saved)
                      (phaseDurationSeconds (render w))
                - (now env - a) / 1000)
  /\ phaseStartEpochMsRef w' = Some a
  /\ tickIntervalRef w' = Some (render w')
  /\ sent w' = sent w.
Proof.
  cbv zeta. rewrite (step_auth env uid w Hkey).
  set (w1 := setUserId uid w) in *. set (c := render w1) in *.
  assert (Hd1 : phaseDurationSeconds c = phaseDurationSeconds (render w))
    by (apply phaseDurationSeconds_ext; reflexivity).
  rewrite <- Hd1 in *.
  rewrite (restoreEffect_running_left c env w1 saved a Hsaved Hrun Ha Hnz Hleft).
  set (r := Z.max 0 _) in *.
  set (w2 := setRemainingSeconds r (restoreFields c saved w1)).
  assert (Hn2 : next w2
                = mkState (userId (next w1))
                    (orStr (TimerPersistedState.selectedSubjectId saved) (defaultSubjectId c))
                    (orStr (TimerPersistedState.sessionTitle saved) "Focus Session")
                    (TimerPersistedState.sessionType saved)
                    (TimerPersistedState.phase saved)
                    (TimerPersistedState.completedFocusCount saved)
                    true
                    (TimerPersistedState.customMinutes saved) r).
  { unfold w2. cbn [next setRemainingSeconds setState].
    rewrite restoreFields_next, Hrun. reflexivity. }
  assert (Ha2 : phaseStartEpochMsRef w2 = Some a).
  { unfold w2. cbn [phaseStartEpochMsRef setRemainingSeconds setState].
    now rewrite restoreFields_anchor. }
  assert (Hr : restoreDeps c (render w2) = false).
  { unfold restoreDeps. rewrite (stateKey_userId c (render w2)).
    - now rewrite String.eqb_refl.
    - rewrite st_render, Hn2. reflexivity. }
  pose proof (runEffects_next _ _ env w2 Hr) as Hn.
  rewrite st_render, Hn2 in Hn. cbn [isRunning negb] in Hn. rewrite andb_false_r in Hn.
  pose proof (runEffects_props _ _ env Hr w2) as Hp.
  assert (Hrender : render (runEffects false c (render w2) env w2) = render w2)
    by (apply render_eq; [exact Hp | now rewrite Hn, Hn2]).
  rewrite Hrender, Hn, (runEffects_anchor _ _ _ _ Hr), (runEffects_interval _ _ _ _ Hr),
    (runEffects_sent _ _ env Hr w2), Ha2.
  cbn [present]. rewrite (truthy_nonzero a Hnz), andb_false_r.
  replace (intervalDeps c (render w2)) with true.
  - rewrite st_render, Hn2. cbn [isRunning phase completedFocusCount customMinutes
                                 remainingSeconds].
    repeat split.
    unfold w2. cbn [sent setRemainingSeconds setState].
    now rewrite restoreFields_sent.
  - unfold intervalDeps. rewrite st_render, Hn2.
    replace (isRunning (st c)) with false by (symmetry; exact Hstopped).
    reflexivity.
Qed.

(** X7. Signing in over the snapshot of a timer that is not running restores
    its phase, count, custom minutes and anchor and leaves the timer
    stopped.  The time shown is the snapshot's remaining time when the
    timer was stopped before the sign-in and the duration of the restored
    phase is the duration shown before; otherwise it is the full duration
    of the restored phase.  Nothing is sent. *)
Theorem sign_in_restores_stopped_snapshot
    (w : World) (env : Env) (uid : option string) (saved : Persisted)
    (Hkey : stateKey (render (setUserId uid w)) <> stateKey (render w))
    (Hsaved : localStorage w (stateKey (render (setUserId uid w))) = Some saved)
    (Hstopped : TimerPersistedState.isRunning saved = false) :
  let w' := step env (AuthResolved uid) w in
  isRunning (next w') = false
  /\ phase (next w') = TimerPersistedState.phase saved
  /\ completedFocusCount (next w') = TimerPersistedState.completedFocusCount saved
  /\ customMinutes (next w') = TimerPersistedState.customMinutes saved
  /\ remainingSeconds (next w')
     = (if (phaseDurationSeconds (render w') =? phaseDurationSeconds (render w))
           && negb (isRunning (next w))
        then TimerPersistedState.remainingSeconds saved
        else phaseDurationSeconds (render w'))
  /\ phaseStartEpochMsRef w' = TimerPersistedState.phaseStartEpochMs saved
  /\ sent w' = sent w.
Proof.
  cbv zeta. rewrite (step_auth env uid w Hkey).
  set (w1 := setUserId uid w) in *. set (c := render w1) in *.
  assert (Hd1 : phaseDurationSeconds c = phaseDurationSeconds (render w))
    by (apply phaseDurationSeconds_ext; reflexivity).
  rewrite (restoreEffect_stopped c env w1 saved Hsaved Hstopped).
  set (w2 := setRemainingSeconds (TimerPersistedState.remainingSeconds saved)
               (restoreFields c saved w1)).
  assert (Hn2 : next w2
                = mkState (userId (next w1))
                    (orStr (TimerPersistedState.selectedSubjectId saved) (defaultSubjectId c))
                    (orStr (TimerPersistedState.sessionTitle saved) "Focus Session")
                    (TimerPersistedState.sessionType saved)
                    (TimerPersistedState.phase saved)
                    (TimerPersistedState.completedFocusCount saved)
                    false
                    (TimerPersistedState.customMinutes saved)
                    (TimerPersistedState.remainingSeconds saved)).
  { unfold w2. cbn [next setRemainingSeconds setState].
    rewrite restoreFields_next, Hstopped. reflexivity. }
  assert (Ha2 : phaseStartEpochMsRef w2 = TimerPersistedState.phaseStartEpochMs saved).
  { unfold w2. cbn [phaseStartEpochMsRef setRemainingSeconds setState].
    now rewrite restoreFields_anchor. }
  assert (Hr : restoreDeps c (render w2) = false).
  { unfold restoreDeps. rewrite (stateKey_userId c (render w2)).
    - now rewrite String.eqb_refl.
    - rewrite st_render, Hn2. reflexivity. }
  pose proof (runEffects_core _ _ env Hr w2) as Hc. cbv beta in Hc.
  pose proof (runEffects_next _ _ env w2 Hr) as Hn.
  pose proof (runEffects_props _ _ env Hr w2) as Hp.
  set (w' := runEffects false c (render w2) env w2) in *.
  assert (Hd : phaseDurationSeconds (render w') = phaseDurationSeconds (render w2)).
  { apply phaseDurationSeconds_core;
      [now rewrite !preferences_render | now rewrite !st_render]. }
  destruct (core_fields _ _ Hc) as (_ & Hph & Hcnt & Hir & Hcm).
  rewrite Hph, Hcnt, Hir, Hcm, Hn2.
  cbn [isRunning phase completedFocusCount customMinutes].
  assert (Hrun1 : isRunning (st c) = isRunning (next w)) by reflexivity.
  repeat split.
  - rewrite Hn, st_render, Hn2. cbn [isRunning negb]. rewrite andb_true_r, Hd.
    unfold durationDeps. rewrite st_render, Hn2, Hrun1, Hd1. cbn [isRunning].
    rewrite (Z.eqb_sym (phaseDurationSeconds (render w2))).
    destruct (phaseDurationSeconds (render w) =? phaseDurationSeconds (render w2));
      destruct (isRunning (next w)); cbn; reflexivity.
  - unfold w'. rewrite (runEffects_anchor _ _ _ _ Hr), st_render, Hn2.
    cbn [isRunning]. now rewrite andb_false_r.
  - unfold w'. rewrite (runEffects_sent _ _ env Hr w2).
    unfold w2. cbn [sent setRemainingSeconds setState].
    now rewrite restoreFields_sent.
Qed.

(** ** One slot per user *)

Lemma length_append a b : String.length (a ++ b) = (String.length a + String.length b)%nat.
Proof. induction a as [|x a IH]; cbn; [reflexivity | now rewrite IH]. Qed.

Lemma append_cancel_r s a b : (a ++ s = b ++ s)%string -> a = b.
Proof.
  revert b. induction a as [|x a IH]; intros [|y b] H; cbn in H.
  - reflexivity.
  - apply (f_equal String.length) in H. cbn in H. rewrite length_append in H. lia.
  - apply (f_equal String.length) in H. cbn in H. rewrite length_append in H. lia.
  - injection H as -> H. f_equal. now apply IH.
Qed.

(** X8. Signed-in users do not share a slot: two renders with different,
    non-empty user ids have different storage keys, and the key of a
    signed-in user is the guest key only if the user id is [guest]. *)
Theorem state_key_separates_users
    (c c' : Render) (u u' : string)
    (Hu : userId (st c) = Some u)
    (Hu' : userId (st c') = Some u')
    (Hne : u <> EmptyString)
    (Hne' : u' <> EmptyString) :
  (stateKey c = stateKey c' -> u = u')
  /\ (stateKey c = "guest:timer-state"%string -> u = "guest"%string).
Proof.
  unfold stateKey. rewrite Hu, Hu'.
  apply String.eqb_neq in Hne, Hne'. rewrite Hne, Hne'.
  split; intros H.
  - now apply (append_cancel_r ":timer-state").
  - now apply (append_cancel_r ":timer-state").
Qed.

Section OtherKeys.
Variable k : string.

Let slot (w : World) : option Persisted := localStorage w k.

Lemma persistState_slot c o : k <> stateKey c -> keeps slot (persistState c o).
Proof. intros Hk w. now apply persistState_storage_other. Qed.

Lemma handlePhaseComplete_slot c env :
  k <> stateKey c -> keeps slot (handlePhaseComplete c env).
Proof.
  intros Hk. unfold handlePhaseComplete. frame.
  all: now apply persistState_slot.
Qed.

Lemma handle_slot ev env w :
  (forall uid, ev <> AuthResolved uid) ->
  k <> stateKey (render w) ->
  match tickIntervalRef w with Some c => k <> stateKey c | None => True end ->
  k <> stateKey (onVisibility w) ->
  slot (handle ev (render w) env w) = slot w.
Proof.
  intros Hev Hk Hi Hl. destruct ev; cbn [handle];
    try (exfalso; eapply Hev; reflexivity); try reflexivity.
  - revert w Hk Hi Hl. intros w Hk _ _.
    assert (H : keeps slot (handleStartPause (render w) env)).
    { unfold handleStartPause, alignStart. frame. now apply persistState_slot. }
    apply H.
  - assert (H : keeps slot (handleReset (render w))).
    { unfold handleReset. frame. now apply persistState_slot. }
    apply H.
  - unfold reading. destruct (tickIntervalRef w) as [c|]; [|reflexivity].
    assert (H : keeps slot (tick c env)).
    { unfold tick. frame;
        first [ now apply persistState_slot | now apply handlePhaseComplete_slot ]. }
    apply H.
  - unfold reading.
    assert (H : keeps slot (recomputeRemaining (onVisibility w) env)).
    { unfold recomputeRemaining. frame. now apply handlePhaseComplete_slot. }
    apply H.
Qed.

Lemma runEffects_slot old new env :
  restoreDeps old new = false -> k <> stateKey new ->
  keeps slot (runEffects false old new env).
Proof.
  intros H Hk. unfold runEffects, intervalCleanup. rewrite H. cbn [negb orb andb].
  unfold durationResetEffect, intervalEffect, alignStart.
  frame. all: now apply persistState_slot.
Qed.

End OtherKeys.

(** X9. An event other than a sign-in writes only under the keys of the
    closures at work: a slot whose key is neither the key of the current
    render, nor of the closure of the interval, nor of the closure of the
    visibility listener is left as it is. *)
Theorem step_leaves_other_slots
    (w : World) (env : Env) (ev : Event) (k : string)
    (Hev : forall uid, ev <> AuthResolved uid)
    (Hk : k <> stateKey (render w))
    (Hi : match tickIntervalRef w with Some c => k <> stateKey c | None => True end)
    (Hl : k <> stateKey (onVisibility w)) :
  localStorage (step env ev w) k = localStorage w k.
Proof.
  rewrite (step_commit env ev w Hev).
  pose proof (step_restoreDeps env ev w Hev) as Hr.
  rewrite (runEffects_slot k _ _ env Hr).
  - now apply handle_slot.
  - rewrite (stateKey_userId _ (render w)); [exact Hk|].
    rewrite !st_render. exact (handle_userId ev _ env Hev w).
Qed.

(** ** The cycle position and the planned minutes *)

(** X10. For a count that is not negative, the position shown beside a
    focus phase lies between 1 and [sessionsUntilLongBreak], and the
    completion of that focus phase goes to the long break exactly when the
    position shown is the last one. *)
Theorem cycle_indicator_announces_long_break
    (c : Render) (env : Env) (w : World)
    (Hcount : 0 <= completedFocusCount (st c))
    (Hfocus : phase (st c) = focus) :
  1 <= cycleIndicator c <= sessionsUntilLongBreak c
  /\ (phase (next (handlePhaseComplete c env w)) = longBreak
      <-> cycleIndicator c = sessionsUntilLongBreak c).
Proof.
  pose proof (sessionsUntilLongBreak_range c) as Hn.
  rewrite handlePhaseComplete_next, Hfocus.
  cbn [next setIsRunning setPhase setState phase].
  unfold nextPhaseOf, cycleIndicator. rewrite Hfocus.
  set (n := sessionsUntilLongBreak c) in *. set (k := completedFocusCount (st c)) in *.
  rewrite !Z.rem_mod_nonneg by lia.
  pose proof (Z.mod_pos_bound k n ltac:(lia)) as Hb.
  split; [lia|].
  assert (Hsucc : (k + 1) mod n = if k mod n + 1 =? n then 0 else k mod n + 1).
  { destruct (k mod n + 1 =? n) eqn:E.
    - apply Z.eqb_eq in E. symmetry.
      apply (Z.mod_unique (k + 1) n (k / n + 1) 0); [lia|].
      pose proof (Z.div_mod k n ltac:(lia)). nia.
    - apply Z.eqb_neq in E. symmetry.
      apply (Z.mod_unique (k + 1) n (k / n) (k mod n + 1)); [lia|].
      pose proof (Z.div_mod k n ltac:(lia)). lia. }
  rewrite Hsucc.
  destruct (k mod n + 1 =? n) eqn:E.
  - apply Z.eqb_eq in E. cbn. split; auto.
  - apply Z.eqb_neq in E.
    replace (k mod n + 1 =? 0) with false by (symmetry; apply Z.eqb_neq; lia).
    split; [discriminate | contradiction].
Qed.





(** X12. The streak write of the logging call.  What one call adds to the
    calls sent holds a streak update only after the session insert was
    accepted and a rewards row was read; the update carries today's date, a
    longest streak that is neither below the current one nor below the
    longest read, and a current streak of 1 unless the row's last study
    date is yesterday, when it is the current streak read plus one.  A
    first rewards row is inserted only when no row was read. *)
Theorem streak_update_follows_rewards_row
    (c : Render) (env : Env) (fs : option Z) (mins : Z) (l : list RemoteCall) :
  exists added,
    snd (logCompletedFocusSession c env fs mins l) = (l ++ added)%list
    /\ (forall u cur lon d,
          In (UpdateRewards u cur lon d) added ->
          getUser env = Resolved (Some u)
          /\ insertSession env = Resolved tt
          /\ d = todayIso env
          /\ cur <= lon
          /\ exists row,
               selectRewards env = Resolved (Some row)
               /\ match longest row with Some n => n | None => 0 end <= lon
               /\ (cur = 1
                   \/ (last_study_date row = Some (yesterdayIso env)
                       /\ cur = match current row with Some n => n | None => 0 end + 1)))
    /\ (forall u d,
          In (InsertRewards u d) added ->
          insertSession env = Resolved tt
          /\ selectRewards env = Resolved None
          /\ d = todayIso env).
Proof.
  unfold logCompletedFocusSession.
  destruct (hasSubjects c); cbn [negb];
    [|exists []; rewrite app_nil_r; repeat split; intros; contradiction].
  cbv zeta. unfold tryCatch, bind, await, send, ret.
  destruct (getUser env) as [[uid|]|]; cbn [fst snd];
    try (exists []; rewrite app_nil_r; repeat split; intros; contradiction).
  destruct (String.eqb uid EmptyString);
    [exists []; rewrite app_nil_r; repeat split; intros; contradiction|].
  destruct (insertSession env) as [[]|]; cbn [fst snd].
  2:{ eexists. split; [reflexivity|].
      split; intros * [H|[]]; discriminate H. }
  destruct (selectRewards env) as [[row|]|]; cbn [fst snd].
  - set (cur0 := match last_study_date row with
                 | Some lastDate =>
                   if String.eqb lastDate (yesterdayIso env)
                   then match current row with Some n => n | None => 0 end + 1
                   else 1
                 | None => 1
                 end).
    assert (Hcur : cur0 = 1
                   \/ (last_study_date row = Some (yesterdayIso env)
                       /\ cur0 = match current row with Some n => n | None => 0 end + 1)).
    { subst cur0. destruct (last_study_date row) as [d0|]; [|now left].
      destruct (String.eqb d0 (yesterdayIso env)) eqn:E; [|now left].
      apply String.eqb_eq in E. subst d0. right. split; reflexivity. }
    exists [InsertSession uid (selectedSubjectId (st c)) mins
              (match fs with Some t => t | None => now env - mins * 60 * 1000 end)
              (now env) (sessionType (st c));
            UpdateRewards uid cur0
              (Z.max (match longest row with Some n => n | None => 0 end) cur0)
              (todayIso env)].
    split.
    { destruct (updateRewards env) as [[]|]; cbn [fst snd];
        rewrite <- app_assoc; reflexivity. }
    split.
    + intros u cur lon d [H|[H|[]]]; [discriminate H|].
      injection H as <- <- <- <-.
      repeat split; try reflexivity; [lia|].
      exists row. repeat split; [lia | exact Hcur].
    + intros u d [H|[H|[]]]; discriminate H.
  - exists [InsertSession uid (selectedSubjectId (st c)) mins
              (match fs with Some t => t | None => now env - mins * 60 * 1000 end)
              (now env) (sessionType (st c));
            InsertRewards uid (todayIso env)].
    split.
    { destruct (insertRewards env) as [[]|]; cbn [fst snd];
        rewrite <- app_assoc; reflexivity. }
    split.
    + intros u cur lon d [H|[H|[]]]; discriminate H.
    + intros u d [H|[H|[]]]; [discriminate H|].
      injection H as <- <-. repeat split.
  - eexists. split; [reflexivity|].
    split; intros * [H|[]]; discriminate H.
Qed.

(** ** The countdown of the interval callback *)

Lemma tick_cases c env w :
  let r := Z.max 0 (phaseDurationSeconds c - (now env - tickAnchor env w) / 1000) in
  remainingSeconds (next (tick c env w)) = r
  /\ (r = 0 ->
      tickIntervalRef (tick c env w) = None
      /\ isRunning (next (tick c env w)) = false
      /\ phaseStartEpochMsRef (tick c env w) = None)
  /\ (0 < r ->
      tickIntervalRef (tick c env w) = tickIntervalRef w
      /\ isRunning (next (tick c env w)) = isRunning (next w)
      /\ phase (next (tick c env w)) = phase (next w)
      /\ phaseStartEpochMsRef (tick c env w) = phaseStartEpochMsRef w).
Proof.
  cbv zeta. unfold tick, reading. fold (tickAnchor env w). cbv zeta.
  set (r := Z.max 0 (phaseDurationSeconds c - (now env - tickAnchor env w) / 1000)).
  destruct (r <=? 0) eqn:E; unfold seq.
  - apply Z.leb_le in E. assert (Hr : r = 0) by (subst r; lia).
    split; [now rewrite Hr|].
    split; [|lia].
    intros _.
    cbn [tickIntervalRef next phaseStartEpochMsRef setRemainingSeconds setState isRunning].
    rewrite persistState_interval, persistState_next, persistState_anchor,
      handlePhaseComplete_interval, handlePhaseComplete_anchor.
    repeat split. apply handlePhaseComplete_stops.
  - apply Z.leb_gt in E.
    split; [reflexivity|].
    split; [lia|].
    intros _.
    cbn [tickIntervalRef next phaseStartEpochMsRef setRemainingSeconds setState
         isRunning phase].
    rewrite persistState_interval, persistState_next, persistState_anchor.
    repeat split.
Qed.

(** X13. The interval callback never shows a negative time, and a later
    clock never shows more: from the same world, the callback run at a
    later clock leaves a remaining time that is at most the one left at the
    earlier clock.  When it leaves 0 it has cleared the interval, stopped
    the timer and cleared the anchor; when it leaves more it has touched
    none of the interval, the running flag, the phase and the anchor. *)
Theorem countdown_never_rises
    (c : Render) (env1 env2 : Env) (w : World)
    (Hclock : now env1 <= now env2) :
  0 <= remainingSeconds (next (tick c env2 w))
    <= remainingSeconds (next (tick c env1 w))
  /\ (remainingSeconds (next (tick c env1 w)) = 0 ->
      tickIntervalRef (tick c env1 w) = None
      /\ isRunning (next (tick c env1 w)) = false
      /\ phaseStartEpochMsRef (tick c env1 w) = None)
  /\ (0 < remainingSeconds (next (tick c env1 w)) ->
      tickIntervalRef (tick c env1 w) = tickIntervalRef w
      /\ isRunning (next (tick c env1 w)) = isRunning (next w)
      /\ phase (next (tick c env1 w)) = phase (next w)
      /\ phaseStartEpochMsRef (tick c env1 w) = phaseStartEpochMsRef w).
Proof.
  destruct (tick_cases c env1 w) as (H1 & Hz & Hp).
  destruct (tick_cases c env2 w) as (H2 & _ & _).
  cbv zeta in *.
  split.
  - rewrite H1, H2. split; [lia|].
    unfold tickAnchor, orNum.
    destruct (phaseStartEpochMsRef w) as [a|].
    + destruct (truthy a).
      * assert ((now env1 - a) / 1000 <= (now env2 - a) / 1000)
          by (apply Z.div_le_mono; lia).
        lia.
      * rewrite !Z.sub_diag. lia.
    + rewrite !Z.sub_diag. lia.
  - rewrite H1. split; assumption.
Qed.

(** ** The dashboard: upcoming sessions *)

Lemma filter_split {A} (f : A -> bool) (l : list A) :
  (List.length (filter f l) + List.length (filter (fun x => negb (f x)) l) = List.length l)%nat.
Proof.
  induction l as [|x l IH]; [reflexivity|].
  cbn [filter]. destruct (f x); cbn [negb List.length]; lia.
Qed.

Lemma firstn_nil_iff {A} (n : nat) (l : list A) :
  (0 < n)%nat -> (firstn n l = [] <-> l = []).
Proof.
  intros Hn. destruct n as [|n]; [lia|].
  destruct l as [|x l]; cbn [firstn]; split; intros H; try reflexivity; discriminate H.
Qed.

(** X14. The sessions the dashboard lists as upcoming are at most three,
    each is one of the loaded sessions, scheduled today and not completed,
    and they are the first pending sessions of today in the order loaded.
    The list is empty exactly when the count of today's completed sessions
    is the count of today's sessions. *)
Theorem upcoming_sessions_are_pending_today
    (sessions : list StudySession.t) (today : string) :
  (List.length (upcomingSessions sessions today) <= 3)%nat
  /\ (forall s, In s (upcomingSessions sessions today) ->
        In s sessions
        /\ StudySession.scheduledDate s = today
        /\ StudySession.completed s = false)
  /\ (exists later,
        filter (fun s => negb (StudySession.completed s)) (todaysSessions sessions today)
        = (upcomingSessions sessions today ++ later)%list)
  /\ (upcomingSessions sessions today = []
      <-> completedToday sessions today = List.length (todaysSessions sessions today)).
Proof.
  unfold upcomingSessions, completedToday.
  set (today_ := todaysSessions sessions today).
  set (pending := filter (fun s => negb (StudySession.completed s)) today_).
  split; [apply firstn_le_length|].
  split.
  { intros s Hs.
    assert (Hp : In s pending).
    { rewrite <- (firstn_skipn 3 pending). apply in_or_app. now left. }
    clear Hs. rename Hp into Hs. subst pending.
    apply filter_In in Hs. destruct Hs as [Hs Hc].
    subst today_. unfold todaysSessions in Hs. apply filter_In in Hs.
    destruct Hs as [Hs Hd].
    split; [exact Hs|].
    split; [now apply String.eqb_eq | now apply negb_true_iff]. }
  split.
  { exists (skipn 3 pending). symmetry. apply firstn_skipn. }
  rewrite (firstn_nil_iff 3 pending) by lia.
  pose proof (filter_split (fun s => StudySession.completed s) today_) as Hsplit.
  cbv beta in Hsplit. fold pending in Hsplit.
  split.
  - intros H. rewrite H in Hsplit. cbn [List.length] in Hsplit. lia.
  - intros H. apply length_zero_iff_nil. lia.
Qed.

(** ** The onboarding flag of the scoped storage *)

Lemma lastChar_append s t : t <> EmptyString -> lastChar (s ++ t) = lastChar t.
Proof.
  intros Ht. induction s as [|a s IH]; [reflexivity|].
  cbn [append lastChar]. rewrite IH.
  destruct (s ++ t)%string eqn:E; [|reflexivity].
  destruct s; [cbn in E; contradiction | discriminate E].
Qed.

Lemma scoped_key_is_not_user_key base ls :
  lastChar base <> lastChar storage.CURRENT_USER_ID -> base <> EmptyString ->
  storage.getScopedKey base ls <> storage.CURRENT_USER_ID.
Proof.
  intros Hlast Hne H. apply (f_equal lastChar) in H.
  assert (Hb : forall p, lastChar (p ++ ":" ++ base) = lastChar base).
  { intros p. rewrite lastChar_append.
    - apply (lastChar_append ":" base Hne).
    - discriminate. }
  unfold storage.getScopedKey in H.
  destruct (storage.getItem storage.CURRENT_USER_ID ls) as [u|].
  - destruct (String.eqb u EmptyString).
    + change ("guest:" ++ base)%string with ("guest" ++ ":" ++ base)%string in H.
      rewrite Hb in H. apply Hlast. exact H.
    + rewrite Hb in H. apply Hlast. exact H.
  - change ("guest:" ++ base)%string with ("guest" ++ ":" ++ base)%string in H.
    rewrite Hb in H. apply Hlast. exact H.
Qed.

Lemma getScopedKey_user base u ls :
  u <> EmptyString ->
  storage.getScopedKey base (storage.setCurrentUserId u ls) = (u ++ ":" ++ base)%string.
Proof.
  intros Hu. unfold storage.getScopedKey, storage.setCurrentUserId, storage.getItem,
    storage.setItem.
  rewrite String.eqb_refl. apply String.eqb_neq in Hu. now rewrite Hu.
Qed.

Lemma getScopedKey_guest base ls :
  storage.getScopedKey base (storage.clearCurrentUserId ls) = ("guest:" ++ base)%string.
Proof.
  unfold storage.getScopedKey, storage.clearCurrentUserId, storage.getItem,
    storage.removeItem.
  now rewrite String.eqb_refl.
Qed.

Lemma getScopedKey_setItem base key v ls :
  key <> storage.CURRENT_USER_ID ->
  storage.getScopedKey base (storage.setItem key v ls) = storage.getScopedKey base ls.
Proof.
  intros Hk. unfold storage.getScopedKey, storage.getItem, storage.setItem.
  replace (String.eqb storage.CURRENT_USER_ID key) with false; [reflexivity|].
  symmetry. apply String.eqb_neq. intros E. apply Hk. now symmetry.
Qed.

(** X15. The onboarding flag is kept per user.  After user [u] is made the
    current user and onboarding is marked complete, the flag reads true and
    [u] is still the current user; the flag read for another user [u'], or
    for a guest after the current user is cleared, is what it was before;
    and it reads true again when [u] comes back after a sign-out. *)
Theorem onboarding_flag_is_scoped_by_user
    (ls : storage.LocalStorage) (u u' : string)
    (Hu : u <> EmptyString)
    (Hu' : u' <> EmptyString)
    (Hne : u <> u')
    (Hguest : u <> "guest"%string) :
  let ls1 := storage.setOnboardingComplete (storage.setCurrentUserId u ls) in
  storage.isOnboardingComplete ls1 = true
  /\ storage.getCurrentUserId ls1 = Some u
  /\ storage.isOnboardingComplete (storage.setCurrentUserId u' ls1)
     = storage.isOnboardingComplete (storage.setCurrentUserId u' ls)
  /\ storage.isOnboardingComplete (storage.clearCurrentUserId ls1)
     = storage.isOnboardingComplete (storage.clearCurrentUserId ls)
  /\ storage.isOnboardingComplete
       (storage.setCurrentUserId u (storage.clearCurrentUserId ls1)) = true.
Proof.
  cbv zeta.
  assert (Hkey : forall l, storage.getScopedKey storage.ONBOARDING_COMPLETE l
                           <> storage.CURRENT_USER_ID).
  { intros l. apply scoped_key_is_not_user_key; discriminate. }
  unfold storage.setOnboardingComplete, storage.isOnboardingComplete.
  rewrite !getScopedKey_setItem by apply Hkey.
  rewrite !getScopedKey_user by assumption.
  rewrite !getScopedKey_guest.
  set (base := storage.ONBOARDING_COMPLETE).
  assert (Hself : String.eqb (u ++ ":" ++ base) (u ++ ":" ++ base) = true)
    by apply String.eqb_refl.
  assert (Hother : String.eqb (u' ++ ":" ++ base) (u ++ ":" ++ base) = false).
  { apply String.eqb_neq. intros E. apply Hne. symmetry.
    now apply (append_cancel_r (":" ++ base)). }
  assert (Hg : String.eqb ("guest:" ++ base) (u ++ ":" ++ base) = false).
  { apply String.eqb_neq. intros E. apply Hguest. symmetry.
    now apply (append_cancel_r (":" ++ base)). }
  assert (Hcur : forall s, String.eqb (s ++ ":" ++ base) storage.CURRENT_USER_ID = false).
  { intros s. apply String.eqb_neq. intros E. apply (f_equal lastChar) in E.
    rewrite lastChar_append in E by discriminate. discriminate E. }
  assert (Hcurg : String.eqb ("guest:" ++ base) storage.CURRENT_USER_ID = false)
    by reflexivity.
  assert (Hcur' : String.eqb storage.CURRENT_USER_ID (u ++ ":" ++ base) = false).
  { rewrite String.eqb_sym. apply Hcur. }
  unfold storage.getCurrentUserId, storage.setCurrentUserId, storage.clearCurrentUserId,
    storage.getItem, storage.setItem, storage.removeItem.
  rewrite ?Hself, ?Hother, ?Hg, ?Hcur, ?Hcurg, ?Hcur', ?String.eqb_refl.
  repeat split.
Qed.
(** ** The clock text determines the time *)

Lemma toString_digits n :
  0 <= n ->
  exists d, toString n = DecimalString.NilEmpty.string_of_uint d /\ Z.of_uint d = n.
Proof.
  intros Hn. unfold toString. destruct n as [|p|p]; [| |lia].
  - exists (Decimal.D0 Decimal.Nil). split; reflexivity.
  - exists (Pos.to_uint p). split.
    + cbn [Z.to_int DecimalString.NilZero.string_of_int].
      unfold DecimalString.NilZero.string_of_uint.
      pose proof (DecimalPos.Unsigned.to_uint_nonnil p) as Hnil.
      destruct (Pos.to_uint p); [contradiction | reflexivity ..].
    + exact (DecimalZ.of_to (Z.pos p)).
Qed.

Lemma zeros_digits k d :
  exists d', (zeros k ++ DecimalString.NilEmpty.string_of_uint d)%string
             = DecimalString.NilEmpty.string_of_uint d'
             /\ Z.of_uint d' = Z.of_uint d.
Proof.
  induction k as [|k (d' & Hs & Hv)].
  - exists d. split; reflexivity.
  - exists (Decimal.D0 d'). split.
    + cbn [zeros append DecimalString.NilEmpty.string_of_uint]. rewrite Hs. reflexivity.
    + rewrite <- Hv. reflexivity.
Qed.

Lemma readDigits_padStart n k :
  0 <= n -> readDigits (padStart (toString n) k) = Some n.
Proof.
  intros Hn. destruct (toString_digits n Hn) as (d & Hs & Hv).
  unfold padStart. rewrite Hs.
  destruct (zeros_digits (k - String.length (DecimalString.NilEmpty.string_of_uint d)) d)
    as (d' & Hs' & Hv').
  rewrite Hs'. unfold readDigits. rewrite DecimalString.NilEmpty.usu.
  cbn [option_map]. now rewrite Hv', Hv.
Qed.

Lemma append_split a a' b b' :
  (a ++ b = a' ++ b')%string -> String.length b = String.length b' ->
  a = a' /\ b = b'.
Proof.
  revert a'. induction a as [|x a IH]; intros [|y a'] H Hl; cbn [append] in H.
  - split; [reflexivity | exact H].
  - apply (f_equal String.length) in H. cbn [String.length] in H.
    rewrite length_append in H. lia.
  - apply (f_equal String.length) in H. cbn [String.length] in H.
    rewrite length_append in H. lia.
  - injection H as -> H. destruct (IH a' H Hl) as [-> ->]. split; reflexivity.
Qed.

Lemma padStart_two_digits n :
  0 <= n < 100 -> String.length (padStart (toString n) 2) = 2%nat.
Proof.
  intros Hn. rewrite <- (Z2Nat.id n) by lia.
  assert (Hk : (Z.to_nat n < 100)%nat) by lia.
  revert Hk. generalize (Z.to_nat n). intros k Hk.
  do 100 (destruct k as [|k]; [vm_compute; reflexivity|]).
  lia.
Qed.

(** X16. The clock text of a time that is not negative determines the
    time: two such times with the same text are equal.  Below 100 minutes
    the text has five characters, two digits on each side of the colon. *)
Theorem clock_text_determines_time
    (t1 t2 : Z)
    (H1 : 0 <= t1)
    (H2 : 0 <= t2)
    (Htext : formatSeconds t1 = formatSeconds t2) :
  t1 = t2 /\ (t1 < 6000 -> String.length (formatSeconds t1) = 5%nat).
Proof.
  assert (Hsec : forall t, 0 <= t -> Z.rem t 60 = t mod 60 /\ 0 <= t mod 60 < 60).
  { intros t Ht. split; [apply Z.rem_mod_nonneg; lia | apply Z.mod_pos_bound; lia]. }
  assert (Hlen : forall t, 0 <= t ->
            String.length (":" ++ padStart (toString (Z.rem t 60)) 2) = 3%nat).
  { intros t Ht. destruct (Hsec t Ht) as [-> Hr].
    cbn [append String.length]. rewrite padStart_two_digits by lia. reflexivity. }
  split.
  - unfold formatSeconds in Htext. cbv zeta in Htext.
    apply append_split in Htext; [|now rewrite !Hlen].
    destruct Htext as [Hm Hs].
    injection Hs as Hs.
    apply (f_equal readDigits) in Hm, Hs.
    destruct (Hsec t1 H1) as [E1 B1]. destruct (Hsec t2 H2) as [E2 B2].
    rewrite E1, E2 in Hs.
    rewrite !readDigits_padStart in Hm, Hs
      by first [lia | apply Z.div_pos; lia].
    injection Hm as Hm. injection Hs as Hs.
    rewrite (Z.div_mod t1 60), (Z.div_mod t2 60) by lia. now rewrite Hm, Hs.
  - intros Hlt. unfold formatSeconds. cbv zeta.
    rewrite length_append, Hlen by exact H1.
    rewrite padStart_two_digits; [reflexivity|].
    split; [apply Z.div_pos; lia | apply Z.div_lt_upper_bound; lia].
Qed.

(** ** Coming back to the tab *)

Lemma step_visible_running env w a :
  isRunning (st (onVisibility w)) = true ->
  phaseStartEpochMsRef w = Some a -> a <> 0 ->
  0 < remainingAt (onVisibility w) env a ->
  step env Visible w = setRemainingSeconds (remainingAt (onVisibility w) env a) w.
Proof.
  intros Hrun Ha Hnz Hpos.
  assert (Hev : forall uid, Visible <> AuthResolved uid) by discriminate.
  rewrite (step_commit env Visible w Hev).
  cbn [handle]. unfold reading.
  rewrite (recomputeRemaining_running _ env w a Hrun Ha Hnz).
  replace (remainingAt (onVisibility w) env a =? 0) with false
    by (symmetry; apply Z.eqb_neq; lia).
  apply runEffects_settled.
  - rewrite !preferences_render. reflexivity.
  - rewrite !st_render. reflexivity.
Qed.

(** X17. Coming back to the tab shows what a tick would show.  In a world a
    session can reach, with the timer running from an anchor that is not
    zero and the phase not yet elapsed, the visibility or focus event and
    the tick at the same clock leave the same state, the same anchor and
    the same interval, and the time they show is the duration less the
    whole seconds since the anchor. *)
Theorem visible_agrees_with_tick
    (w : World) (env : Env) (a : Z)
    (Hreach : reachable w)
    (Hrun : isRunning (next w) = true)
    (Ha : phaseStartEpochMsRef w = Some a)
    (Hnz : a <> 0)
    (Hleft : (now env - a) / 1000 < phaseDurationSeconds (render w)) :
  next (step env Visible w) = next (step env Tick w)
  /\ phaseStartEpochMsRef (step env Visible w) = phaseStartEpochMsRef (step env Tick w)
  /\ tickIntervalRef (step env Visible w) = tickIntervalRef (step env Tick w)
  /\ remainingSeconds (next (step env Visible w))
     = phaseDurationSeconds (render w) - (now env - a) / 1000
  /\ isRunning (next (step env Visible w)) = true.
Proof.
  destruct (interval_coherence_of_reachable w Hreach) as [Hi [Hlr Hld]].
  unfold intervalCoherent in Hi.
  destruct (tickIntervalRef w) as [c|] eqn:Hint; [|congruence].
  destruct Hi as (_ & _ & _ & Hcd).
  assert (Hrl : remainingAt (onVisibility w) env a
                = phaseDurationSeconds (render w) - (now env - a) / 1000)
    by (unfold remainingAt; rewrite Hld; lia).
  assert (Hrc : remainingAt c env a
                = phaseDurationSeconds (render w) - (now env - a) / 1000)
    by (unfold remainingAt; rewrite Hcd; lia).
  rewrite (step_visible_running env w a) by (rewrite ?Hlr, ?Hrl; first [assumption | lia]).
  rewrite (step_tick_running env w c a Hint Ha Hnz) by (rewrite Hrc; lia).
  rewrite Hrl, Hrc.
  cbn [next phaseStartEpochMsRef tickIntervalRef setRemainingSeconds setState
       remainingSeconds isRunning].
  rewrite persistState_next, persistState_anchor, persistState_interval.
  repeat split. exact Hrun.
Qed.

(** ** One row per completed focus phase *)

Lemma step_tick_elapsed_sent env w c a :
  tickIntervalRef w = Some c ->
  phaseStartEpochMsRef w = Some a -> a <> 0 ->
  phaseDurationSeconds c <= (now env - a) / 1000 ->
  sent (step env Tick w) = sent (handlePhaseComplete c env (setTickIntervalRef None w))
  /\ isRunning (next (step env Tick w)) = false.
Proof.
  intros Hint Ha Hnz Hexp.
  assert (Hev : forall uid, Tick <> AuthResolved uid) by discriminate.
  rewrite (step_commit env Tick w Hev).
  pose proof (step_restoreDeps env Tick w Hev) as Hr.
  rewrite (runEffects_sent _ _ env Hr).
  pose proof (runEffects_core _ _ env Hr (handle Tick (render w) env w)) as Hc.
  cbv beta in Hc. apply core_fields in Hc. destruct Hc as (_ & _ & _ & -> & _).
  cbn [handle]. unfold reading. rewrite Hint.
  rewrite (tick_running c env w a Ha Hnz).
  replace (remainingAt c env a =? 0) with true
    by (symmetry; apply Z.eqb_eq; unfold remainingAt; lia).
  cbn [sent next setRemainingSeconds setState isRunning].
  rewrite persistState_sent, persistState_next.
  split; [reflexivity | apply handlePhaseComplete_stops].
Qed.

(** X18. A focus phase that elapses while the page is open is logged once.
    In a world a session can reach, when the tick finds the focus phase of
    its closure elapsed, with subjects and a signed-in user, that step sends
    exactly one session row; after it the timer is stopped, and no later
    tick and no later visibility or focus event changes anything or sends
    anything. *)
Theorem elapsed_focus_is_logged_once
    (w : World) (env : Env) (c : Render) (a : Z)
    (Hreach : reachable w)
    (Hint : tickIntervalRef w = Some c)
    (Ha : phaseStartEpochMsRef w = Some a)
    (Hnz : a <> 0)
    (Hexp : phaseDurationSeconds c <= (now env - a) / 1000)
    (Hfocus : phase (st c) = focus)
    (Hsubjects : hasSubjects c = true)
    (Huser : userAvailable env = true) :
  let w' := step env Tick w in
  sessionsLogged (sent w') = S (sessionsLogged (sent w))
  /\ isRunning (next w') = false
  /\ (forall env', step env' Tick w' = w' /\ step env' Visible w' = w').
Proof.
  cbv zeta.
  destruct (step_tick_elapsed_sent env w c a Hint Ha Hnz Hexp) as [Hsent Hstop].
  split.
  - rewrite Hsent, handlePhaseComplete_sent, Hfocus.
    destruct (logCompletedFocusSession_count c env
                (focusStartTimeRef (setTickIntervalRef None w))
                (roundDiv (phaseDurationSeconds c) 60)
                (sent (setTickIntervalRef None w))) as [Hs _].
    rewrite Hs, Hsubjects, Huser. cbn [andb sent setTickIntervalRef]. lia.
  - split; [exact Hstop|].
    intros env'. apply coherent_stopped_idle; [|exact Hstop].
    apply interval_coherence_of_reachable. now apply reachable_step.
Qed.

(** ** Leaving the page and coming back *)






(** ** Instances *)

(** The reachable world of a focus phase started at [t0]. *)
Lemma interval_follows_running_flag_witness :
  reachable startedAt_t0
  /\ isRunning (st (onVisibility startedAt_t0)) = isRunning (next startedAt_t0).
Proof.
  assert (H1 : reachable startedAt_t0)
    by (unfold startedAt_t0; apply reachable_step, reachable_mount).
  split; [exact H1|].
  destruct (interval_follows_running_flag startedAt_t0 H1) as (_ & H & _).
  exact H.
Defined.

(** A freshly mounted timer and a tick one second later. *)
Lemma stopped_timer_ignores_clock_events_witness :
  let w := mount (answers t0) examplePreferences emptyStorage in
  reachable w
  /\ isRunning (next w) = false
  /\ step (answers (t0 + 1000)) Tick w = w.
Proof.
  cbv zeta.
  assert (H1 : reachable (mount (answers t0) examplePreferences emptyStorage))
    by apply reachable_mount.
  assert (H2 : isRunning (next (mount (answers t0) examplePreferences emptyStorage)) = false)
    by (vm_compute; reflexivity).
  split; [exact H1|]. split; [exact H2|].
  destruct (stopped_timer_ignores_clock_events
              (mount (answers t0) examplePreferences emptyStorage)
              (answers (t0 + 1000)) H1 H2) as [H _].
  exact H.
Defined.


(** Ticks after one and after two minutes of a focus phase started at [t0]. *)
Lemma missed_ticks_do_not_matter_witness :
  tickIntervalRef startedAt_t0 = Some (render startedAt_t0)
  /\ phaseStartEpochMsRef startedAt_t0 = Some t0
  /\ 0 < Z.max 0 (phaseDurationSeconds (render startedAt_t0)
                  - (now (answers (t0 + 60000)) - t0) / 1000)
  /\ next (step (answers (t0 + 120000)) Tick
             (step (answers (t0 + 60000)) Tick startedAt_t0))
     = next (step (answers (t0 + 120000)) Tick startedAt_t0).
Proof.
  assert (H1 : tickIntervalRef startedAt_t0 = Some (render startedAt_t0))
    by (vm_compute; reflexivity).
  assert (H2 : phaseStartEpochMsRef startedAt_t0 = Some t0) by (vm_compute; reflexivity).
  assert (H3 : t0 <> 0) by discriminate.
  assert (H4 : 0 < Z.max 0 (phaseDurationSeconds (render startedAt_t0)
                            - (now (answers (t0 + 60000)) - t0) / 1000))
    by (vm_compute; reflexivity).
  split; [exact H1|]. split; [exact H2|]. split; [exact H4|].
  destruct (missed_ticks_do_not_matter startedAt_t0 (answers (t0 + 60000))
              (answers (t0 + 120000)) (render startedAt_t0) t0 H1 H2 H3 H4) as (H & _).
  exact H.
Defined.

(** The snapshot of a freshly mounted timer, read back in the same render. *)
Lemma snapshot_round_trip_witness :
  let w := mount (answers t0) examplePreferences emptyStorage in
  isRunning (st (render w)) = false
  /\ remainingSeconds
       (next (restoreEffect (render w) (answers t0) (persistState (render w) noOverride w)))
     = 1500.
Proof.
  cbv zeta.
  set (w := mount (answers t0) examplePreferences emptyStorage).
  assert (H1 : stateKey (render w) = stateKey (render w)) by reflexivity.
  assert (H2 : isRunning (st (render w)) = false) by (vm_compute; reflexivity).
  split; [exact H2|].
  destruct (snapshot_round_trip (render w) (render w) (answers t0) w H1 H2)
    as (_ & _ & _ & _ & H & _).
  rewrite H. vm_compute. reflexivity.
Defined.

(** User [u1] signs in a minute after the snapshot's phase was started. *)
Lemma sign_in_resumes_running_snapshot_witness :
  let w := mount (answers (t0 + 60000)) examplePreferences (userStorage runningSnapshot) in
  isRunning (next w) = false
  /\ localStorage w "u1:timer-state" = Some runningSnapshot
  /\ remainingSeconds (next (step (answers (t0 + 60000)) (AuthResolved (Some "u1")) w))
     = 1440.
Proof.
  cbv zeta.
  set (w := mount (answers (t0 + 60000)) examplePreferences (userStorage runningSnapshot)).
  assert (H1 : stateKey (render (setUserId (Some "u1"%string) w)) <> stateKey (render w))
    by (vm_compute; discriminate).
  assert (H2 : localStorage w (stateKey (render (setUserId (Some "u1"%string) w)))
               = Some runningSnapshot) by (vm_compute; reflexivity).
  assert (H3 : isRunning (next w) = false) by (vm_compute; reflexivity).
  assert (H4 : TimerPersistedState.isRunning runningSnapshot = true) by reflexivity.
  assert (H5 : TimerPersistedState.phaseStartEpochMs runningSnapshot = Some t0)
    by reflexivity.
  assert (H6 : t0 <> 0) by discriminate.
  assert (H7 : 0 < Z.max 0 (orNum (TimerPersistedState.phaseDurationSeconds runningSnapshot)
                                  (phaseDurationSeconds (render w))
                            - (now (answers (t0 + 60000)) - t0) / 1000))
    by (vm_compute; reflexivity).
  split; [exact H3|]. split; [exact H2|].
  destruct (sign_in_resumes_running_snapshot w (answers (t0 + 60000)) (Some "u1"%string)
              runningSnapshot t0 H1 H2 H3 H4 H5 H6 H7) as (_ & _ & _ & _ & H & _).
  rewrite H. vm_compute. reflexivity.
Defined.

(** User [u1] signs in over a paused snapshot with 600 s left. *)
Lemma sign_in_restores_stopped_snapshot_witness :
  let w := mount (answers t0) examplePreferences (userStorage pausedSnapshot) in
  localStorage w "u1:timer-state" = Some pausedSnapshot
  /\ TimerPersistedState.isRunning pausedSnapshot = false
  /\ remainingSeconds (next (step (answers t0) (AuthResolved (Some "u1")) w)) = 600.
Proof.
  cbv zeta.
  set (w := mount (answers t0) examplePreferences (userStorage pausedSnapshot)).
  assert (H1 : stateKey (render (setUserId (Some "u1"%string) w)) <> stateKey (render w))
    by (vm_compute; discriminate).
  assert (H2 : localStorage w (stateKey (render (setUserId (Some "u1"%string) w)))
               = Some pausedSnapshot) by (vm_compute; reflexivity).
  assert (H3 : TimerPersistedState.isRunning pausedSnapshot = false) by reflexivity.
  split; [exact H2|]. split; [exact H3|].
  destruct (sign_in_restores_stopped_snapshot w (answers t0) (Some "u1"%string)
              pausedSnapshot H1 H2 H3) as (_ & _ & _ & _ & H & _).
  rewrite H. vm_compute. reflexivity.
Defined.

(** The renders of users [u1] and [u2]. *)
Lemma state_key_separates_users_witness :
  let c := render (setUserId (Some "u1") (initialWorld examplePreferences emptyStorage)) in
  let c' := render (setUserId (Some "u2") (initialWorld examplePreferences emptyStorage)) in
  userId (st c) = Some "u1"%string
  /\ userId (st c') = Some "u2"%string
  /\ stateKey c <> stateKey c'.
Proof.
  cbv zeta.
  set (c := render (setUserId (Some "u1"%string)
                      (initialWorld examplePreferences emptyStorage))).
  set (c' := render (setUserId (Some "u2"%string)
                       (initialWorld examplePreferences emptyStorage))).
  assert (H1 : userId (st c) = Some "u1"%string) by reflexivity.
  assert (H2 : userId (st c') = Some "u2"%string) by reflexivity.
  assert (H3 : "u1"%string <> EmptyString) by discriminate.
  assert (H4 : "u2"%string <> EmptyString) by discriminate.
  split; [exact H1|]. split; [exact H2|].
  destruct (state_key_separates_users c c' "u1" "u2" H1 H2 H3 H4) as [H _].
  intros E. apply H in E. discriminate E.
Defined.

(** A tick of the guest's timer and the slot of user [u9]. *)
Lemma step_leaves_other_slots_witness :
  "u9:timer-state"%string <> stateKey (render startedAt_t0)
  /\ localStorage (step (answers (t0 + 60000)) Tick startedAt_t0) "u9:timer-state"
     = localStorage startedAt_t0 "u9:timer-state".
Proof.
  assert (H1 : forall uid, Tick <> AuthResolved uid) by (intros uid; discriminate).
  assert (H2 : "u9:timer-state"%string <> stateKey (render startedAt_t0))
    by (vm_compute; discriminate).
  assert (H3 : match tickIntervalRef startedAt_t0 with
               | Some c => "u9:timer-state"%string <> stateKey c
               | None => True
               end) by (vm_compute; discriminate).
  assert (H4 : "u9:timer-state"%string <> stateKey (onVisibility startedAt_t0))
    by (vm_compute; discriminate).
  split; [exact H2|].
  exact (step_leaves_other_slots startedAt_t0 (answers (t0 + 60000)) Tick
           "u9:timer-state" H1 H2 H3 H4).
Defined.

(** The first focus phase of a cycle of four: position 1, a short break next. *)
Lemma cycle_indicator_announces_long_break_witness :
  0 <= completedFocusCount (st (render startedAt_t0))
  /\ phase (st (render startedAt_t0)) = focus
  /\ 1 <= cycleIndicator (render startedAt_t0) <= sessionsUntilLongBreak (render startedAt_t0).
Proof.
  assert (H1 : 0 <= completedFocusCount (st (render startedAt_t0)))
    by (vm_compute; discriminate).
  assert (H2 : phase (st (render startedAt_t0)) = focus) by (vm_compute; reflexivity).
  split; [exact H1|]. split; [exact H2|].
  destruct (cycle_indicator_announces_long_break (render startedAt_t0) (answers t0)
              startedAt_t0 H1 H2) as [H _].
  exact H.
Defined.


(** Two ticks of the focus phase started at [t0], one second apart. *)
Lemma countdown_never_rises_witness :
  now (answers (t0 + 1000)) <= now (answers (t0 + 2000))
  /\ 0 <= remainingSeconds
            (next (tick (render startedAt_t0) (answers (t0 + 2000)) startedAt_t0))
       <= remainingSeconds
            (next (tick (render startedAt_t0) (answers (t0 + 1000)) startedAt_t0)).
Proof.
  assert (H1 : now (answers (t0 + 1000)) <= now (answers (t0 + 2000)))
    by (vm_compute; discriminate).
  split; [exact H1|].
  destruct (countdown_never_rises (render startedAt_t0) (answers (t0 + 1000))
              (answers (t0 + 2000)) startedAt_t0 H1) as [H _].
  exact H.
Defined.

(** Users [u1] and [u2] over an empty storage. *)
Lemma onboarding_flag_is_scoped_by_user_witness :
  let ls1 := storage.setOnboardingComplete
               (storage.setCurrentUserId "u1" (fun _ => None)) in
  "u1"%string <> "u2"%string
  /\ storage.isOnboardingComplete ls1 = true
  /\ storage.isOnboardingComplete (storage.setCurrentUserId "u2" ls1)
     = storage.isOnboardingComplete (storage.setCurrentUserId "u2" (fun _ => None)).
Proof.
  cbv zeta.
  assert (H1 : "u1"%string <> EmptyString) by discriminate.
  assert (H2 : "u2"%string <> EmptyString) by discriminate.
  assert (H3 : "u1"%string <> "u2"%string) by discriminate.
  assert (H4 : "u1"%string <> "guest"%string) by discriminate.
  split; [exact H3|].
  destruct (onboarding_flag_is_scoped_by_user (fun _ => None) "u1" "u2" H1 H2 H3 H4)
    as (Ha & _ & Hb & _).
  split; [exact Ha | exact Hb].
Defined.

(** The text of 25 minutes. *)
Lemma clock_text_determines_time_witness :
  formatSeconds 1500 = "25:00"%string
  /\ String.length (formatSeconds 1500) = 5%nat.
Proof.
  assert (H1 : 0 <= 1500) by discriminate.
  assert (H2 : formatSeconds 1500 = formatSeconds 1500) by reflexivity.
  split; [vm_compute; reflexivity|].
  destruct (clock_text_determines_time 1500 1500 H1 H1 H2) as [_ H].
  apply H. reflexivity.
Defined.

(** Coming back to the tab a minute into the focus phase started at [t0]. *)
Lemma visible_agrees_with_tick_witness :
  reachable startedAt_t0
  /\ isRunning (next startedAt_t0) = true
  /\ phaseStartEpochMsRef startedAt_t0 = Some t0
  /\ remainingSeconds (next (step (answers (t0 + 60000)) Visible startedAt_t0)) = 1440.
Proof.
  assert (H1 : reachable startedAt_t0)
    by (unfold startedAt_t0; apply reachable_step, reachable_mount).
  assert (H2 : isRunning (next startedAt_t0) = true) by (vm_compute; reflexivity).
  assert (H3 : phaseStartEpochMsRef startedAt_t0 = Some t0) by (vm_compute; reflexivity).
  assert (H4 : t0 <> 0) by discriminate.
  assert (H5 : (now (answers (t0 + 60000)) - t0) / 1000
               < phaseDurationSeconds (render startedAt_t0))
    by (vm_compute; reflexivity).
  split; [exact H1|]. split; [exact H2|]. split; [exact H3|].
  destruct (visible_agrees_with_tick startedAt_t0 (answers (t0 + 60000)) t0
              H1 H2 H3 H4 H5) as (_ & _ & _ & H & _).
  rewrite H. vm_compute. reflexivity.
Defined.

(** The focus phase started at [t0], found elapsed by the tick at its end. *)
Lemma elapsed_focus_is_logged_once_witness :
  reachable startedAt_t0
  /\ tickIntervalRef startedAt_t0 = Some (render startedAt_t0)
  /\ phaseDurationSeconds (render startedAt_t0)
     <= (now (answers (t0 + 1500000)) - t0) / 1000
  /\ userAvailable (answers (t0 + 1500000)) = true
  /\ sessionsLogged (sent (step (answers (t0 + 1500000)) Tick startedAt_t0)) = 1%nat.
Proof.
  assert (H1 : reachable startedAt_t0)
    by (unfold startedAt_t0; apply reachable_step, reachable_mount).
  assert (H2 : tickIntervalRef startedAt_t0 = Some (render startedAt_t0))
    by (vm_compute; reflexivity).
  assert (H3 : phaseStartEpochMsRef startedAt_t0 = Some t0) by (vm_compute; reflexivity).
  assert (H4 : t0 <> 0) by discriminate.
  assert (H5 : phaseDurationSeconds (render startedAt_t0)
               <= (now (answers (t0 + 1500000)) - t0) / 1000)
    by (vm_compute; discriminate).
  assert (H6 : phase (st (render startedAt_t0)) = focus) by (vm_compute; reflexivity).
  assert (H7 : hasSubjects (render startedAt_t0) = true) by (vm_compute; reflexivity).
  assert (H8 : userAvailable (answers (t0 + 1500000)) = true) by reflexivity.
  split; [exact H1|]. split; [exact H2|]. split; [exact H5|]. split; [exact H8|].
  destruct (elapsed_focus_is_logged_once startedAt_t0 (answers (t0 + 1500000))
              (render startedAt_t0) t0 H1 H2 H3 H4 H5 H6 H7 H8) as (H & _).
  rewrite H. vm_compute. reflexivity.
Defined.

